(** * OTP lifecycle of the bizkey backend

    A shallow embedding of the OTP controller (sendOTP, verifyOTP,
    resendOTP, getOTPStatus), of the Notification model it writes to, of
    the notification controller and the authentication middleware in
    front of it, and of the WhatsApp service.

    Conventions of the embedding

    - Dates are milliseconds since the epoch, as [Z]; subtracting two
      dates gives milliseconds, as in JavaScript.  A handler reads the
      clock once: every [new Date()] of one request is the argument [now].
    - A MongoDB collection is the list of its documents in insertion
      order.  OTP documents are never deleted, so a document is
      identified by its position, and that position is its [_id].
    - [findOne(q).sort({createdAt: -1})] returns the matching document
      with the greatest [createdAt]; among equal dates the one inserted
      last (MongoDB leaves that order open).
    - The database itself does not fail.  What can throw inside a
      handler is JavaScript (a property read on [null]), Mongoose's
      validation of a document against its schema and Mongoose's cast of
      the values of a query; all are caught by the handler's
      [try]/[catch] and answered with status 500.
    - The random draw of [Otp.generateOTP()] is an argument of the handler
      that makes it.
    - The requests to the OTP controller are about clients: their
      [clientId] is an object id.  The submitted code is what the JSON
      body holds under [otp]: a string, or a value of another type, which
      Mongoose casts where it is the value of a query and JavaScript
      compares as it is. *)

From Stdlib Require Import ZArith String Ascii List Bool Lia.
From stdpp Require Import base option list gmap strings pretty.

Import ListNotations.
Local Open Scope string_scope.
Local Open Scope Z_scope.

(** ** Identifiers and dates *)

Definition ObjectId := nat.
Definition Date := Z.

(** ** Documents *)

Module Client.

Record t := mk {
  name : string;
  phone : option string
}.

End Client.

Module User.

Record t := mk {
  _id : ObjectId;
  firstName : string;
  lastName : string
}.

End User.

Module Otp.

Record t := mk {
  client : ObjectId;
  otp : string;
  phone : string;
  createdAt : Date;
  expiresAt : Date;
  attempts : Z;
  isUsed : bool
}.

Definition set_isUsed (b : bool) (r : t) : t :=
  mk (client r) (otp r) (phone r) (createdAt r) (expiresAt r) (attempts r) b.

Definition set_attempts (n : Z) (r : t) : t :=
  mk (client r) (otp r) (phone r) (createdAt r) (expiresAt r) n (isUsed r).

(** Modelled from the spec: models/Otp.js is not among the sources.  The
    time to live of a code, "expiresAt = now + 5 minutes". *)
Definition ttl : Z := 5 * 60 * 1000.

(** Modelled from the spec: models/Otp.js is not among the sources.  The
    attempts cap of the validity predicate, "attempts < 3". *)
Definition maxAttempts : Z := 3.

(** Modelled from the spec: models/Otp.js is not among the sources.  The
    validity predicate: "true iff record.isUsed == false AND
    now < record.expiresAt AND record.attempts < 3". *)
Definition isValid (r : t) (now : Date) : bool :=
  negb (isUsed r) && (now <? expiresAt r) && (attempts r <? maxAttempts).

(** Modelled from the spec: models/Otp.js is not among the sources.  The
    schema defaults of [new Otp({client, otp, phone})]: created now,
    expiring a time to live later, "attempts = 0, isUsed = false". *)
Definition new (client : ObjectId) (otp phone : string) (now : Date) : t :=
  mk client otp phone now (now + ttl) 0 false.

(** *** The collection

    A query document is the predicate it denotes. *)

Definition Query := t -> bool.

(** [findOne(q).sort({ createdAt: -1 })]: the position and the document. *)
Fixpoint findLatest (q : Query) (l : list t) : option (nat * t) :=
  match l with
  | [] => None
  | r :: l' =>
      match findLatest q l' with
      | Some (j, b) =>
          if q r && (createdAt b <? createdAt r) then Some (O, r)
          else Some (S j, b)
      | None => if q r then Some (O, r) else None
      end
  end.

(** [updateMany(q, u)] *)
Definition updateMany (q : Query) (u : t -> t) (l : list t) : list t :=
  map (fun r => if q r then u r else r) l.

(** [doc.save()] of a new document: the position it gets is its [_id]. *)
Definition insert (r : t) (l : list t) : list t := l ++ [r].

(** [doc.save()] of a document that was read from the collection. *)
Definition save (i : nat) (r : t) (l : list t) : list t := <[i := r]> l.

End Otp.

Module Notification.

Inductive type := otp_sent | otp_resent | otp_verified.

Inductive status := success | failed.

Record t := mk {
  type_ : type;
  salesman : ObjectId;
  client : ObjectId;
  clientName : string;
  clientPhone : string;
  salesmanName : string;
  message : string;
  status_ : status;
  otpId : option ObjectId;
  deliveryMethod : string;
  isRead : bool;
  createdAt : Date;              (* timestamps: true *)
  updatedAt : Date
}.

(** [createdAt] and [updatedAt] are the timestamps of the schema
    ([timestamps: true]): Mongoose sets both when the document is saved
    and [updatedAt] again whenever an update touches it.  A handler reads
    the clock once, so the document it builds carries its time from the
    start.

    The schema marks clientName, clientPhone, salesmanName and message as
    required strings; Mongoose's required validator rejects the empty
    string.  The other required paths (type, salesman, client) are always
    given a value by the controller. *)
Definition nonempty (s : string) : bool :=
  match s with EmptyString => false | String _ _ => true end.

Definition validate (n : t) : bool :=
  nonempty (clientName n) && nonempty (clientPhone n)
  && nonempty (salesmanName n) && nonempty (message n).

End Notification.

(** ** The database *)

Record DB := mkDB {
  clients : gmap ObjectId Client.t;
  otps : list Otp.t;
  notifications : list Notification.t
}.

Definition set_otps (l : list Otp.t) (db : DB) : DB :=
  mkDB (clients db) l (notifications db).

Definition set_notifications (l : list Notification.t) (db : DB) : DB :=
  mkDB (clients db) (otps db) l.

(** ** Requests and responses *)

(** [req.body.otp], as [express.json()] leaves it.  The [otp] path of
    the schema is a string, and Mongoose casts the value a query gives for
    it: a string stays what it is; a value of another type is cast to what
    the query then looks for (the number 123456 to the string "123456"),
    [found] telling the stored codes it matches; and a value the cast
    refuses makes the query throw a CastError. *)
Inductive Submitted :=
| Str (s : string)
| NotStr (found : string -> bool)
| Refused.

(** The number whose writing [String(n)] is [writing]. *)
Definition number (writing : string) : Submitted :=
  NotStr (String.eqb writing).

Record Request := mkRequest {
  errors : list string;          (* validationResult(req) *)
  body_clientId : ObjectId;      (* req.body.clientId *)
  body_otp : Submitted;          (* req.body.otp *)
  params_clientId : ObjectId;    (* req.params.clientId *)
  user : option User.t           (* req.user *)
}.

(** The JSON bodies the controller sends.  [Failure] is
    [{success: false, message}] with [attemptsLeft] when present;
    [NoOtpFound] is
    [{success: true, data: {hasActiveOTP: false, message: 'No OTP found'}}];
    the others are [{success: true, ...}] with the fields listed. *)
Inductive Body :=
| ValidationFailed (errs : list string)
| Failure (message : string) (attemptsLeft : option Z)
| OtpIssued (message : string) (clientId : ObjectId) (clientName phone : string)
    (expiresIn : string) (expiresAt : Date) (deliveryMethod otp : string)
| OtpVerified (message : string) (clientId : ObjectId) (clientName : string)
    (phone : option string) (verifiedAt : Date)
| NoOtpFound
| OtpStatus (hasActiveOTP isUsed : bool) (attempts timeLeft : Z)
    (expiresAt : Date).

Record Response := mkResponse {
  status : Z;
  body : Body
}.

Definition success (b : Body) : bool :=
  match b with
  | ValidationFailed _ | Failure _ _ => false
  | _ => true
  end.

(** ** Handlers: state and exceptions *)

Inductive Error := TypeError | ValidationError | CastError.

Definition Handler (A : Type) : Type := DB -> DB * (Error + A).

Definition ret {A} (a : A) : Handler A := fun db => (db, inr a).

Definition throw {A} (e : Error) : Handler A := fun db => (db, inl e).

Definition bind {A B} (m : Handler A) (k : A -> Handler B) : Handler B :=
  fun db =>
    match m db with
    | (db', inr a) => k a db'
    | (db', inl e) => (db', inl e)
    end.

Notation "'let*' x := m 'in' k" := (bind m (fun x => k))
  (at level 10, x name, m at level 100, k at level 200).

(** [try { ... } catch (error) { res.status(500).json(...) }]: what the
    body wrote before it threw stays written. *)
Definition try_catch (m : Handler Response) (h : Error -> Response)
  : DB -> DB * Response :=
  fun db =>
    match m db with
    | (db', inr r) => (db', r)
    | (db', inl e) => (db', h e)
    end.

Definition serverError (_ : Error) : Response :=
  mkResponse 500 (Failure "Server error" None).

(** *** The models, as the controller calls them *)

Definition Client_findById (id : ObjectId) : Handler (option Client.t) :=
  fun db => (db, inr (clients db !! id)).

Definition Otp_findOne_sort (q : Otp.Query)
  : Handler (option (ObjectId * Otp.t)) :=
  fun db => (db, inr (Otp.findLatest q (otps db))).

Definition Otp_updateMany (q : Otp.Query) (u : Otp.t -> Otp.t) : Handler unit :=
  fun db => (set_otps (Otp.updateMany q u (otps db)) db, inr tt).

Definition Otp_create (r : Otp.t) : Handler ObjectId :=
  fun db => (set_otps (Otp.insert r (otps db)) db, inr (length (otps db))).

Definition Otp_save (i : ObjectId) (r : Otp.t) : Handler unit :=
  fun db => (set_otps (Otp.save i r (otps db)) db, inr tt).

Definition Notification_save (n : Notification.t) : Handler unit :=
  fun db =>
    if Notification.validate n
    then (set_notifications (notifications db ++ [n]) db, inr tt)
    else (db, inl ValidationError).

(** ** services/whatsappService.js *)

Module WhatsAppService.

(** [\D] is every character but [0] to [9]. *)
Definition isDigit (c : ascii) : bool :=
  let n := nat_of_ascii c in (48 <=? n)%nat && (n <=? 57)%nat.

(** [phone.replace(/\D/g, '')] *)
Fixpoint replaceNonDigits (s : string) : string :=
  match s with
  | EmptyString => EmptyString
  | String c s' =>
      if isDigit c then String c (replaceNonDigits s')
      else replaceNonDigits s'
  end.

Definition formatPhoneNumber (phone : string) : string :=
  let cleanPhone := replaceNonDigits phone in
  if (String.length cleanPhone =? 10)%nat then "91" +:+ cleanPhone
  else cleanPhone.

End WhatsAppService.

(** ** The OTP controller

    The controller over models/Otp, models/Client and
    models/Notification; its text follows the service's in
    services/whatsappService.js. *)

(** [Math.ceil(a / b)] and [Math.floor(a / b)] on integers, [b] positive. *)
Definition Math_ceil_div (a b : Z) : Z := - ((- a) / b).
Definition Math_floor_div (a b : Z) : Z := a / b.

Definition isEmpty (errs : list string) : bool :=
  match errs with [] => true | _ => false end.

(** [{ client: clientId, isUsed: false }] *)
Definition unusedOf (clientId : ObjectId) : Otp.Query :=
  fun r => (Otp.client r =? clientId)%nat && negb (Otp.isUsed r).

(** Whether the stored code [stored] is one the query value [otp] looks
    for, once cast. *)
Definition matchesCode (otp : Submitted) (stored : string) : bool :=
  match otp with
  | Str s => String.eqb stored s
  | NotStr found => found stored
  | Refused => false
  end.

(** [{ client: clientId, otp: otp, isUsed: false }] *)
Definition unusedWithCode (clientId : ObjectId) (otp : Submitted)
  : Otp.Query :=
  fun r => (Otp.client r =? clientId)%nat && matchesCode otp (Otp.otp r)
           && negb (Otp.isUsed r).

(** [Otp.findOne({ client: clientId, otp: otp, isUsed: false })
    .sort({ createdAt: -1 })]: the query is cast before it runs. *)
Definition Otp_findOne_code_sort (clientId : ObjectId) (otp : Submitted)
  : Handler (option (ObjectId * Otp.t)) :=
  match otp with
  | Refused => throw CastError
  | _ => Otp_findOne_sort (unusedWithCode clientId otp)
  end.

(** [stored !== otp], for the string [stored]: a value of another type is
    never identical to a string. *)
Definition strictNotEqual (stored : string) (otp : Submitted) : bool :=
  match otp with
  | Str s => negb (String.eqb stored s)
  | _ => true
  end.

(** [{ client: clientId }] *)
Definition anyOf (clientId : ObjectId) : Otp.Query :=
  fun r => (Otp.client r =? clientId)%nat.

Definition sendOTP (req : Request) (now : Date) (generated : string)
  : DB -> DB * Response :=
  try_catch
    (if negb (isEmpty (errors req)) then
       ret (mkResponse 400 (ValidationFailed (errors req)))
     else
       let clientId := body_clientId req in
       let* client := Client_findById clientId in
       match client with
       | None => ret (mkResponse 404 (Failure "Client not found" None))
       | Some client =>
           match Client.phone client with
           | None | Some EmptyString =>
               ret (mkResponse 400
                      (Failure "Client does not have a phone number" None))
           | Some phone =>
               let otpCode := generated in
               let* _ := Otp_updateMany (unusedOf clientId)
                           (Otp.set_isUsed true) in
               let otp := Otp.new clientId otpCode phone now in
               let* otp_id := Otp_create otp in
               let* _ :=
                 match user req with
                 | Some u =>
                     Notification_save
                       (Notification.mk Notification.otp_sent
                          (User._id u) clientId (Client.name client) phone
                          (User.firstName u +:+ " " +:+ User.lastName u)
                          ("OTP sent to " +:+ Client.name client
                           +:+ " (" +:+ phone +:+ ")")
                          Notification.success (Some otp_id)
                          "Testing Mode (No WhatsApp)" false now now)
                 | None => ret tt
                 end in
               ret (mkResponse 200
                      (OtpIssued
                         "OTP generated successfully (Testing mode - WhatsApp disabled)"
                         clientId (Client.name client) phone "5 minutes"
                         (Otp.expiresAt otp) "Testing Mode" otpCode))
           end
       end)
    serverError.

Definition verifyOTP (req : Request) (now : Date) : DB -> DB * Response :=
  try_catch
    (if negb (isEmpty (errors req)) then
       ret (mkResponse 400 (ValidationFailed (errors req)))
     else
       let clientId := body_clientId req in
       let otp := body_otp req in
       let* otpRecord := Otp_findOne_code_sort clientId otp in
       match otpRecord with
       | None => ret (mkResponse 400 (Failure "Invalid OTP" None))
       | Some (i, otpRecord) =>
           if negb (Otp.isValid otpRecord now) then
             let otpRecord := Otp.set_isUsed true otpRecord in
             let* _ := Otp_save i otpRecord in
             ret (mkResponse 400
                    (Failure "OTP has expired or exceeded maximum attempts"
                       None))
           else
             let otpRecord :=
               Otp.set_attempts (Otp.attempts otpRecord + 1) otpRecord in
             if strictNotEqual (Otp.otp otpRecord) otp then
               let* _ := Otp_save i otpRecord in
               ret (mkResponse 400
                      (Failure "Invalid OTP"
                         (Some (3 - Otp.attempts otpRecord))))
             else
               let otpRecord := Otp.set_isUsed true otpRecord in
               let* _ := Otp_save i otpRecord in
               let* client := Client_findById clientId in
               match client with
               | None => throw TypeError      (* client._id on null *)
               | Some client =>
                   ret (mkResponse 200
                          (OtpVerified "OTP verified successfully" clientId
                             (Client.name client) (Client.phone client) now))
               end
       end)
    serverError.

Definition resendOTP (req : Request) (now : Date) (generated : string)
  : DB -> DB * Response :=
  try_catch
    (if negb (isEmpty (errors req)) then
       ret (mkResponse 400 (ValidationFailed (errors req)))
     else
       let clientId := body_clientId req in
       let* client := Client_findById clientId in
       match client with
       | None => ret (mkResponse 404 (Failure "Client not found" None))
       | Some client =>
           match Client.phone client with
           | None | Some EmptyString =>
               ret (mkResponse 400
                      (Failure "Client does not have a phone number" None))
           | Some phone =>
               let* existingOTP := Otp_findOne_sort (unusedOf clientId) in
               let minInterval := 30 * 1000 in
               let proceed : Handler Response :=
                 let otpCode := generated in
                 let* _ := Otp_updateMany (unusedOf clientId)
                             (Otp.set_isUsed true) in
                 let otp := Otp.new clientId otpCode phone now in
                 let* otp_id := Otp_create otp in
                 let* _ :=
                   match user req with
                   | Some u =>
                       Notification_save
                         (Notification.mk Notification.otp_resent
                            (User._id u) clientId (Client.name client) phone
                            (User.firstName u +:+ " " +:+ User.lastName u)
                            ("OTP resent to " +:+ Client.name client
                             +:+ " (" +:+ phone +:+ ")")
                            Notification.success (Some otp_id)
                            "Testing Mode (No WhatsApp)" false now now)
                   | None => ret tt
                   end in
                 ret (mkResponse 200
                        (OtpIssued
                           "OTP regenerated successfully (Testing mode - WhatsApp disabled)"
                           clientId (Client.name client) phone "5 minutes"
                           (Otp.expiresAt otp) "Testing Mode" otpCode)) in
               match existingOTP with
               | Some (_, existingOTP) =>
                   if Otp.isValid existingOTP now then
                     let timeSinceLastOTP := now - Otp.createdAt existingOTP in
                     if timeSinceLastOTP <? minInterval then
                       let waitTime :=
                         Math_ceil_div (minInterval - timeSinceLastOTP) 1000 in
                       ret (mkResponse 429
                              (Failure
                                 ("Please wait " +:+ pretty waitTime
                                  +:+ " seconds before requesting another OTP")
                                 None))
                     else proceed
                   else proceed
               | None => proceed
               end
           end
       end)
    serverError.

Definition getOTPStatus (req : Request) (now : Date) : DB -> DB * Response :=
  try_catch
    (let clientId := params_clientId req in
     let* otpRecord := Otp_findOne_sort (anyOf clientId) in
     match otpRecord with
     | None => ret (mkResponse 200 NoOtpFound)
     | Some (_, otpRecord) =>
         let isValid := Otp.isValid otpRecord now in
         let timeLeft :=
           Z.max 0 (Math_floor_div (Otp.expiresAt otpRecord - now) 1000) in
         ret (mkResponse 200
                (OtpStatus isValid (Otp.isUsed otpRecord)
                   (Otp.attempts otpRecord) timeLeft
                   (Otp.expiresAt otpRecord)))
     end)
    serverError.

(** ** Sequences of requests *)

Inductive Op :=
| Send (req : Request) (now : Date) (generated : string)
| Verify (req : Request) (now : Date)
| Resend (req : Request) (now : Date) (generated : string)
| Status (req : Request) (now : Date).

Definition step (op : Op) : DB -> DB * Response :=
  match op with
  | Send req now g => sendOTP req now g
  | Verify req now => verifyOTP req now
  | Resend req now g => resendOTP req now g
  | Status req now => getOTPStatus req now
  end.

Definition run (ops : list Op) (db : DB) : DB :=
  fold_left (fun db op => fst (step op db)) ops db.

(** Neither [Verify] nor [Status] issues a code. *)
Definition issues (op : Op) : bool :=
  match op with
  | Send _ _ _ | Resend _ _ _ => true
  | Verify _ _ | Status _ _ => false
  end.

(** * The vocabulary of the properties *)

(** ** Documents and their order *)

(** [r] at position [i] is no older than [r'] at position [j], later
    positions winning among equal dates. *)
Definition newerThan (i : nat) (r : Otp.t) (j : nat) (r' : Otp.t) : Prop :=
  Otp.createdAt r' < Otp.createdAt r
  \/ (Otp.createdAt r' = Otp.createdAt r /\ (j <= i)%nat).

(** The number of unused documents a client has. *)
Definition activeCount (c : ObjectId) (l : list Otp.t) : nat :=
  length (List.filter (unusedOf c) l).

(** The "single active OTP" invariant. *)
Definition singleActive (db : DB) : Prop :=
  forall c, (activeCount c (otps db) <= 1)%nat.

(** The supersession sweep of sendOTP and resendOTP. *)
Definition supersede (c : ObjectId) (l : list Otp.t) : list Otp.t :=
  Otp.updateMany (unusedOf c) (Otp.set_isUsed true) l.

(** ** Outcomes of the handlers *)

(** The collection after a code was issued to [c]: the unused documents
    of [c] are marked used, then the new document is appended. *)
Definition issued (c : ObjectId) (g p : string) (now : Date)
  (l : list Otp.t) : list Otp.t :=
  Otp.insert (Otp.new c g p now) (supersede c l).

(** The audit document of an issue made at [now] ([ty], [verb] say
    which). *)
Definition audit (ty : Notification.type) (verb : string) (u : User.t)
  (c : ObjectId) (cl : Client.t) (p : string) (id : ObjectId) (now : Date)
  : Notification.t :=
  Notification.mk ty (User._id u) c (Client.name cl) p
    (User.firstName u +:+ " " +:+ User.lastName u)
    (verb +:+ Client.name cl +:+ " (" +:+ p +:+ ")")
    Notification.success (Some id) "Testing Mode (No WhatsApp)" false now now.

(** The answer to an issue ([msg] says which). *)
Definition issuedBody (msg : string) (c : ObjectId) (cl : Client.t)
  (p : string) (now : Date) (g : string) : Body :=
  OtpIssued msg c (Client.name cl) p "5 minutes" (now + Otp.ttl)
    "Testing Mode" g.

(** The outcome of the common tail of sendOTP and resendOTP. *)
Definition issueOutcome (ty : Notification.type) (verb msg : string)
  (req : Request) (now : Date) (g : string) (cl : Client.t) (p : string)
  (db : DB) : DB * Response :=
  let c := body_clientId req in
  let db1 := set_otps (issued c g p now (otps db)) db in
  match user req with
  | None => (db1, mkResponse 200 (issuedBody msg c cl p now g))
  | Some u =>
      let n := audit ty verb u c cl p (length (otps db)) now in
      if Notification.validate n
      then (set_notifications (notifications db ++ [n])%list db1,
            mkResponse 200 (issuedBody msg c cl p now g))
      else (db1, serverError ValidationError)
  end.

(** The client of a request, when it has a phone number on file. *)
Definition clientWithPhone (req : Request) (db : DB)
  : option (Client.t * string) :=
  match clients db !! body_clientId req with
  | Some cl =>
      match Client.phone cl with
      | Some (String a s) => Some (cl, String a s)
      | _ => None
      end
  | None => None
  end.

(** The cooldown of resendOTP: the seconds to wait when it applies. *)
Definition cooldown (c : ObjectId) (now : Date) (l : list Otp.t) : option Z :=
  match Otp.findLatest (unusedOf c) l with
  | Some (_, e) =>
      if Otp.isValid e now && (now - Otp.createdAt e <? 30 * 1000)
      then Some (Math_ceil_div (30 * 1000 - (now - Otp.createdAt e)) 1000)
      else None
  | None => None
  end.

(** The three refusals of resendOTP and verifyOTP. *)
Definition rateLimited (w : Z) : Response :=
  mkResponse 429
    (Failure ("Please wait " +:+ pretty w
              +:+ " seconds before requesting another OTP") None).

Definition invalidOtp : Response := mkResponse 400 (Failure "Invalid OTP" None).

Definition expired : Response :=
  mkResponse 400 (Failure "OTP has expired or exceeded maximum attempts" None).

(** The document a successful verification leaves behind. *)
Definition consumed (r : Otp.t) : Otp.t :=
  Otp.set_isUsed true (Otp.set_attempts (Otp.attempts r + 1) r).

(** The document the wrong-code branch leaves behind. *)
Definition counted (r : Otp.t) : Otp.t :=
  Otp.set_attempts (Otp.attempts r + 1) r.

(** [r'] is the document [r] but for its attempts and its used flag,
    which are [attempts] and [isUsed]. *)
Definition rewritten (r r' : Otp.t) (attempts : Z) (isUsed : bool) : Prop :=
  Otp.client r' = Otp.client r
  /\ Otp.otp r' = Otp.otp r
  /\ Otp.phone r' = Otp.phone r
  /\ Otp.createdAt r' = Otp.createdAt r
  /\ Otp.expiresAt r' = Otp.expiresAt r
  /\ Otp.attempts r' = attempts
  /\ Otp.isUsed r' = isUsed.

(** Every code was issued to a client on file. *)
Definition clientsOnFile (db : DB) : Prop :=
  forall r, r ∈ otps db -> is_Some (clients db !! Otp.client r).

(** The answer of the wrong-code branch. *)
Definition wrongCode (attempts : Z) : Response :=
  mkResponse 400 (Failure "Invalid OTP" (Some (3 - attempts))).

Definition isStr (otp : Submitted) : bool :=
  match otp with Str _ => true | _ => false end.

(** What verifyOTP writes back over the document [r] it found. *)
Definition writtenBack (otp : Submitted) (now : Date) (r : Otp.t) : Otp.t :=
  if Otp.isValid r now
  then if isStr otp then consumed r else counted r
  else Otp.set_isUsed true r.

(** ** Evolution of the collection *)

(** The time of a request. *)
Definition timeOf (op : Op) : Date :=
  match op with
  | Send _ now _ | Verify _ now | Resend _ now _ | Status _ now => now
  end.

(** One request, made at time [t], changes the collection in one of three
    ways: not at all, by issuing a code, or by writing back one unused
    document, which keeps its client and its date. *)
Inductive evolves (t : Date) (l : list Otp.t) : list Otp.t -> Prop :=
| ev_same : evolves t l l
| ev_issue c g p : evolves t l (issued c g p t l)
| ev_write i r r' :
    l !! i = Some r -> Otp.isUsed r = false ->
    Otp.client r' = Otp.client r -> Otp.createdAt r' = Otp.createdAt r ->
    evolves t l (Otp.save i r' l).

(** What a finished issue leaves of the collection [l] of before, for
    client [c]: every document [c] had is used, the new document is the
    last one and is the only unused one of [c]. *)
Definition supersedes (c : ObjectId) (l l' : list Otp.t) : Prop :=
  (forall i r, l !! i = Some r -> Otp.client r = c ->
     exists r', l' !! i = Some r' /\ Otp.isUsed r' = true)
  /\ (exists r, l' !! length l = Some r /\ Otp.client r = c
        /\ Otp.isUsed r = false /\ Otp.attempts r = 0)
  /\ length l' = S (length l)
  /\ activeCount c l' = 1%nat.


(** Only the newest document of a client can be unused. *)
Definition onlyNewestActive (l : list Otp.t) : Prop :=
  forall i e,
    l !! i = Some e -> Otp.isUsed e = false ->
    Otp.findLatest (anyOf (Otp.client e)) l = Some (i, e).

(** No document is dated after [now]. *)
Definition notAfter (now : Date) (l : list Otp.t) : Prop :=
  forall r, r ∈ l -> Otp.createdAt r <= now.

(** Requests made in the order of their times. *)
Fixpoint chronological (t : Date) (ops : list Op) : Prop :=
  match ops with
  | [] => True
  | op :: ops' => t <= timeOf op /\ chronological (timeOf op) ops'
  end.

(** ** Resend against issue *)





(** ** Status and audit *)

(** The [hasActiveOTP] field of a status answer. *)
Definition hasActiveOTP (b : Body) : option bool :=
  match b with
  | NoOtpFound => Some false
  | OtpStatus h _ _ _ _ => Some h
  | _ => None
  end.

(** What an audit document must say of an issue by [u] to client [c]
    whose OTP document is at [id]. *)
Definition records (ty : Notification.type) (u : User.t) (c id : ObjectId)
  (n : Notification.t) : Prop :=
  Notification.type_ n = ty
  /\ Notification.salesman n = User._id u
  /\ Notification.client n = c
  /\ Notification.otpId n = Some id.

(** ** Concrete data for the examples *)

Module Ex.

Definition asha : Client.t := Client.mk "Asha" (Some "9876543210").
Definition ravi : User.t := User.mk 7%nat "Ravi" "Shah".

(** One client, no code issued yet. *)
Definition db0 : DB := mkDB {[ 1%nat := asha ]} [] [].

Definition request (c : ObjectId) (code : string) (u : option User.t)
  : Request :=
  mkRequest [] c (Str code) c u.

(** The same request with its code written as a number. *)
Definition requestNumber (c : ObjectId) (code : string) (u : option User.t)
  : Request :=
  mkRequest [] c (number code) c u.

(** A code issued to client 1 at time 1000. *)
Definition fresh : Otp.t := Otp.new 1%nat "123456" "9876543210" 1000.
Definition db1 : DB := mkDB {[ 1%nat := asha ]} [fresh] [].

End Ex.

(** ** One request, seen from the collection *)

(** The client a request is about. *)
Definition clientOf (op : Op) : ObjectId :=
  match op with
  | Send req _ _ | Verify req _ | Resend req _ _ => body_clientId req
  | Status req _ => params_clientId req
  end.

(** The operation submits no code, or submits it as a string. *)
Definition stringCoded (op : Op) : bool :=
  match op with
  | Verify req _ => isStr (body_otp req)
  | _ => true
  end.

(** The number of requests that submit a code that is not a string. *)
Definition notStrings (ops : list Op) : nat :=
  length (List.filter (fun op => negb (stringCoded op)) ops).

(** What one request about client [c], made at time [t], does to the
    collection: nothing, an issue, or the write-back of one unused
    document of [c], as expired, as consumed, or ([counts] saying whether
    the request may) as counted. *)
Inductive transition (counts : bool) (c : ObjectId) (t : Date)
  (l : list Otp.t) : list Otp.t -> Prop :=
| tr_same : transition counts c t l l
| tr_issue g p : transition counts c t l (issued c g p t l)
| tr_expire i r :
    l !! i = Some r -> Otp.client r = c -> Otp.isUsed r = false ->
    Otp.isValid r t = false ->
    transition counts c t l (Otp.save i (Otp.set_isUsed true r) l)
| tr_consume i r :
    l !! i = Some r -> Otp.client r = c -> Otp.isUsed r = false ->
    Otp.isValid r t = true ->
    transition counts c t l (Otp.save i (consumed r) l)
| tr_count i r :
    counts = true ->
    l !! i = Some r -> Otp.client r = c -> Otp.isUsed r = false ->
    Otp.isValid r t = true ->
    transition counts c t l (Otp.save i (counted r) l).

(** [r'] is [r] later on: the same client, code, phone and dates, no
    fewer attempts, and used if [r] was. *)
Definition laterOf (r r' : Otp.t) : Prop :=
  Otp.client r' = Otp.client r
  /\ Otp.otp r' = Otp.otp r
  /\ Otp.phone r' = Otp.phone r
  /\ Otp.createdAt r' = Otp.createdAt r
  /\ Otp.expiresAt r' = Otp.expiresAt r
  /\ Otp.attempts r <= Otp.attempts r'
  /\ (Otp.isUsed r = true -> Otp.isUsed r' = true).

(** The attempts of every document are at most [k], and one more for a
    used document. *)
Definition attemptsWithin (k : Z) (l : list Otp.t) : Prop :=
  forall i r,
    l !! i = Some r ->
    0 <= Otp.attempts r <= k + (if Otp.isUsed r then 1 else 0).

(** A document was never counted, or counted once and is used. *)
Definition countedOnce (r : Otp.t) : Prop :=
  Otp.attempts r = 0 \/ (Otp.attempts r = 1 /\ Otp.isUsed r = true).

(** ** The audit trail, seen from the requests *)

(** The type of the audit document a request writes. *)
Definition auditType (op : Op) : Notification.type :=
  match op with
  | Resend _ _ _ => Notification.otp_resent
  | _ => Notification.otp_sent
  end.

(** An audit document as an issue writes it: of the type of a send or of a
    resend, a success, unread. *)
Definition freshAudit (n : Notification.t) : Prop :=
  (Notification.type_ n = Notification.otp_sent
   \/ Notification.type_ n = Notification.otp_resent)
  /\ Notification.status_ n = Notification.success
  /\ Notification.isRead n = false.

(** Every audit document points to an OTP document of its client and
    phone number. *)
Definition linked (db : DB) : Prop :=
  forall n,
    n ∈ notifications db ->
    exists i r,
      Notification.otpId n = Some i
      /\ otps db !! i = Some r
      /\ Otp.client r = Notification.client n
      /\ Otp.phone r = Notification.clientPhone n.

(** The request and the generated code of an operation. *)
Definition reqOf (op : Op) : Request :=
  match op with
  | Send req _ _ | Verify req _ | Resend req _ _ | Status req _ => req
  end.

Definition codeOf (op : Op) : string :=
  match op with
  | Send _ _ g | Resend _ _ g => g
  | Verify _ _ | Status _ _ => ""
  end.

(** * The notification controller

    controllers/notification.js, behind routes/notifications.js.  The
    documents are those the OTP controller writes; a document is
    identified by its position, as the OTP documents are.  A handler that
    writes reads the clock once ([now]): it is the [updatedAt] Mongoose
    stamps on the documents an update touches.  [populate] joins the
    referenced documents into the answer; the answer here lists the
    documents selected, each with its position. *)

(** The user document [auth] puts in [req.user]: the user of the OTP
    controller with the two fields the middleware and this controller
    read (models/User.js is not among the sources). *)
Module Account.

Record t := mk {
  user : User.t;
  role : string;
  isActive : bool
}.

Definition _id (a : t) : ObjectId := User._id (user a).

End Account.

(** A string of the request where the schema has an ObjectId
    ([req.params.id], [req.query.clientId]): the string that writes the
    id [id], or any other string.  Mongoose casts the values of a query
    when the query runs, the first to its id, and throws a CastError for
    the second. *)
Inductive IdString :=
| Id (id : ObjectId)
| NotAnId (text : string).

Definition castObjectId (s : IdString) : Handler ObjectId :=
  match s with
  | Id id => ret id
  | NotAnId _ => throw CastError
  end.

Record NRequest := mkNRequest {
  n_user : option Account.t;     (* req.user *)
  n_id : IdString                (* req.params.id, where the route has it *)
}.

(** [type] as the schema's enum writes it. *)
Definition typeName (t : Notification.type) : string :=
  match t with
  | Notification.otp_sent => "otp_sent"
  | Notification.otp_resent => "otp_resent"
  | Notification.otp_verified => "otp_verified"
  end.

(** A query document of this controller, cast: the keys it may set. *)
Record NFilter := mkNFilter {
  f_id : option ObjectId;
  f_isRead : option bool;
  f_salesman : option ObjectId;
  f_type : option string;
  f_client : option ObjectId
}.

Definition emptyFilter : NFilter := mkNFilter None None None None None.

Definition with_salesman (s : ObjectId) (f : NFilter) : NFilter :=
  mkNFilter (f_id f) (f_isRead f) (Some s) (f_type f) (f_client f).

Definition with_type (t : string) (f : NFilter) : NFilter :=
  mkNFilter (f_id f) (f_isRead f) (f_salesman f) (Some t) (f_client f).

Definition with_client (c : ObjectId) (f : NFilter) : NFilter :=
  mkNFilter (f_id f) (f_isRead f) (f_salesman f) (f_type f) (Some c).

(** A key that is not set matches every document. *)
Definition holds {A} (eqb : A -> A -> bool) (k : option A) (v : A) : bool :=
  match k with
  | Some x => eqb x v
  | None => true
  end.

Definition matches (f : NFilter) (i : ObjectId) (n : Notification.t) : bool :=
  holds Nat.eqb (f_id f) i
  && holds Bool.eqb (f_isRead f) (Notification.isRead n)
  && holds Nat.eqb (f_salesman f) (Notification.salesman n)
  && holds String.eqb (f_type f) (typeName (Notification.type_ n))
  && holds Nat.eqb (f_client f) (Notification.client n).

(** [{ isRead: true }] as an update made at [now]: with [timestamps:
    true] Mongoose adds [updatedAt] to what an update sets. *)
Definition markRead (now : Date) (n : Notification.t) : Notification.t :=
  Notification.mk (Notification.type_ n) (Notification.salesman n)
    (Notification.client n) (Notification.clientName n)
    (Notification.clientPhone n) (Notification.salesmanName n)
    (Notification.message n) (Notification.status_ n) (Notification.otpId n)
    (Notification.deliveryMethod n) true (Notification.createdAt n) now.

(** The documents of a collection with their positions, from [i]. *)
Fixpoint indexed {A} (i : nat) (l : list A) : list (nat * A) :=
  match l with
  | [] => []
  | x :: l' => (i, x) :: indexed (S i) l'
  end.

Definition selected (f : NFilter) (l : list Notification.t)
  : list (ObjectId * Notification.t) :=
  List.filter (fun d => matches f d.1 d.2) (indexed 0 l).

Definition Notification_countDocuments (f : NFilter) : Handler nat :=
  fun db => (db, inr (length (selected f (notifications db)))).

(** [findOneAndUpdate(q, u, { new: true })]: the first document that
    matches is updated and returned as updated. *)
Definition Notification_findOneAndUpdate (f : NFilter)
  (u : Notification.t -> Notification.t)
  : Handler (option (ObjectId * Notification.t)) :=
  fun db =>
    match selected f (notifications db) with
    | (i, n) :: _ =>
        (set_notifications (<[i := u n]> (notifications db)) db,
         inr (Some (i, u n)))
    | [] => (db, inr None)
    end.

Definition Notification_updateMany (f : NFilter)
  (u : Notification.t -> Notification.t) : Handler unit :=
  fun db =>
    (set_notifications
       (map (fun d : nat * Notification.t =>
               if matches f d.1 d.2 then u d.2 else d.2)
          (indexed 0 (notifications db))) db,
     inr tt).

(** The JSON bodies of this controller: [{message}], [{count}],
    [{message, notification}] and
    [{notifications, totalPages, currentPage, total}]. *)
Inductive NBody :=
| Message (message : string)
| Count (count : nat)
| Marked (message : string) (id : ObjectId) (notification : Notification.t)
| Page (items : list (ObjectId * Notification.t))
    (totalPages currentPage total : Z).

Record NResponse := mkNResponse {
  n_status : Z;
  n_body : NBody
}.

Definition try_catch_n (m : Handler NResponse) (h : Error -> NResponse)
  : DB -> DB * NResponse :=
  fun db =>
    match m db with
    | (db', inr r) => (db', r)
    | (db', inl e) => (db', h e)
    end.

Definition serverErrorN (_ : Error) : NResponse :=
  mkNResponse 500 (Message "Server error").

(** [req.user.role === 'salesman'] *)
Definition isSalesman (a : Account.t) : bool :=
  String.eqb (Account.role a) "salesman".

Definition getUnreadCount (req : NRequest) : DB -> DB * NResponse :=
  try_catch_n
    (let query := mkNFilter None (Some false) None None None in
     match n_user req with
     | None => throw TypeError              (* req.user.role on undefined *)
     | Some user =>
         let query :=
           if isSalesman user then with_salesman (Account._id user) query
           else query in
         let* count := Notification_countDocuments query in
         ret (mkNResponse 200 (Count count))
     end)
    serverErrorN.

Definition markAsRead (req : NRequest) (now : Date) : DB -> DB * NResponse :=
  try_catch_n
    (let id := n_id req in
     match n_user req with
     | None => throw TypeError
     | Some user =>
         let* _id := castObjectId id in     (* the cast of [{ _id: id }] *)
         let query := mkNFilter (Some _id) None None None None in
         let query :=
           if isSalesman user then with_salesman (Account._id user) query
           else query in
         let* notification :=
           Notification_findOneAndUpdate query (markRead now) in
         match notification with
         | None => ret (mkNResponse 404 (Message "Notification not found"))
         | Some (i, n) =>
             ret (mkNResponse 200 (Marked "Notification marked as read" i n))
         end
     end)
    serverErrorN.

Definition markAllAsRead (req : NRequest) (now : Date)
  : DB -> DB * NResponse :=
  try_catch_n
    (let query := mkNFilter None (Some false) None None None in
     match n_user req with
     | None => throw TypeError
     | Some user =>
         let query :=
           if isSalesman user then with_salesman (Account._id user) query
           else query in
         let* _ := Notification_updateMany query (markRead now) in
         ret (mkNResponse 200 (Message "All notifications marked as read"))
     end)
    serverErrorN.

(** The requests to these three handlers. *)
Inductive NOp :=
| GetUnreadCount (req : NRequest)
| MarkAsRead (req : NRequest) (now : Date)
| MarkAllAsRead (req : NRequest) (now : Date).

Definition nstep (op : NOp) : DB -> DB * NResponse :=
  match op with
  | GetUnreadCount req => getUnreadCount req
  | MarkAsRead req now => markAsRead req now
  | MarkAllAsRead req now => markAllAsRead req now
  end.

(** Requests to either controller, in any order. *)
Inductive AnyOp :=
| ToOtp (op : Op)
| ToNotifications (op : NOp).

Definition anystep (op : AnyOp) (db : DB) : DB :=
  match op with
  | ToOtp o => (step o db).1
  | ToNotifications o => (nstep o db).1
  end.

Definition runAll (ops : list AnyOp) (db : DB) : DB :=
  fold_left (fun db op => anystep op db) ops db.

(** ** The vocabulary of its properties *)

(** The query of the unread documents a user may see. *)
Definition unreadFilter (a : Account.t) : NFilter :=
  if isSalesman a
  then with_salesman (Account._id a) (mkNFilter None (Some false) None None None)
  else mkNFilter None (Some false) None None None.

(** [a] may see the document [n]: a salesman sees their own. *)
Definition maySee (a : Account.t) (n : Notification.t) : Prop :=
  isSalesman a = true -> Notification.salesman n = Account._id a.

(** [n'] says of the audited issue what [n] says: every path but [isRead]
    and [updatedAt] is the same. *)
Definition sameAudit (n n' : Notification.t) : Prop :=
  Notification.type_ n' = Notification.type_ n
  /\ Notification.salesman n' = Notification.salesman n
  /\ Notification.client n' = Notification.client n
  /\ Notification.clientName n' = Notification.clientName n
  /\ Notification.clientPhone n' = Notification.clientPhone n
  /\ Notification.salesmanName n' = Notification.salesmanName n
  /\ Notification.message n' = Notification.message n
  /\ Notification.status_ n' = Notification.status_ n
  /\ Notification.otpId n' = Notification.otpId n
  /\ Notification.deliveryMethod n' = Notification.deliveryMethod n
  /\ Notification.createdAt n' = Notification.createdAt n.

(** [n'] is [n] marked as read at time [t]. *)
Definition markedAt (t : Date) (n n' : Notification.t) : Prop :=
  sameAudit n n'
  /\ Notification.isRead n' = true
  /\ Notification.updatedAt n' = t.

(** The time at which a request marks documents as read, if it may. *)
Definition markTime (op : AnyOp) : option Date :=
  match op with
  | ToNotifications (MarkAsRead _ now)
  | ToNotifications (MarkAllAsRead _ now) => Some now
  | _ => None
  end.

(** [n'] is [n] after the requests [ops]: the same audit, read if [n]
    was, and changed, if at all, by one of the requests that mark, whose
    time is its [updatedAt]. *)
Definition readLater (ops : list AnyOp) (n n' : Notification.t) : Prop :=
  sameAudit n n'
  /\ (Notification.isRead n = true -> Notification.isRead n' = true)
  /\ (n' = n
      \/ (Notification.isRead n' = true
          /\ Some (Notification.updatedAt n') ∈ map markTime ops)).

Module ExN.

Definition ravi : Account.t := Account.mk Ex.ravi "salesman" true.
Definition mira : Account.t :=
  Account.mk (User.mk 8%nat "Mira" "Jain") "salesman" true.
Definition admin : Account.t :=
  Account.mk (User.mk 9%nat "Ada" "Min") "admin" true.

Definition request (a : Account.t) (id : ObjectId) : NRequest :=
  mkNRequest (Some a) (Id id).

(** An audit document of salesman [s] about client 1, written at 1000. *)
Definition note (s : ObjectId) (read : bool) : Notification.t :=
  Notification.mk Notification.otp_sent s 1%nat "Asha" "9876543210" "S"
    "OTP sent to Asha (9876543210)" Notification.success None
    "Testing Mode (No WhatsApp)" read 1000 1000.

(** Two documents of Ravi (7), one of Mira (8), all unread. *)
Definition db : DB :=
  mkDB {[ 1%nat := Ex.asha ]} [] [note 7%nat false; note 8%nat false;
                                  note 7%nat false].

End ExN.

(** ** getNotifications

    [GET /] reads its parameters from the strings of [req.query]: each
    is given at most once here.  It computes [skip] and [limit] with
    JavaScript's conversions of [page] and [limit] to numbers and hands
    them to the driver.  The embedding covers the requests whose [page]
    and [limit], where given, are written in decimal digits, are at
    least 1 and have a product below 2^53: there the conversions are the
    decimal value, the arithmetic of JavaScript's numbers is exact (a
    collection having fewer than 2^53 documents) and the window is one the
    driver takes as it is.  For any other [page] or [limit] the answer is
    [None]: what the conversions and the driver make of them is not
    embedded. *)

Record QRequest := mkQRequest {
  q_user : option Account.t;          (* req.user *)
  q_type : option string;             (* req.query.type *)
  q_salesmanId : option IdString;     (* req.query.salesmanId *)
  q_clientId : option IdString;       (* req.query.clientId *)
  q_page : option string;             (* req.query.page *)
  q_limit : option string             (* req.query.limit *)
}.

(** [if (x)] for a string: the empty string is falsy.  A string that
    writes an id is not empty. *)
Definition truthyString (x : string) : bool :=
  match x with EmptyString => false | String _ _ => true end.

Definition truthyId (x : IdString) : bool :=
  match x with Id _ => true | NotAnId text => truthyString text end.

(** The value of a string of decimal digits. *)
Fixpoint digits (s : string) (acc : N) : option N :=
  match s with
  | EmptyString => Some acc
  | String c s' =>
      if WhatsAppService.isDigit c
      then digits s' (10 * acc + N.of_nat (nat_of_ascii c - 48))%N
      else None
  end.

Definition decimal (s : string) : option N :=
  match s with
  | EmptyString => None
  | String _ _ => digits s 0%N
  end.

(** [page] and [limit] (by default 1 and 50) where the embedding covers
    them. *)
Definition paging (page limit : option string) : option (N * N) :=
  match match page with Some s => decimal s | None => Some 1%N end,
        match limit with Some s => decimal s | None => Some 50%N end
  with
  | Some p, Some l =>
      if (1 <=? p)%N && (1 <=? l)%N && (p * l <? 2 ^ 53)%N then Some (p, l)
      else None
  | _, _ => None
  end.

(** [sort({ createdAt: -1 })]: by decreasing [createdAt]; among equal
    dates the document inserted last comes first (MongoDB leaves that
    order open). *)
Fixpoint insertByDate (d : ObjectId * Notification.t)
  (l : list (ObjectId * Notification.t)) : list (ObjectId * Notification.t) :=
  match l with
  | [] => [d]
  | x :: l' =>
      if Notification.createdAt x.2 <? Notification.createdAt d.2
      then d :: x :: l'
      else x :: insertByDate d l'
  end.

Definition sortByDate (l : list (ObjectId * Notification.t))
  : list (ObjectId * Notification.t) :=
  foldr insertByDate [] l.

(** [find(q).sort({ createdAt: -1 }).limit(n).skip(s)]: the driver skips,
    then limits, whatever the order of the two calls. *)
Definition Notification_find_page (f : NFilter) (limit skip : nat)
  : Handler (list (ObjectId * Notification.t)) :=
  fun db =>
    (db, inr (take limit
                (drop skip (sortByDate (selected f (notifications db)))))).

Definition getNotifications (req : QRequest) : DB -> option (DB * NResponse) :=
  fun db =>
    match q_user req with
    | None => Some (db, serverErrorN TypeError)   (* req.user.role *)
    | Some user =>
        match paging (q_page req) (q_limit req) with
        | None => None
        | Some (page, limit) =>
            Some
              (try_catch_n
                 (let type := q_type req in
                  let salesmanId := q_salesmanId req in
                  let clientId := q_clientId req in
                  let query := emptyFilter in
                  let* query :=
                    if isSalesman user
                    then ret (with_salesman (Account._id user) query)
                    else match salesmanId with
                         | Some s =>
                             if truthyId s then
                               let* id := castObjectId s in
                               ret (with_salesman id query)
                             else ret query
                         | None => ret query
                         end in
                  let query :=
                    match type with
                    | Some t =>
                        if truthyString t then with_type t query else query
                    | None => query
                    end in
                  let* query :=
                    match clientId with
                    | Some c =>
                        if truthyId c then
                          let* id := castObjectId c in
                          ret (with_client id query)
                        else ret query
                    | None => ret query
                    end in
                  let* notifications :=
                    Notification_find_page query (N.to_nat limit)
                      ((N.to_nat page - 1) * N.to_nat limit) in
                  let* total := Notification_countDocuments query in
                  ret (mkNResponse 200
                         (Page notifications
                            (Math_ceil_div (Z.of_nat total) (Z.of_N limit))
                            (Z.of_N page) (Z.of_nat total))))
                 serverErrorN db)
        end
    end.

(** *** The vocabulary of its properties *)

(** A parameter that is given, is not empty and writes no id. *)
Definition malformed (x : option IdString) : bool :=
  match x with
  | Some (NotAnId text) => truthyString text
  | _ => false
  end.

(** The query of [req] makes Mongoose throw: it names a client, or for a
    user who is not a salesman a salesman, by a string that writes no
    id. *)
Definition refused (a : Account.t) (req : QRequest) : bool :=
  (negb (isSalesman a) && malformed (q_salesmanId req))
  || malformed (q_clientId req).

Definition idOf (x : option IdString) : option ObjectId :=
  match x with
  | Some (Id id) => Some id
  | _ => None
  end.

(** The query getNotifications builds for user [a]: a salesman's own
    documents whatever [salesmanId] says, otherwise those of [salesmanId]
    when given; of the type and the client when given. *)
Definition pageFilter (a : Account.t) (req : QRequest) : NFilter :=
  mkNFilter None None
    (if isSalesman a then Some (Account._id a) else idOf (q_salesmanId req))
    (match q_type req with
     | Some t => if truthyString t then Some t else None
     | None => None
     end)
    (idOf (q_clientId req)).

(** What the query string asked of a document. *)
Definition asked (req : QRequest) (n : Notification.t) : Prop :=
  (forall t, q_type req = Some t -> t <> "" ->
     typeName (Notification.type_ n) = t)
  /\ (forall c, q_clientId req = Some (Id c) -> Notification.client n = c).

(** Later documents first. *)
Fixpoint byDate (l : list (ObjectId * Notification.t)) : Prop :=
  match l with
  | [] => True
  | x :: l' =>
      Forall (fun y => Notification.createdAt y.2
                       <= Notification.createdAt x.2) l'
      /\ byDate l'
  end.

(** * The authentication middleware

    middleware/auth.js, which routes/notifications.js puts before every
    handler of the notification controller.  [jwt.verify] is the library's:
    what it says of a token is a field of the environment, [None] when it
    throws, otherwise the [userId] of the payload, if it has one.  The
    users are the collection of models/User.js, by [_id]. *)

Record AuthEnv := mkAuthEnv {
  users : gmap ObjectId Account.t;
  jwt_verify : string -> option (option ObjectId)
}.

(** What a middleware does with a request: [next()] with [req.user] set,
    or an answer. *)
Inductive Gate :=
| Next (user : Account.t)
| Denied (status : Z) (message : string).

(** The string without its first [n] characters. *)
Fixpoint skipn_string (n : nat) (s : string) : string :=
  match n, s with
  | O, _ => s
  | S n', String _ s' => skipn_string n' s'
  | S _, EmptyString => EmptyString
  end.

(** [s.replace(pat, rep)] for a string pattern: the first occurrence. *)
Fixpoint replaceFirst (pat rep s : string) : string :=
  if String.prefix pat s then rep +:+ skipn_string (String.length pat) s
  else match s with
       | EmptyString => EmptyString
       | String c s' => String c (replaceFirst pat rep s')
       end.

(** The part the three middlewares share, up to [req.user = user]. *)
Definition auth (env : AuthEnv) (authorization : option string) : Gate :=
  let token := replaceFirst "Bearer " "" <$> authorization in
  match token with
  | None | Some EmptyString =>
      Denied 401 "Access denied. No token provided."
  | Some token =>
      match jwt_verify env token with
      | None => Denied 401 "Invalid token."             (* catch *)
      | Some userId =>
          match userId ≫= (fun id => users env !! id) with
          | None => Denied 401 "Invalid token or user inactive."
          | Some user =>
              if negb (Account.isActive user)
              then Denied 401 "Invalid token or user inactive."
              else Next user
          end
      end
  end.

Definition adminAuth (env : AuthEnv) (authorization : option string) : Gate :=
  let token := replaceFirst "Bearer " "" <$> authorization in
  match token with
  | None | Some EmptyString =>
      Denied 401 "Access denied. No token provided."
  | Some token =>
      match jwt_verify env token with
      | None => Denied 401 "Invalid token."
      | Some userId =>
          match userId ≫= (fun id => users env !! id) with
          | None => Denied 401 "Invalid token or user inactive."
          | Some user =>
              if negb (Account.isActive user)
              then Denied 401 "Invalid token or user inactive."
              else if negb (String.eqb (Account.role user) "admin")
              then Denied 403 "Access denied. Admin role required."
              else Next user
          end
      end
  end.

Definition salesmanAuth (env : AuthEnv) (authorization : option string)
  : Gate :=
  let token := replaceFirst "Bearer " "" <$> authorization in
  match token with
  | None | Some EmptyString =>
      Denied 401 "Access denied. No token provided."
  | Some token =>
      match jwt_verify env token with
      | None => Denied 401 "Invalid token."
      | Some userId =>
          match userId ≫= (fun id => users env !! id) with
          | None => Denied 401 "Invalid token or user inactive."
          | Some user =>
              if negb (Account.isActive user)
              then Denied 401 "Invalid token or user inactive."
              else if negb (String.eqb (Account.role user) "salesman")
              then Denied 403 "Access denied. Salesman role required."
              else Next user
          end
      end
  end.

(** ** routes/notifications.js

    [router.METHOD(path, auth, handler)]: the handler runs on the request
    [auth] passed on, with [req.user] set; nothing else stands between
    the request and the handler. *)
Definition route (env : AuthEnv) (authorization : option string)
  (handler : NRequest -> DB -> DB * NResponse) (id : IdString)
  : DB -> DB * NResponse :=
  match auth env authorization with
  | Next user => handler (mkNRequest (Some user) id)
  | Denied st m => fun db => (db, mkNResponse st (Message m))
  end.

(** [GET /unread-count], [PATCH /:id/read] and [PATCH /read-all], for
    requests made at [now]. *)
Definition notificationRoutes (now : Date)
  : list (NRequest -> DB -> DB * NResponse) :=
  [getUnreadCount;
   (fun req => markAsRead req now);
   (fun req => markAllAsRead req now)].

(** A string without a space, as a token is. *)
Definition spaceless (s : string) : Prop :=
  Forall (fun c => c <> " "%char) (list_ascii_of_string s).

Module ExA.

(** Ravi (7) and the administrator (9) are active; Mira (8) is not. *)
Definition env : AuthEnv :=
  mkAuthEnv
    {[ 7%nat := ExN.ravi; 9%nat := ExN.admin;
       8%nat := Account.mk (User.mk 8%nat "Mira" "Jain") "salesman" false ]}
    (fun t =>
       if String.eqb t "ravi.tok" then Some (Some 7%nat)
       else if String.eqb t "mira.tok" then Some (Some 8%nat)
       else if String.eqb t "ada.tok" then Some (Some 9%nat)
       else if String.eqb t "anon.tok" then Some None
       else None).

End ExA.

(** * The WhatsApp service

    The methods of services/whatsappService.js besides formatPhoneNumber.
    [process.env] is a map from names to strings.  [axios] is the
    library's: what the API answers to the [n]-th request is an argument,
    [Resolved] with [response.data] or [Rejected] with the error; the
    requests made are kept in the order they were made.  JavaScript
    values are those of JSON and [undefined], numbers being integers;
    an object lists each of its keys once. *)

#[local] Unset Elimination Schemes.

Inductive JsValue :=
| VUndefined
| VNull
| VBool (b : bool)
| VNum (z : Z)
| VStr (s : string)
| VArr (l : list JsValue)
| VObj (fields : list (string * JsValue)).

#[local] Set Elimination Schemes.

(** [!!v] *)
Definition truthy (v : JsValue) : bool :=
  match v with
  | VUndefined | VNull => false
  | VBool b => b
  | VNum z => negb (z =? 0)
  | VStr s => negb (String.eqb s "")
  | VArr _ | VObj _ => true
  end.

(** An error as [catch] sees it: its message and, for an error of axios
    that came with an answer, [error.response.data] and
    [error.response.status]. *)
Record JsError := mkJsError {
  message : string;
  response : option (JsValue * Z)
}.

(** The TypeError of a property read on [null] or [undefined]. *)
Definition cannotRead (what key : string) : JsError :=
  mkJsError ("Cannot read properties of " +:+ what +:+ " (reading '"
             +:+ key +:+ "')") None.

Fixpoint field (k : string) (fields : list (string * JsValue)) : JsValue :=
  match fields with
  | [] => VUndefined
  | (k', v) :: rest => if String.eqb k' k then v else field k rest
  end.

(** [v.name], for a name that no prototype defines. *)
Definition getProp (v : JsValue) (name : string) : JsError + JsValue :=
  match v with
  | VUndefined => inl (cannotRead "undefined" name)
  | VNull => inl (cannotRead "null" name)
  | VObj fields => inr (field name fields)
  | VBool _ | VNum _ | VStr _ | VArr _ => inr VUndefined
  end.

(** [v[i]] *)
Definition getIndex (v : JsValue) (i : nat) : JsError + JsValue :=
  match v with
  | VUndefined => inl (cannotRead "undefined" (pretty i))
  | VNull => inl (cannotRead "null" (pretty i))
  | VObj fields => inr (field (pretty i) fields)
  | VArr l => inr (default VUndefined (l !! i))
  | VStr s =>
      inr (match String.get i s with
           | Some c => VStr (String c EmptyString)
           | None => VUndefined
           end)
  | VBool _ | VNum _ => inr VUndefined
  end.

(** [v?.name] *)
Definition getPropOpt (v : JsValue) (name : string) : JsError + JsValue :=
  match v with
  | VUndefined | VNull => inr VUndefined
  | _ => getProp v name
  end.

Inductive Method := GET | POST.

(** The two bodies the service posts: the template message with the code
    as the text of its body and of its button, and the text message. *)
Inductive Payload :=
| Template (to templateName languageCode bodyText buttonText : string)
| Text (to body : string).

Record HttpRequest := mkHttpRequest {
  method : Method;
  url : string;
  data : option Payload;
  headers : list (string * string)
}.

Inductive AxiosOutcome :=
| Resolved (data : JsValue)
| Rejected (error : JsError).

Definition Axios := nat -> HttpRequest -> AxiosOutcome.

(** The fields of the service object. *)
Record Service := mkService {
  apiUrl : string;
  token : option string;
  phoneNumberId : option string
}.

Record World := mkWorld {
  env : gmap string string;       (* process.env *)
  this : Service;
  outbox : list HttpRequest       (* the requests made, oldest first *)
}.

(** What the methods return: [{success: true, messageSid, status: 'sent'}]
    with [phoneNumber] when present,
    [{success: true, status, data}], and [{success: false, error}] with
    [code] when present. *)
Inductive Result :=
| SendOk (messageSid : JsValue) (phoneNumber : option string)
| StatusOk (status data : JsValue)
| Failed (error : JsValue) (code : option JsValue).

(** A string of the environment or of the service in a condition:
    [undefined] and the empty string are falsy. *)
Definition present (s : option string) : bool :=
  match s with
  | Some (String _ _) => true
  | _ => false
  end.

(** A string in a template literal. *)
Definition shown (s : option string) : string := default "undefined" s.

(** [error.response?.data || error.message] and [error.response?.status] *)
Definition errorOf (e : JsError) : JsValue :=
  match response e with
  | Some (d, _) => if truthy d then d else VStr (message e)
  | None => VStr (message e)
  end.

Definition statusOf (e : JsError) : JsValue :=
  match response e with
  | Some (_, st) => VNum st
  | None => VUndefined
  end.

(** [await axios.post(url, data, {headers})] and [axios.get]. *)
Definition request (axios : Axios) (r : HttpRequest) (w : World)
  : World * AxiosOutcome :=
  (mkWorld (env w) (this w) (outbox w ++ [r]), axios (length (outbox w)) r).

(** [response.data.messages[0]?.id] *)
Definition firstMessageId (data : JsValue) : JsError + JsValue :=
  match getProp data "messages" with
  | inl e => inl e
  | inr messages =>
      match getIndex messages 0 with
      | inl e => inl e
      | inr m => getPropOpt m "id"
      end
  end.

Module WhatsApp.

(** [new WhatsAppService()] *)
Definition new (env : gmap string string) : Service :=
  mkService
    (match env !! "WHATSAPP_URL" with
     | Some (String a s) => String a s
     | _ => "https://graph.facebook.com/v22.0"
     end)
    (env !! "WHATSAPP_TOKEN")
    (env !! "WHATSAPP_PHONE_NUMBER_ID").

Definition sendOTP (axios : Axios) (to otp clientName : string) (w : World)
  : World * Result :=
  (* try *)
  let this1 :=
    mkService (apiUrl (this w)) (env w !! "WHATSAPP_TOKEN")
      (env w !! "WHATSAPP_PHONE_NUMBER_ID") in
  let w := mkWorld (env w) this1 (outbox w) in
  if negb (present (token this1)) || negb (present (phoneNumberId this1))
  then
    let error :=
      mkJsError
        "WhatsApp credentials not configured. Please set WHATSAPP_TOKEN and WHATSAPP_PHONE_NUMBER_ID"
        None in
    (w, Failed (errorOf error) (Some (statusOf error)))
  else
    let formattedPhone := WhatsAppService.formatPhoneNumber to in
    let templateName :=
      match env w !! "WHATSAPP_TEMPLATE_NAME" with
      | Some (String a s) => String a s
      | _ => "auth_template"
      end in
    let requestPayload :=
      Template formattedPhone templateName "en_US" otp otp in
    let '(w, outcome) :=
      request axios
        (mkHttpRequest POST
           (apiUrl this1 +:+ "/" +:+ shown (phoneNumberId this1)
            +:+ "/messages")
           (Some requestPayload)
           [("Authorization", "Bearer " +:+ shown (token this1));
            ("Content-Type", "application/json")]) w in
    match outcome with
    | Rejected error => (w, Failed (errorOf error) (Some (statusOf error)))
    | Resolved data =>
        match firstMessageId data with
        | inl error => (w, Failed (errorOf error) (Some (statusOf error)))
        | inr id => (w, SendOk id (Some formattedPhone))
        end
    end.

Definition sendCustomMessage (axios : Axios) (to message : string) (w : World)
  : World * Result :=
  (* try *)
  if negb (present (token (this w))) || negb (present (phoneNumberId (this w)))
  then
    let error := mkJsError "WhatsApp credentials not configured" None in
    (w, Failed (errorOf error) None)
  else
    let formattedPhone := WhatsAppService.formatPhoneNumber to in
    let '(w, outcome) :=
      request axios
        (mkHttpRequest POST
           (apiUrl (this w) +:+ "/" +:+ shown (phoneNumberId (this w))
            +:+ "/messages")
           (Some (Text formattedPhone message))
           [("Authorization", "Bearer " +:+ shown (token (this w)));
            ("Content-Type", "application/json")]) w in
    match outcome with
    | Rejected error => (w, Failed (errorOf error) None)
    | Resolved data =>
        match firstMessageId data with
        | inl error => (w, Failed (errorOf error) None)
        | inr id => (w, SendOk id None)
        end
    end.

Definition getMessageStatus (axios : Axios) (messageId : string) (w : World)
  : World * Result :=
  (* try *)
  let '(w, outcome) :=
    request axios
      (mkHttpRequest GET (apiUrl (this w) +:+ "/" +:+ messageId) None
         [("Authorization", "Bearer " +:+ shown (token (this w)))]) w in
  match outcome with
  | Rejected error => (w, Failed (errorOf error) None)
  | Resolved data =>
      match getProp data "status" with
      | inl error => (w, Failed (errorOf error) None)
      | inr status => (w, StatusOk status data)
      end
  end.

End WhatsApp.

(** ** The vocabulary of its properties *)

(** The number a request is addressed to. *)
Definition addressee (r : HttpRequest) : option string :=
  match data r with
  | Some (Template to _ _ _ _) | Some (Text to _) => Some to
  | None => None
  end.

Definition headerOf (name : string) (r : HttpRequest) : option string :=
  snd <$> List.find (fun h : string * string => String.eqb h.1 name)
            (headers r).

(** The environment has both credentials. *)
Definition configured (e : gmap string string) : bool :=
  present (e !! "WHATSAPP_TOKEN") && present (e !! "WHATSAPP_PHONE_NUMBER_ID").

Module ExW.

Definition env : gmap string string :=
  {[ "WHATSAPP_TOKEN" := "t0k"; "WHATSAPP_PHONE_NUMBER_ID" := "555" ]}.

(** The API accepts every request, under the id of its number. *)
Definition axios : Axios :=
  fun n _ =>
    Resolved (VObj [("messages", VArr [VObj [("id", VStr ("wamid." +:+ pretty n))]])]).

Definition world : World := mkWorld env (WhatsApp.new env) [].

End ExW.

(** * Properties *)

(** ** The collection *)

Section Collection.

Implicit Types (q : Otp.Query) (l : list Otp.t) (r : Otp.t) (i j : nat).

Lemma findLatest_None q l :
  Otp.findLatest q l = None <-> (forall r, r ∈ l -> q r = false).
Proof.
  induction l as [|a l IH]; simpl.
  - split; [intros _ r Hr; inversion Hr | done].
  - destruct (Otp.findLatest q l) as [[j b]|] eqn:E.
    + split.
      * destruct (q a && _); discriminate.
      * intros H. assert (Hn : None = Some (j, b)) by
          (symmetry; apply IH; intros r Hr; apply H; by right).
        discriminate.
    + destruct (q a) eqn:Ea.
      * split; [discriminate|]. intros H. specialize (H a (list_elem_of_here _ _)).
        congruence.
      * split; [|done]. intros _ r Hr. inversion Hr; subst; [done|].
        by apply IH.
Qed.

Lemma findLatest_sound q l i r :
  Otp.findLatest q l = Some (i, r) ->
  l !! i = Some r /\ q r = true
  /\ forall j r', l !! j = Some r' -> q r' = true -> newerThan i r j r'.
Proof.
  revert i r. induction l as [|a l IH]; intros i r; simpl; [discriminate|].
  destruct (Otp.findLatest q l) as [[k b]|] eqn:E.
  - destruct (IH k b eq_refl) as (Hk & Hq & Hmax).
    destruct (q a) eqn:Ea; simpl.
    + destruct (Z.ltb_spec (Otp.createdAt b) (Otp.createdAt a)) as [Hlt|Hge];
        intros [= <- <-].
      * repeat split; [done|]. intros [|j] r' Hj Hq'; simpl in Hj.
        { injection Hj as ->. right. split; [done|lia]. }
        destruct (Hmax j r' Hj Hq') as [?|[? ?]]; left; lia.
      * repeat split; [done..|]. intros [|j] r' Hj Hq'; simpl in Hj.
        { injection Hj as ->. unfold newerThan.
          destruct (Z.eq_dec (Otp.createdAt r') (Otp.createdAt b));
            [right; split; [done|lia] | left; lia]. }
        destruct (Hmax j r' Hj Hq') as [?|[? ?]]; [by left|right].
        split; [done|lia].
    + intros [= <- <-]. repeat split; [done..|].
      intros [|j] r' Hj Hq'; simpl in Hj.
      { injection Hj as ->. congruence. }
      destruct (Hmax j r' Hj Hq') as [?|[? ?]]; [by left|right].
      split; [done|lia].
  - destruct (q a) eqn:Ea; [|discriminate]. intros [= <- <-].
    repeat split; [done|]. intros [|j] r' Hj Hq'; simpl in Hj.
    { injection Hj as ->. right. split; [done|lia]. }
    assert (q r' = false); [|congruence].
    eapply findLatest_None; [exact E|]. apply list_elem_of_lookup. eauto.
Qed.

Lemma findLatest_complete q l i r :
  l !! i = Some r -> q r = true ->
  (forall j r', l !! j = Some r' -> q r' = true -> newerThan i r j r') ->
  Otp.findLatest q l = Some (i, r).
Proof.
  intros Hi Hq Hmax.
  destruct (Otp.findLatest q l) as [[k b]|] eqn:E.
  - destruct (findLatest_sound _ _ _ _ E) as (Hk & Hqb & Hmaxb).
    specialize (Hmax k b Hk Hqb). specialize (Hmaxb i r Hi Hq).
    unfold newerThan in *.
    assert (k = i) as -> by lia. congruence.
  - assert (q r = false); [|congruence].
    eapply findLatest_None; [exact E|]. apply list_elem_of_lookup. eauto.
Qed.


End Collection.

(** ** Active codes *)

Section ActiveCount.

Implicit Types (c : ObjectId) (l : list Otp.t) (r : Otp.t).

Lemma activeCount_cons c r l :
  activeCount c (r :: l)
  = ((if unusedOf c r then 1 else 0) + activeCount c l)%nat.
Proof. unfold activeCount. simpl. by destruct (unusedOf c r). Qed.

Lemma activeCount_app c l1 l2 :
  activeCount c (l1 ++ l2) = (activeCount c l1 + activeCount c l2)%nat.
Proof.
  induction l1 as [|a l1 IH]; [done|].
  change ((a :: l1) ++ l2)%list with (a :: (l1 ++ l2))%list.
  rewrite !activeCount_cons, IH. lia.
Qed.

Lemma activeCount_zero c l :
  activeCount c l = 0%nat <-> (forall r, r ∈ l -> unusedOf c r = false).
Proof.
  induction l as [|a l IH].
  - split; [intros _ r Hr; inversion Hr|done].
  - rewrite activeCount_cons. split.
    + intros H r Hr. destruct (unusedOf c a) eqn:Ea; [lia|].
      inversion Hr; subst; [done|]. apply IH; [lia|done].
    + intros H. rewrite (H a (list_elem_of_here _ _)).
      apply IH. intros r Hr. apply H. by right.
Qed.

Lemma unusedOf_set_isUsed c r : unusedOf c (Otp.set_isUsed true r) = false.
Proof. unfold unusedOf. simpl. apply andb_false_r. Qed.

Lemma unusedOf_other c c' r :
  c' <> c -> unusedOf c r = true -> unusedOf c' r = false.
Proof.
  unfold unusedOf. intros Hne H. apply andb_true_iff in H as [H _].
  apply Nat.eqb_eq in H. apply andb_false_iff. left. apply Nat.eqb_neq. lia.
Qed.

Lemma activeCount_supersede c l : activeCount c (supersede c l) = 0%nat.
Proof.
  induction l as [|a l IH]; [done|]. unfold supersede, Otp.updateMany in *.
  simpl. rewrite activeCount_cons, IH.
  destruct (unusedOf c a) eqn:Ea; [by rewrite unusedOf_set_isUsed|by rewrite Ea].
Qed.

Lemma activeCount_supersede_other c c' l :
  c' <> c -> activeCount c' (supersede c l) = activeCount c' l.
Proof.
  intros Hne. induction l as [|a l IH]; [done|].
  unfold supersede, Otp.updateMany in *.
  simpl. rewrite !activeCount_cons, IH.
  destruct (unusedOf c a) eqn:Ea; [|done].
  by rewrite unusedOf_set_isUsed, (unusedOf_other c c' a).
Qed.

Lemma supersede_lookup c l i r :
  l !! i = Some r ->
  supersede c l !! i
  = Some (if unusedOf c r then Otp.set_isUsed true r else r).
Proof.
  intros H. unfold supersede, Otp.updateMany.
  by rewrite list_lookup_fmap, H.
Qed.

Lemma supersede_length c l : length (supersede c l) = length l.
Proof. unfold supersede, Otp.updateMany. apply length_map. Qed.

(** Saving [r'] over [r] moves the count by what the two contribute. *)
Lemma activeCount_save c l i r r' :
  l !! i = Some r ->
  (activeCount c (Otp.save i r' l) + (if unusedOf c r then 1 else 0)
   = activeCount c l + (if unusedOf c r' then 1 else 0))%nat.
Proof.
  unfold Otp.save. revert i. induction l as [|a l IH]; intros [|i] H;
    simpl in H; try discriminate.
  - injection H as ->. simpl. rewrite !activeCount_cons. lia.
  - simpl. rewrite !activeCount_cons. specialize (IH i H). lia.
Qed.

Lemma activeCount_new c c' g p now :
  activeCount c' [Otp.new c g p now] = if (c =? c')%nat then 1%nat else 0%nat.
Proof.
  unfold activeCount, unusedOf. simpl. by destruct (c =? c')%nat.
Qed.

End ActiveCount.

(** ** What issuing a code does *)

Ltac handler_unfold :=
  unfold sendOTP, verifyOTP, resendOTP, getOTPStatus, try_catch, bind, ret,
    throw, Client_findById, Otp_findOne_sort, Otp_updateMany, Otp_create,
    Otp_save, Notification_save, clientWithPhone, issueOutcome in *.

Lemma sendOTP_rejects req now g db :
  errors req <> [] \/ clientWithPhone req db = None ->
  exists resp, sendOTP req now g db = (db, resp)
    /\ (status resp = 400 \/ status resp = 404) /\ success (body resp) = false.
Proof.
  intros H. handler_unfold. destruct (errors req) as [|e es]; simpl.
  - destruct H as [H|H]; [done|].
    destruct (clients db !! body_clientId req) as [cl|]; simpl; [|eauto].
    destruct (Client.phone cl) as [[|a s]|]; simpl; eauto. discriminate.
  - eauto.
Qed.

Lemma sendOTP_proceeds req now g db cl p :
  errors req = [] -> clientWithPhone req db = Some (cl, p) ->
  sendOTP req now g db
  = issueOutcome Notification.otp_sent "OTP sent to "
      "OTP generated successfully (Testing mode - WhatsApp disabled)"
      req now g cl p db.
Proof.
  intros He Hc. handler_unfold. rewrite He. simpl.
  destruct (clients db !! body_clientId req) as [cl'|]; [|discriminate].
  simpl. destruct (Client.phone cl') as [[|a s]|]; try discriminate.
  injection Hc as -> <-. simpl.
  fold (supersede (body_clientId req) (otps db)). rewrite supersede_length.
  destruct (user req) as [u|]; simpl; [|done].
  unfold audit. by destruct (Notification.validate _).
Qed.

Lemma resendOTP_rejects req now g db :
  errors req <> [] \/ clientWithPhone req db = None ->
  exists resp, resendOTP req now g db = (db, resp)
    /\ (status resp = 400 \/ status resp = 404) /\ success (body resp) = false.
Proof.
  intros H. handler_unfold. destruct (errors req) as [|e es]; simpl.
  - destruct H as [H|H]; [done|].
    destruct (clients db !! body_clientId req) as [cl|]; simpl; [|eauto].
    destruct (Client.phone cl) as [[|a s]|]; simpl; eauto. discriminate.
  - eauto.
Qed.

Lemma resendOTP_throttled req now g db cl p w :
  errors req = [] -> clientWithPhone req db = Some (cl, p) ->
  cooldown (body_clientId req) now (otps db) = Some w ->
  resendOTP req now g db = (db, rateLimited w).
Proof.
  intros He Hc Hw. handler_unfold. rewrite He. simpl.
  destruct (clients db !! body_clientId req) as [cl'|]; [|discriminate].
  simpl. destruct (Client.phone cl') as [[|a s]|]; try discriminate.
  injection Hc as -> <-. simpl. unfold cooldown in Hw.
  destruct (Otp.findLatest _ _) as [[i e]|]; [|discriminate].
  destruct (Otp.isValid e now); simpl in *; [|discriminate].
  destruct (now - Otp.createdAt e <? 30 * 1000); [|discriminate].
  by injection Hw as <-.
Qed.

Lemma resendOTP_proceeds req now g db cl p :
  errors req = [] -> clientWithPhone req db = Some (cl, p) ->
  cooldown (body_clientId req) now (otps db) = None ->
  resendOTP req now g db
  = issueOutcome Notification.otp_resent "OTP resent to "
      "OTP regenerated successfully (Testing mode - WhatsApp disabled)"
      req now g cl p db.
Proof.
  intros He Hc Hw. handler_unfold. rewrite He. simpl.
  destruct (clients db !! body_clientId req) as [cl'|]; [|discriminate].
  simpl. destruct (Client.phone cl') as [[|a s]|]; try discriminate.
  injection Hc as -> <-. simpl. unfold cooldown in Hw.
  destruct (Otp.findLatest _ _) as [[i e]|]; simpl.
  1: destruct (Otp.isValid e now); simpl in *.
  1: destruct (now - Otp.createdAt e <? 30 * 1000); [discriminate|].
  all: simpl; fold (supersede (body_clientId req) (otps db));
    rewrite supersede_length; destruct (user req) as [u|]; simpl; [|done];
    unfold audit; by destruct (Notification.validate _).
Qed.

(** ** What verifying a code does *)

Lemma unusedWithCode_true c o r :
  unusedWithCode c o r = true
  <-> Otp.client r = c /\ matchesCode o (Otp.otp r) = true
      /\ Otp.isUsed r = false.
Proof.
  unfold unusedWithCode. rewrite !andb_true_iff, Nat.eqb_eq.
  rewrite negb_true_iff. tauto.
Qed.

Lemma matchesCode_Str s stored :
  matchesCode (Str s) stored = true <-> stored = s.
Proof. apply String.eqb_eq. Qed.

Lemma unusedOf_true c r :
  unusedOf c r = true <-> Otp.client r = c /\ Otp.isUsed r = false.
Proof.
  unfold unusedOf. rewrite andb_true_iff, Nat.eqb_eq, negb_true_iff. tauto.
Qed.

(** A value the cast refuses finds nothing: the query does not run. *)
Lemma findLatest_Refused c l :
  Otp.findLatest (unusedWithCode c Refused) l = None.
Proof.
  apply findLatest_None. intros r _. unfold unusedWithCode. simpl.
  by rewrite andb_false_r.
Qed.

Lemma found_castable c o l i r :
  Otp.findLatest (unusedWithCode c o) l = Some (i, r) -> o <> Refused.
Proof. intros H ->. by rewrite findLatest_Refused in H. Qed.

Lemma verifyOTP_malformed req now db :
  errors req <> [] ->
  verifyOTP req now db = (db, mkResponse 400 (ValidationFailed (errors req))).
Proof. intros H. handler_unfold. by destruct (errors req). Qed.

Lemma verifyOTP_refused req now db :
  errors req = [] -> body_otp req = Refused ->
  verifyOTP req now db = (db, serverError CastError).
Proof. intros He Ho. handler_unfold. by rewrite He, Ho. Qed.

Lemma verifyOTP_not_found req now db :
  errors req = [] -> body_otp req <> Refused ->
  Otp.findLatest (unusedWithCode (body_clientId req) (body_otp req)) (otps db)
  = None ->
  verifyOTP req now db = (db, invalidOtp).
Proof.
  intros He Ho Hf. handler_unfold. rewrite He. simpl.
  destruct (body_otp req); [| |done]; simpl; by rewrite Hf.
Qed.

Lemma verifyOTP_expired req now db i r :
  errors req = [] ->
  Otp.findLatest (unusedWithCode (body_clientId req) (body_otp req)) (otps db)
  = Some (i, r) ->
  Otp.isValid r now = false ->
  verifyOTP req now db
  = (set_otps (Otp.save i (Otp.set_isUsed true r) (otps db)) db, expired).
Proof.
  intros He Hf Hv. pose proof (found_castable _ _ _ _ _ Hf) as Ho.
  handler_unfold. rewrite He. simpl.
  destruct (body_otp req); [| |done]; simpl; by rewrite Hf, Hv.
Qed.

Lemma verifyOTP_valid req now db i r :
  errors req = [] ->
  isStr (body_otp req) = true ->
  Otp.findLatest (unusedWithCode (body_clientId req) (body_otp req)) (otps db)
  = Some (i, r) ->
  Otp.isValid r now = true ->
  verifyOTP req now db
  = (set_otps (Otp.save i (consumed r) (otps db)) db,
     match clients db !! body_clientId req with
     | Some cl =>
         mkResponse 200
           (OtpVerified "OTP verified successfully" (body_clientId req)
              (Client.name cl) (Client.phone cl) now)
     | None => serverError TypeError
     end).
Proof.
  intros He Hs Hf Hv. handler_unfold. rewrite He. simpl.
  destruct (body_otp req) as [s| |]; try discriminate. simpl.
  rewrite Hf, Hv. simpl.
  destruct (findLatest_sound _ _ _ _ Hf) as (_ & Hq & _).
  apply unusedWithCode_true in Hq as (_ & Ho & _).
  apply matchesCode_Str in Ho. rewrite Ho, String.eqb_refl. simpl.
  by destruct (clients db !! body_clientId req).
Qed.

(** The wrong-code branch: the document found is valid and the submitted
    value is not a string. *)
Lemma verifyOTP_counted req now db i r :
  errors req = [] ->
  isStr (body_otp req) = false ->
  Otp.findLatest (unusedWithCode (body_clientId req) (body_otp req)) (otps db)
  = Some (i, r) ->
  Otp.isValid r now = true ->
  verifyOTP req now db
  = (set_otps (Otp.save i (counted r) (otps db)) db,
     wrongCode (Otp.attempts r + 1)).
Proof.
  intros He Hs Hf Hv. pose proof (found_castable _ _ _ _ _ Hf) as Ho.
  handler_unfold. rewrite He. simpl.
  destruct (body_otp req) as [s|f|]; try done. simpl.
  by rewrite Hf, Hv.
Qed.

Lemma getOTPStatus_eq req now db :
  getOTPStatus req now db
  = (db,
     match Otp.findLatest (anyOf (params_clientId req)) (otps db) with
     | None => mkResponse 200 NoOtpFound
     | Some (_, r) =>
         mkResponse 200
           (OtpStatus (Otp.isValid r now) (Otp.isUsed r) (Otp.attempts r)
              (Z.max 0 ((Otp.expiresAt r - now) / 1000)) (Otp.expiresAt r))
     end).
Proof.
  handler_unfold. by destruct (Otp.findLatest _ _) as [[i r]|].
Qed.

(** ** How the collection evolves *)

Section Issued.

Implicit Types (c : ObjectId) (l : list Otp.t) (r : Otp.t).

Lemma issued_activeCount c g p now l :
  activeCount c (issued c g p now l) = 1%nat.
Proof.
  unfold issued, Otp.insert.
  rewrite activeCount_app, activeCount_supersede, activeCount_new.
  by rewrite Nat.eqb_refl.
Qed.

Lemma issued_activeCount_other c c' g p now l :
  c' <> c -> activeCount c' (issued c g p now l) = activeCount c' l.
Proof.
  intros Hne. unfold issued, Otp.insert.
  rewrite activeCount_app, activeCount_supersede_other, activeCount_new by done.
  destruct (Nat.eqb_spec c c'); [congruence|lia].
Qed.

Lemma issued_lookup_old c g p now l i r :
  l !! i = Some r ->
  issued c g p now l !! i
  = Some (if unusedOf c r then Otp.set_isUsed true r else r).
Proof.
  intros H. unfold issued, Otp.insert. rewrite lookup_app_l.
  - by apply supersede_lookup.
  - rewrite supersede_length. by eapply lookup_lt_Some.
Qed.

Lemma issued_lookup_new c g p now l :
  issued c g p now l !! length l = Some (Otp.new c g p now).
Proof.
  unfold issued, Otp.insert. rewrite <- (supersede_length c l).
  by rewrite list_lookup_middle.
Qed.

Lemma issued_length c g p now l :
  length (issued c g p now l) = S (length l).
Proof.
  unfold issued, Otp.insert. rewrite length_app, supersede_length. simpl. lia.
Qed.

End Issued.

Lemma issueOutcome_otps ty verb msg req now g cl p db :
  otps (issueOutcome ty verb msg req now g cl p db).1
  = issued (body_clientId req) g p now (otps db).
Proof.
  unfold issueOutcome. destruct (user req); [|done].
  by destruct (Notification.validate _).
Qed.

Lemma issueOutcome_clients ty verb msg req now g cl p db :
  clients (issueOutcome ty verb msg req now g cl p db).1 = clients db.
Proof.
  unfold issueOutcome. destruct (user req); [|done].
  by destruct (Notification.validate _).
Qed.

Lemma sendOTP_evolves req now g db :
  evolves now (otps db) (otps (sendOTP req now g db).1).
Proof.
  destruct (errors req) as [|e es] eqn:He.
  - destruct (clientWithPhone req db) as [[cl p]|] eqn:Hc.
    + rewrite (sendOTP_proceeds _ _ _ _ _ _ He Hc), issueOutcome_otps.
      constructor.
    + destruct (sendOTP_rejects req now g db) as (resp & -> & _); [auto|].
      constructor.
  - destruct (sendOTP_rejects req now g db) as (resp & -> & _).
    + left. by rewrite He.
    + constructor.
Qed.

Lemma resendOTP_evolves req now g db :
  evolves now (otps db) (otps (resendOTP req now g db).1).
Proof.
  destruct (errors req) as [|e es] eqn:He.
  - destruct (clientWithPhone req db) as [[cl p]|] eqn:Hc.
    + destruct (cooldown (body_clientId req) now (otps db)) as [w|] eqn:Hw.
      * rewrite (resendOTP_throttled _ _ _ _ _ _ _ He Hc Hw). constructor.
      * rewrite (resendOTP_proceeds _ _ _ _ _ _ He Hc Hw), issueOutcome_otps.
        constructor.
    + destruct (resendOTP_rejects req now g db) as (resp & -> & _); [auto|].
      constructor.
  - destruct (resendOTP_rejects req now g db) as (resp & -> & _).
    + left. by rewrite He.
    + constructor.
Qed.

(** What verifyOTP does to the collection, case by case. *)
Lemma verifyOTP_otps req now db :
  otps (verifyOTP req now db).1
  = match errors req with
    | [] =>
        match Otp.findLatest
                (unusedWithCode (body_clientId req) (body_otp req)) (otps db)
        with
        | Some (i, r) =>
            Otp.save i (writtenBack (body_otp req) now r) (otps db)
        | None => otps db
        end
    | _ => otps db
    end.
Proof.
  destruct (errors req) as [|e es] eqn:He.
  - destruct (Otp.findLatest _ _) as [[i r]|] eqn:Hf.
    + unfold writtenBack. destruct (Otp.isValid r now) eqn:Hv.
      * destruct (isStr (body_otp req)) eqn:Hs.
        -- by rewrite (verifyOTP_valid _ _ _ _ _ He Hs Hf Hv).
        -- by rewrite (verifyOTP_counted _ _ _ _ _ He Hs Hf Hv).
      * by rewrite (verifyOTP_expired _ _ _ _ _ He Hf Hv).
    + destruct (body_otp req) as [s|f|] eqn:Ho.
      * rewrite verifyOTP_not_found; try done; by rewrite Ho.
      * rewrite verifyOTP_not_found; try done; by rewrite Ho.
      * by rewrite verifyOTP_refused.
  - rewrite verifyOTP_malformed; [done|]. by rewrite He.
Qed.

(** verifyOTP writes to the OTP collection only. *)
Lemma verifyOTP_frame req now db :
  clients (verifyOTP req now db).1 = clients db
  /\ notifications (verifyOTP req now db).1 = notifications db.
Proof.
  destruct (errors req) as [|e es] eqn:He.
  - destruct (Otp.findLatest
                (unusedWithCode (body_clientId req) (body_otp req)) (otps db))
      as [[i r]|] eqn:Hf.
    + destruct (Otp.isValid r now) eqn:Hv.
      * destruct (isStr (body_otp req)) eqn:Hs.
        -- by rewrite (verifyOTP_valid _ _ _ _ _ He Hs Hf Hv).
        -- by rewrite (verifyOTP_counted _ _ _ _ _ He Hs Hf Hv).
      * by rewrite (verifyOTP_expired _ _ _ _ _ He Hf Hv).
    + destruct (body_otp req) as [s|f|] eqn:Ho.
      * rewrite verifyOTP_not_found; try done; by rewrite Ho.
      * rewrite verifyOTP_not_found; try done; by rewrite Ho.
      * by rewrite verifyOTP_refused.
  - rewrite verifyOTP_malformed; [done|]. by rewrite He.
Qed.

Lemma writtenBack_client otp now r :
  Otp.client (writtenBack otp now r) = Otp.client r.
Proof.
  unfold writtenBack. by destruct (Otp.isValid r now), (isStr otp).
Qed.

Lemma writtenBack_createdAt otp now r :
  Otp.createdAt (writtenBack otp now r) = Otp.createdAt r.
Proof.
  unfold writtenBack. by destruct (Otp.isValid r now), (isStr otp).
Qed.

Lemma verifyOTP_evolves req now db :
  evolves now (otps db) (otps (verifyOTP req now db).1).
Proof.
  rewrite verifyOTP_otps. destruct (errors req); [|constructor].
  destruct (Otp.findLatest _ _) as [[i r]|] eqn:Hf; [|constructor].
  destruct (findLatest_sound _ _ _ _ Hf) as (Hi & Hq & _).
  apply unusedWithCode_true in Hq as (_ & _ & Hu).
  eapply ev_write; [done..|apply writtenBack_client|apply writtenBack_createdAt].
Qed.

Lemma step_evolves op db :
  evolves (timeOf op) (otps db) (otps (step op db).1).
Proof.
  destruct op; simpl.
  - apply sendOTP_evolves.
  - apply verifyOTP_evolves.
  - apply resendOTP_evolves.
  - rewrite getOTPStatus_eq. constructor.
Qed.

Lemma evolves_used t l l' i r :
  evolves t l l' -> l !! i = Some r -> Otp.isUsed r = true ->
  exists r', l' !! i = Some r' /\ Otp.isUsed r' = true.
Proof.
  intros [|c g p|j x x' Hj Hx _ _] Hi Hr.
  - eauto.
  - rewrite (issued_lookup_old _ _ _ _ _ _ _ Hi).
    eexists; split; [done|]. by destruct (unusedOf c r).
  - unfold Otp.save. destruct (decide (j = i)) as [->|Hne].
    + congruence.
    + rewrite list_lookup_insert_ne by done. eauto.
Qed.

Lemma evolves_singleActive t l l' :
  evolves t l l' ->
  (forall c, (activeCount c l <= 1)%nat) ->
  forall c, (activeCount c l' <= 1)%nat.
Proof.
  intros [|c0 g p|j x x' Hj Hx Hc _] H c.
  - done.
  - destruct (decide (c = c0)) as [->|Hne].
    + by rewrite issued_activeCount.
    + by rewrite issued_activeCount_other.
  - pose proof (activeCount_save c _ _ _ x' Hj) as E.
    specialize (H c). destruct (unusedOf c x') eqn:Hn; [|lia].
    assert (unusedOf c x = true) as Hy.
    { apply unusedOf_true in Hn as [Hn _]. apply unusedOf_true.
      split; [congruence|done]. }
    rewrite Hy in E. lia.
Qed.

(** The invariant holds of the empty collection and is kept by every
    request, so it holds after any sequence of requests. *)
Lemma step_singleActive op db :
  singleActive db -> singleActive (step op db).1.
Proof.
  intros H c. revert c.
  eapply evolves_singleActive; [apply step_evolves|exact H].
Qed.

Lemma run_singleActive ops db :
  singleActive db -> singleActive (run ops db).
Proof.
  revert db. induction ops as [|op ops IH]; intros db H; [done|].
  simpl. apply IH. by apply step_singleActive.
Qed.

Lemma empty_singleActive cls ns : singleActive (mkDB cls [] ns).
Proof. intros c. simpl. unfold activeCount. simpl. lia. Qed.

(** ** The single active code *)

Lemma issued_supersedes c g p now l : supersedes c l (issued c g p now l).
Proof.
  repeat split.
  - intros i r Hi Hc. rewrite (issued_lookup_old _ _ _ _ _ _ _ Hi).
    eexists; split; [done|]. destruct (unusedOf c r) eqn:E; [done|].
    unfold unusedOf in E. apply andb_false_iff in E as [E|E].
    + apply Nat.eqb_neq in E. congruence.
    + by apply negb_false_iff in E.
  - exists (Otp.new c g p now). by rewrite issued_lookup_new.
  - apply issued_length.
  - apply issued_activeCount.
Qed.


Lemma issueOutcome_status ty verb msg req now g cl p db :
  status (issueOutcome ty verb msg req now g cl p db).2 = 200
  \/ status (issueOutcome ty verb msg req now g cl p db).2 = 500.
Proof.
  unfold issueOutcome. destruct (user req); [|by left].
  destruct (Notification.validate _); [by left|by right].
Qed.

Lemma sendOTP_200 req now g db :
  status (sendOTP req now g db).2 = 200 ->
  exists cl p, errors req = [] /\ clientWithPhone req db = Some (cl, p).
Proof.
  intros H. destruct (errors req) as [|e es] eqn:He.
  - destruct (clientWithPhone req db) as [[cl p]|] eqn:Hc; [eauto|].
    destruct (sendOTP_rejects req now g db) as (resp & E & [S|S] & _);
      [auto|rewrite E in H; simpl in H; lia..].
  - destruct (sendOTP_rejects req now g db) as (resp & E & [S|S] & _);
      [left; by rewrite He|rewrite E in H; simpl in H; lia..].
Qed.

Lemma resendOTP_200 req now g db :
  status (resendOTP req now g db).2 = 200 ->
  exists cl p, errors req = [] /\ clientWithPhone req db = Some (cl, p)
    /\ cooldown (body_clientId req) now (otps db) = None.
Proof.
  intros H. destruct (errors req) as [|e es] eqn:He.
  - destruct (clientWithPhone req db) as [[cl p]|] eqn:Hc.
    + destruct (cooldown (body_clientId req) now (otps db)) as [w|] eqn:Hw;
        [|eauto 6].
      rewrite (resendOTP_throttled _ _ _ _ _ _ _ He Hc Hw) in H. discriminate.
    + destruct (resendOTP_rejects req now g db) as (resp & E & [S|S] & _);
        [auto|rewrite E in H; simpl in H; lia..].
  - destruct (resendOTP_rejects req now g db) as (resp & E & [S|S] & _);
      [left; by rewrite He|rewrite E in H; simpl in H; lia..].
Qed.

(** C1.  After a sendOTP or a resendOTP that issued a code (status 200)
    every document the client had before is marked used and the new
    document is the client's only unused one; and whatever the outcome
    of the request, a database in which every client has at most one
    unused document stays so. *)
Theorem single_active_after_issue (req : Request) (now : Date) (g : string)
  (db : DB) :
  (status (sendOTP req now g db).2 = 200 ->
   supersedes (body_clientId req) (otps db) (otps (sendOTP req now g db).1))
  /\ (status (resendOTP req now g db).2 = 200 ->
      supersedes (body_clientId req) (otps db)
        (otps (resendOTP req now g db).1))
  /\ (singleActive db ->
      singleActive (sendOTP req now g db).1
      /\ singleActive (resendOTP req now g db).1).
Proof.
  split; [|split].
  - intros H. destruct (sendOTP_200 _ _ _ _ H) as (cl & p & He & Hc).
    rewrite (sendOTP_proceeds _ _ _ _ _ _ He Hc), issueOutcome_otps.
    apply issued_supersedes.
  - intros H. destruct (resendOTP_200 _ _ _ _ H) as (cl & p & He & Hc & Hw).
    rewrite (resendOTP_proceeds _ _ _ _ _ _ He Hc Hw), issueOutcome_otps.
    apply issued_supersedes.
  - intros H. split.
    + apply (step_singleActive (Send req now g) db H).
    + apply (step_singleActive (Resend req now g) db H).
Qed.

(** Issuing to client 1 twice, the second time by resendOTP after the
    cooldown. *)
Lemma single_active_after_issue_witness :
  supersedes 1%nat (otps Ex.db1)
    (otps (sendOTP (Ex.request 1%nat "" None) 2000 "654321" Ex.db1).1)
  /\ supersedes 1%nat (otps Ex.db1)
       (otps (resendOTP (Ex.request 1%nat "" None) 40000 "654321" Ex.db1).1)
  /\ singleActive (sendOTP (Ex.request 1%nat "" None) 2000 "654321" Ex.db1).1
  /\ singleActive
       (resendOTP (Ex.request 1%nat "" None) 40000 "654321" Ex.db1).1.
Proof.
  pose proof (single_active_after_issue (Ex.request 1%nat "" None) 2000
                "654321" Ex.db1) as (Hs & _ & Hi).
  pose proof (single_active_after_issue (Ex.request 1%nat "" None) 40000
                "654321" Ex.db1) as (_ & Hr & Hi').
  assert (Hdb1 : singleActive Ex.db1).
  { intros [|[|c]]; vm_compute; lia. }
  split; [apply Hs; vm_compute; reflexivity|].
  split; [apply Hr; vm_compute; reflexivity|].
  split; [apply (Hi Hdb1)|apply (Hi' Hdb1)].
Defined.

(** ** Verification *)

(** The six ways of verifyOTP. *)
Lemma verifyOTP_cases req now db :
  (errors req <> []
   /\ verifyOTP req now db
      = (db, mkResponse 400 (ValidationFailed (errors req))))
  \/ (errors req = [] /\ body_otp req = Refused
      /\ verifyOTP req now db = (db, serverError CastError))
  \/ (errors req = [] /\ body_otp req <> Refused
      /\ Otp.findLatest (unusedWithCode (body_clientId req) (body_otp req))
           (otps db) = None
      /\ verifyOTP req now db = (db, invalidOtp))
  \/ exists i r,
       errors req = []
       /\ Otp.findLatest (unusedWithCode (body_clientId req) (body_otp req))
            (otps db) = Some (i, r)
       /\ ((Otp.isValid r now = false
            /\ verifyOTP req now db
               = (set_otps (Otp.save i (Otp.set_isUsed true r) (otps db)) db,
                  expired))
           \/ (Otp.isValid r now = true /\ isStr (body_otp req) = true
               /\ verifyOTP req now db
                  = (set_otps (Otp.save i (consumed r) (otps db)) db,
                     match clients db !! body_clientId req with
                     | Some cl =>
                         mkResponse 200
                           (OtpVerified "OTP verified successfully"
                              (body_clientId req) (Client.name cl)
                              (Client.phone cl) now)
                     | None => serverError TypeError
                     end))
           \/ (Otp.isValid r now = true /\ isStr (body_otp req) = false
               /\ verifyOTP req now db
                  = (set_otps (Otp.save i (counted r) (otps db)) db,
                     wrongCode (Otp.attempts r + 1)))).
Proof.
  destruct (errors req) as [|e es] eqn:He.
  - destruct (Otp.findLatest
                (unusedWithCode (body_clientId req) (body_otp req)) (otps db))
      as [[i r]|] eqn:Hf.
    + do 3 right. exists i, r. split; [done|]. split; [done|].
      destruct (Otp.isValid r now) eqn:Hv.
      * destruct (isStr (body_otp req)) eqn:Hs.
        -- right; left. by rewrite (verifyOTP_valid _ _ _ _ _ He Hs Hf Hv).
        -- right; right.
           by rewrite (verifyOTP_counted _ _ _ _ _ He Hs Hf Hv).
      * left. by rewrite (verifyOTP_expired _ _ _ _ _ He Hf Hv).
    + assert (body_otp req = Refused \/ body_otp req <> Refused) as [Ho|Ho]
        by (destruct (body_otp req); [by right|by right|by left]).
      * right; left. by rewrite verifyOTP_refused.
      * do 2 right; left. by rewrite verifyOTP_not_found.
  - left. split; [done|]. rewrite verifyOTP_malformed; by rewrite He.
Qed.

(** No answer to a code submitted as a string carries [attemptsLeft]: the
    query already asked for the submitted code, so the comparison after it
    cannot fail. *)
Lemma verifyOTP_no_attemptsLeft req now db m a :
  isStr (body_otp req) = true ->
  body (verifyOTP req now db).2 <> Failure m (Some a).
Proof.
  intros Hs.
  destruct (verifyOTP_cases req now db)
    as [(_ & ->)|[(_ & _ & ->)|[(_ & _ & _ & ->)|(i & r & _ & _ & H)]]];
    try done.
  destruct H as [(_ & ->)|[(_ & _ & ->)|(_ & Hn & _)]]; try done.
  - simpl. by destruct (clients db !! body_clientId req).
  - congruence.
Qed.

(** A code that no unused document of the client holds is answered
    "Invalid OTP" and leaves the database as it was: no counter moves. *)
Lemma verifyOTP_wrong_code req now db :
  errors req = [] -> body_otp req <> Refused ->
  (forall r, r ∈ otps db -> unusedOf (body_clientId req) r = true ->
     matchesCode (body_otp req) (Otp.otp r) = false) ->
  verifyOTP req now db = (db, invalidOtp).
Proof.
  intros He Ho H. apply verifyOTP_not_found; [done..|].
  apply findLatest_None. intros r Hr.
  destruct (unusedWithCode _ _ r) eqn:E; [|done].
  apply unusedWithCode_true in E as (Hc & Hm & Hu).
  rewrite H in Hm; [done..|]. by apply unusedOf_true.
Qed.

(** Wrong codes, however many, leave the database as it was: they count
    towards no cap. *)
Lemma run_wrong_codes db (tries : list (Request * Date)) :
  Forall (fun t : Request * Date =>
            errors t.1 = [] /\ body_otp t.1 <> Refused
            /\ forall r, r ∈ otps db ->
                 unusedOf (body_clientId t.1) r = true ->
                 matchesCode (body_otp t.1) (Otp.otp r) = false) tries ->
  run (map (fun t : Request * Date => Verify t.1 t.2) tries) db = db.
Proof.
  induction 1 as [|[req now] tries (He & Ho & Hw) _ IH]; [done|].
  simpl in *. by rewrite verifyOTP_wrong_code.
Qed.

(** C2.  What verifyOTP does with a wrong code: a fresh document of client 1
    holds 123456; the wrong code 000000 is answered "Invalid OTP" with no
    [attemptsLeft], and the document keeps [attempts = 0]. *)
Theorem wrong_code_on_fresh_record :
  verifyOTP (Ex.request 1%nat "000000" None) 2000 Ex.db1
  = (Ex.db1, mkResponse 400 (Failure "Invalid OTP" None))
  /\ Otp.attempts
       <$> otps (verifyOTP (Ex.request 1%nat "000000" None) 2000 Ex.db1).1
           !! 0%nat
     = Some 0.
Proof. split; vm_compute; reflexivity. Qed.

(** C3.  What verifyOTP does with three wrong codes: against the fresh
    document of client 1 each is answered "Invalid OTP" with no
    [attemptsLeft] and leaves the database untouched; the fourth call,
    with the right code, succeeds. *)
Theorem three_wrong_codes_then_right :
  let wrong code := Ex.request 1%nat code None in
  let '(d1, r1) := verifyOTP (wrong "000000") 2000 Ex.db1 in
  let '(d2, r2) := verifyOTP (wrong "111111") 3000 d1 in
  let '(d3, r3) := verifyOTP (wrong "222222") 4000 d2 in
  let '(d4, r4) := verifyOTP (Ex.request 1%nat "123456" None) 5000 d3 in
  r1 = invalidOtp /\ r2 = invalidOtp /\ r3 = invalidOtp
  /\ d3 = Ex.db1
  /\ r4 = mkResponse 200
            (OtpVerified "OTP verified successfully" 1%nat "Asha"
               (Some "9876543210") 5000)
  /\ otps d4 = [consumed Ex.fresh].
Proof. vm_compute. repeat split. Qed.

(** C4, as stated, fails for a code that is not submitted as a string.
    Client 1 is issued the code 123456 and submits it as the number
    123456: the lookup, which casts, finds the valid document; the
    comparison, which does not, fails; the wrong-code branch runs, the
    attempt is counted, the answer is "Invalid OTP" with [attemptsLeft: 2]
    and the document stays unused. *)
Lemma number_code_is_counted :
  let db := (sendOTP (Ex.request 1%nat "" None) 1000 "123456" Ex.db0).1 in
  let req := Ex.requestNumber 1%nat "123456" None in
  status (sendOTP (Ex.request 1%nat "" None) 1000 "123456" Ex.db0).2 = 200
  /\ Otp.findLatest (unusedWithCode (body_clientId req) (body_otp req))
       (otps db) = Some (0%nat, Ex.fresh)
  /\ Otp.isValid Ex.fresh 2000 = true
  /\ (verifyOTP req 2000 db).2
     = mkResponse 400 (Failure "Invalid OTP" (Some 2))
  /\ success (body (verifyOTP req 2000 db).2) = false
  /\ Otp.isUsed <$> otps (verifyOTP req 2000 db).1 !! 0%nat = Some false
  /\ Otp.attempts <$> otps (verifyOTP req 2000 db).1 !! 0%nat = Some 1.
Proof. vm_compute. repeat split. Qed.

Lemma rewritten_consumed r : rewritten r (consumed r) (Otp.attempts r + 1) true.
Proof. by repeat split. Qed.

Lemma rewritten_counted r :
  Otp.isUsed r = false -> rewritten r (counted r) (Otp.attempts r + 1) false.
Proof. intros H. by repeat split. Qed.

Lemma rewritten_set_isUsed r :
  rewritten r (Otp.set_isUsed true r) (Otp.attempts r) true.
Proof. by repeat split. Qed.

Lemma save_lookup_eq i (r x : Otp.t) l :
  l !! i = Some x -> Otp.save i r l !! i = Some r.
Proof.
  intros H. unfold Otp.save. apply list_lookup_insert_eq.
  by eapply lookup_lt_Some.
Qed.

Lemma save_lookup_ne i j (r : Otp.t) l :
  j <> i -> Otp.save i r l !! j = l !! j.
Proof. intros H. unfold Otp.save. by apply list_lookup_insert_ne. Qed.

(** C4, amended.  For a code submitted as a string the document verifyOTP
    finds holds the submitted code, so no answer carries [attemptsLeft];
    when the document found is valid it is written back used, with one
    more attempt and nothing else changed, and the answer is the success
    (the client of the code being on file, as the client of every issued
    code is).  For a value that is not a string the valid document found
    is written back with one more attempt and still unused, and the answer
    is "Invalid OTP" with [attemptsLeft = 3 - attempts].  No other
    document changes. *)
Theorem verify_found_valid (req : Request) (now : Date) (db : DB) :
  (isStr (body_otp req) = true ->
   forall m a, body (verifyOTP req now db).2 <> Failure m (Some a))
  /\ forall i r,
       errors req = [] ->
       Otp.findLatest (unusedWithCode (body_clientId req) (body_otp req))
         (otps db) = Some (i, r) ->
       Otp.isValid r now = true ->
       (forall j, j <> i ->
          otps (verifyOTP req now db).1 !! j = otps db !! j)
       /\ (forall s,
             body_otp req = Str s ->
             Otp.otp r = s
             /\ (exists r',
                   otps (verifyOTP req now db).1 !! i = Some r'
                   /\ rewritten r r' (Otp.attempts r + 1) true)
             /\ (forall cl,
                   clients db !! body_clientId req = Some cl ->
                   (verifyOTP req now db).2
                   = mkResponse 200
                       (OtpVerified "OTP verified successfully"
                          (body_clientId req) (Client.name cl)
                          (Client.phone cl) now))
             /\ (clientsOnFile db ->
                 status (verifyOTP req now db).2 = 200
                 /\ success (body (verifyOTP req now db).2) = true))
       /\ (isStr (body_otp req) = false ->
           (verifyOTP req now db).2
           = mkResponse 400
               (Failure "Invalid OTP" (Some (3 - (Otp.attempts r + 1))))
           /\ exists r',
                otps (verifyOTP req now db).1 !! i = Some r'
                /\ rewritten r r' (Otp.attempts r + 1) false).
Proof.
  split; [intros Hs m a; by apply verifyOTP_no_attemptsLeft|].
  intros i r He Hf Hv.
  destruct (findLatest_sound _ _ _ _ Hf) as (Hi & Hq & _).
  apply unusedWithCode_true in Hq as (Hc & Ho & Hu).
  split; [|split].
  - intros j Hj. rewrite verifyOTP_otps, He, Hf. by apply save_lookup_ne.
  - intros s Hs. assert (isStr (body_otp req) = true) as Hstr by (by rewrite Hs).
    rewrite (verifyOTP_valid _ _ _ _ _ He Hstr Hf Hv). simpl.
    rewrite Hs in Ho. apply matchesCode_Str in Ho.
    split; [done|]. split; [|split].
    + exists (consumed r). split; [by eapply save_lookup_eq|].
      apply rewritten_consumed.
    + by intros cl ->.
    + intros Hcl. destruct (Hcl r) as [cl Hx].
      { apply list_elem_of_lookup. eauto. }
      rewrite Hc in Hx. by rewrite Hx.
  - intros Hs. rewrite (verifyOTP_counted _ _ _ _ _ He Hs Hf Hv). simpl.
    split; [done|]. exists (counted r).
    split; [by eapply save_lookup_eq|]. by apply rewritten_counted.
Qed.

(** The code of client 1, submitted as the string and as the number. *)
Lemma verify_found_valid_witness :
  (exists r',
     otps (verifyOTP (Ex.request 1%nat "123456" None) 2000 Ex.db1).1 !! 0%nat
     = Some r'
     /\ rewritten Ex.fresh r' 1 true)
  /\ (verifyOTP (Ex.request 1%nat "123456" None) 2000 Ex.db1).2
     = mkResponse 200
         (OtpVerified "OTP verified successfully" 1%nat "Asha"
            (Some "9876543210") 2000)
  /\ (verifyOTP (Ex.requestNumber 1%nat "123456" None) 2000 Ex.db1).2
     = mkResponse 400 (Failure "Invalid OTP" (Some 2))
  /\ exists r',
       otps (verifyOTP (Ex.requestNumber 1%nat "123456" None) 2000 Ex.db1).1
         !! 0%nat = Some r'
       /\ rewritten Ex.fresh r' 1 false.
Proof.
  destruct (verify_found_valid (Ex.request 1%nat "123456" None) 2000 Ex.db1)
    as (_ & H).
  destruct (H 0%nat Ex.fresh) as (_ & H1 & _);
    [reflexivity|vm_compute; reflexivity|vm_compute; reflexivity|].
  destruct (H1 "123456" eq_refl) as (_ & H2 & H3 & _).
  destruct (verify_found_valid (Ex.requestNumber 1%nat "123456" None) 2000
              Ex.db1) as (_ & H').
  destruct (H' 0%nat Ex.fresh) as (_ & _ & H4);
    [reflexivity|vm_compute; reflexivity|vm_compute; reflexivity|].
  destruct (H4 eq_refl) as (H5 & H6).
  split; [exact H2|]. split; [apply (H3 Ex.asha); vm_compute; reflexivity|].
  split; [exact H5|exact H6].
Defined.

(** C7.  When the document verifyOTP finds is not valid any more, it is
    written back with [isUsed = true] and nothing else changed, no other
    document changes, and the answer is "OTP has expired or exceeded
    maximum attempts". *)
Theorem verify_found_invalid (req : Request) (now : Date) (db : DB)
  (i : nat) (r : Otp.t) :
  errors req = [] ->
  Otp.findLatest (unusedWithCode (body_clientId req) (body_otp req)) (otps db)
  = Some (i, r) ->
  Otp.isValid r now = false ->
  (verifyOTP req now db).2
  = mkResponse 400
      (Failure "OTP has expired or exceeded maximum attempts" None)
  /\ (exists r',
        otps (verifyOTP req now db).1 !! i = Some r'
        /\ Otp.isUsed r' = true
        /\ rewritten r r' (Otp.attempts r) true)
  /\ (forall j, j <> i ->
        otps (verifyOTP req now db).1 !! j = otps db !! j)
  /\ length (otps (verifyOTP req now db).1) = length (otps db)
  /\ clients (verifyOTP req now db).1 = clients db
  /\ notifications (verifyOTP req now db).1 = notifications db.
Proof.
  intros He Hf Hv. rewrite (verifyOTP_expired _ _ _ _ _ He Hf Hv). simpl.
  destruct (findLatest_sound _ _ _ _ Hf) as (Hi & _ & _).
  split; [done|]. split; [|split; [|split; [|done]]].
  - exists (Otp.set_isUsed true r). split; [by eapply save_lookup_eq|].
    split; [done|apply rewritten_set_isUsed].
  - intros j Hj. by apply save_lookup_ne.
  - unfold Otp.save. apply length_insert.
Qed.

(** The code of client 1 is submitted after its five minutes. *)
Lemma verify_found_invalid_witness :
  (verifyOTP (Ex.request 1%nat "123456" None) 400000 Ex.db1).2
  = mkResponse 400
      (Failure "OTP has expired or exceeded maximum attempts" None)
  /\ exists r',
       otps (verifyOTP (Ex.request 1%nat "123456" None) 400000 Ex.db1).1
         !! 0%nat = Some r'
       /\ Otp.isUsed r' = true
       /\ rewritten Ex.fresh r' 0 true.
Proof.
  destruct (verify_found_invalid (Ex.request 1%nat "123456" None) 400000
              Ex.db1 0%nat Ex.fresh) as (H1 & H2 & _);
    [reflexivity|vm_compute; reflexivity|vm_compute; reflexivity|].
  split; [exact H1|exact H2].
Defined.

(** ** Used is terminal *)

Lemma step_used op db i r :
  otps db !! i = Some r -> Otp.isUsed r = true ->
  exists r', otps (step op db).1 !! i = Some r' /\ Otp.isUsed r' = true.
Proof. apply (evolves_used (timeOf op)), step_evolves. Qed.

Lemma run_used ops db i r :
  otps db !! i = Some r -> Otp.isUsed r = true ->
  exists r', otps (run ops db) !! i = Some r' /\ Otp.isUsed r' = true.
Proof.
  revert db r. induction ops as [|op ops IH]; intros db r Hi Hr; [eauto|].
  simpl. destruct (step_used op db i r Hi Hr) as (r1 & Hi1 & Hr1). eauto.
Qed.

Lemma verifyOTP_success req now db :
  success (body (verifyOTP req now db).2) = true ->
  errors req = [] /\ isStr (body_otp req) = true
  /\ exists i r,
       Otp.findLatest (unusedWithCode (body_clientId req) (body_otp req))
         (otps db) = Some (i, r)
       /\ Otp.isValid r now = true.
Proof.
  intros H.
  destruct (verifyOTP_cases req now db)
    as [(_ & E)|[(_ & _ & E)|[(_ & _ & _ & E)|(i & r & He & Hf & E)]]];
    try (by rewrite E in H).
  destruct E as [(_ & E)|[(Hv & Hs & _)|(_ & _ & E)]];
    try (by rewrite E in H).
  eauto 6.
Qed.

Lemma unusedOf_writtenBack c otp now r :
  unusedOf c (writtenBack otp now r) = true -> unusedOf c r = true.
Proof.
  unfold writtenBack.
  destruct (Otp.isValid r now); [destruct (isStr otp)|]; try done;
    unfold unusedOf; simpl; by rewrite andb_false_r.
Qed.

Lemma nonissuing_activeCount op db c :
  issues op = false ->
  (activeCount c (otps (step op db).1) <= activeCount c (otps db))%nat.
Proof.
  destruct op as [| req now | |req now]; try discriminate; intros _; simpl.
  - rewrite verifyOTP_otps. destruct (errors req); [|done].
    destruct (Otp.findLatest _ _) as [[i r]|] eqn:Hf; [|done].
    destruct (findLatest_sound _ _ _ _ Hf) as (Hi & _ & _).
    pose proof (activeCount_save c _ _ _ (writtenBack (body_otp req) now r) Hi)
      as E.
    pose proof (unusedOf_writtenBack c (body_otp req) now r) as Hw.
    destruct (unusedOf c (writtenBack (body_otp req) now r)); [|lia].
    rewrite Hw in E by done. lia.
  - by rewrite getOTPStatus_eq.
Qed.

Lemma run_nonissuing_activeCount ops db c :
  forallb (fun op => negb (issues op)) ops = true ->
  (activeCount c (otps (run ops db)) <= activeCount c (otps db))%nat.
Proof.
  revert db. induction ops as [|op ops IH]; intros db H; [done|].
  simpl in *. apply andb_true_iff in H as [Hop H].
  apply negb_true_iff in Hop.
  etransitivity; [by apply IH|]. by apply nonissuing_activeCount.
Qed.

Lemma verifyOTP_no_active req now db :
  activeCount (body_clientId req) (otps db) = 0%nat ->
  success (body (verifyOTP req now db).2) = false
  /\ (errors req = [] -> body_otp req <> Refused ->
      verifyOTP req now db = (db, invalidOtp)).
Proof.
  intros H0.
  assert (Otp.findLatest (unusedWithCode (body_clientId req) (body_otp req))
            (otps db) = None) as Hn.
  { apply findLatest_None. intros r Hr.
    destruct (unusedWithCode _ _ r) eqn:E; [|done].
    apply unusedWithCode_true in E as (Hc & _ & Hu).
    rewrite activeCount_zero in H0. specialize (H0 r Hr).
    assert (unusedOf (body_clientId req) r = true) by (by apply unusedOf_true).
    congruence. }
  split.
  - destruct (verifyOTP_cases req now db)
      as [(_ & ->)|[(_ & _ & ->)|[(_ & _ & _ & ->)|(i & r & _ & Hf & _)]]];
      try done. congruence.
  - intros He Ho. by apply verifyOTP_not_found.
Qed.

(** C5.  A used document stays used through every request and is never
    again the document verifyOTP finds.  After a successful verification
    (in a database where the client had at most one unused document)
    every later verification for that client, after any sequence of
    verifications and status queries, is refused; with the same code the
    answer is "Invalid OTP". *)
Theorem used_is_terminal :
  (forall ops db i r,
     otps db !! i = Some r -> Otp.isUsed r = true ->
     (exists r', otps (run ops db) !! i = Some r' /\ Otp.isUsed r' = true)
     /\ forall c code r',
          Otp.findLatest (unusedWithCode c code) (otps (run ops db))
          <> Some (i, r'))
  /\ forall req now db,
       singleActive db ->
       success (body (verifyOTP req now db).2) = true ->
       forall ops req' now',
         forallb (fun op => negb (issues op)) ops = true ->
         body_clientId req' = body_clientId req ->
         let db' := run ops (verifyOTP req now db).1 in
         success (body (verifyOTP req' now' db').2) = false
         /\ verifyOTP req now' db' = (db', invalidOtp).
Proof.
  split.
  - intros ops db i r Hi Hr.
    destruct (run_used ops db i r Hi Hr) as (r1 & Hi1 & Hr1).
    split; [eauto|]. intros c code r' Hf.
    destruct (findLatest_sound _ _ _ _ Hf) as (Hi' & Hq & _).
    apply unusedWithCode_true in Hq as (_ & _ & Hu). congruence.
  - intros req now db Hinv Hs ops req' now' Hops Hc db'.
    destruct (verifyOTP_success _ _ _ Hs) as (He & Hstr & i & r & Hf & Hv).
    assert (activeCount (body_clientId req) (otps db') = 0%nat) as H0.
    { pose proof (run_nonissuing_activeCount ops (verifyOTP req now db).1
                    (body_clientId req) Hops) as Hle.
      fold db' in Hle. rewrite verifyOTP_otps, He, Hf in Hle.
      unfold writtenBack in Hle. rewrite Hv, Hstr in Hle.
      destruct (findLatest_sound _ _ _ _ Hf) as (Hi & Hq & _).
      apply unusedWithCode_true in Hq as (Hcl & _ & Hu).
      pose proof (activeCount_save (body_clientId req) _ _ _ (consumed r) Hi)
        as E.
      assert (unusedOf (body_clientId req) r = true) as E1
        by (by apply unusedOf_true).
      assert (unusedOf (body_clientId req) (consumed r) = false) as E2
        by apply andb_false_r.
      rewrite E1, E2 in E. specialize (Hinv (body_clientId req)). lia. }
    split.
    + apply verifyOTP_no_active. by rewrite Hc.
    + apply verifyOTP_no_active; [done..|]. intros Hr. by rewrite Hr in Hstr.
Qed.

(** The code of client 1 is verified, its status is read, and the same
    code is submitted again. *)
Lemma used_is_terminal_witness :
  (exists r',
     otps (run [Send (Ex.request 1%nat "" None) 9000 "123456"]
             (verifyOTP (Ex.request 1%nat "123456" None) 2000 Ex.db1).1)
       !! 0%nat = Some r'
     /\ Otp.isUsed r' = true)
  /\ verifyOTP (Ex.request 1%nat "123456" None) 4000
       (run [Status (Ex.request 1%nat "" None) 3000]
          (verifyOTP (Ex.request 1%nat "123456" None) 2000 Ex.db1).1)
     = (run [Status (Ex.request 1%nat "" None) 3000]
          (verifyOTP (Ex.request 1%nat "123456" None) 2000 Ex.db1).1,
        invalidOtp).
Proof.
  destruct used_is_terminal as (H1 & H2). split.
  - apply (H1 _ _ 0%nat (consumed Ex.fresh)); vm_compute; reflexivity.
  - refine (proj2 (H2 (Ex.request 1%nat "123456" None) 2000 Ex.db1 _ _
                     [Status (Ex.request 1%nat "" None) 3000]
                     (Ex.request 1%nat "123456" None) 4000 _ _)).
    + intros [|[|c]]; vm_compute; lia.
    + vm_compute. reflexivity.
    + vm_compute. reflexivity.
    + reflexivity.
Defined.

(** ** Only the newest document of a client can be unused *)

Lemma anyOf_true c r : anyOf c r = true <-> Otp.client r = c.
Proof. unfold anyOf. apply Nat.eqb_eq. Qed.


Lemma onlyNewestActive_single l c :
  onlyNewestActive l -> (activeCount c l <= 1)%nat.
Proof.
  intros H.
  assert (forall i j x y, l !! i = Some x -> l !! j = Some y ->
            unusedOf c x = true -> unusedOf c y = true -> i = j) as Huniq.
  { intros i j x y Hi Hj Hx Hy.
    apply unusedOf_true in Hx as (Hcx & Hux).
    apply unusedOf_true in Hy as (Hcy & Huy).
    pose proof (H i x Hi Hux) as Fx. pose proof (H j y Hj Huy) as Fy.
    rewrite Hcx in Fx. rewrite Hcy in Fy. congruence. }
  clear H. induction l as [|a l IH]; [unfold activeCount; simpl; lia|].
  rewrite activeCount_cons.
  assert (activeCount c l <= 1)%nat as Hl.
  { apply IH. intros i j x y Hi Hj Hx Hy.
    assert (S i = S j) by (eapply Huniq; eauto). lia. }
  destruct (unusedOf c a) eqn:Ea; [|lia].
  assert (activeCount c l = 0%nat); [|lia].
  apply activeCount_zero. intros r Hr.
  destruct (unusedOf c r) eqn:Er; [|done].
  apply list_elem_of_lookup in Hr as [j Hj].
  assert (0%nat = S j) by (eapply (Huniq 0%nat (S j) a r); eauto). lia.
Qed.

Lemma issued_onlyNewestActive c g p now l :
  onlyNewestActive l -> notAfter now l ->
  onlyNewestActive (issued c g p now l).
Proof.
  intros H Ht i e Hi Hu.
  assert (forall j x', issued c g p now l !! j = Some x' ->
            (j = length l /\ x' = Otp.new c g p now)
            \/ exists x, l !! j = Some x /\ Otp.createdAt x' = Otp.createdAt x
                 /\ Otp.client x' = Otp.client x
                 /\ (Otp.isUsed x' = false -> x' = x /\ Otp.client x <> c))
    as Hshape.
  { intros j x' Hj. destruct (l !! j) as [x|] eqn:Hl.
    - right. exists x. rewrite (issued_lookup_old _ _ _ _ _ _ _ Hl) in Hj.
      injection Hj as <-. destruct (unusedOf c x) eqn:Ex; simpl.
      + split; [done|]. split; [done|]. split; [done|]. discriminate.
      + split; [done|]. split; [done|]. split; [done|].
        intros Hx. split; [done|]. intros Hc.
        assert (unusedOf c x = true) by (by apply unusedOf_true). congruence.
    - left. apply lookup_ge_None in Hl.
      pose proof (lookup_lt_Some _ _ _ Hj) as Hlt.
      rewrite issued_length in Hlt. assert (j = length l) as -> by lia.
      rewrite issued_lookup_new in Hj. by injection Hj as <-. }
  apply findLatest_complete; [done|by apply anyOf_true|].
  intros j r' Hj Hq. apply anyOf_true in Hq.
  destruct (Hshape i e Hi) as [[-> ->]|(x & Hx & Hcx & Hclx & Hsame)].
  - destruct (Hshape j r' Hj) as [[-> ->]|(y & Hy & Hcy & _)].
    + right. split; [done|lia].
    + unfold newerThan. simpl. rewrite Hcy.
      assert (Otp.createdAt y <= now)
        by (apply Ht, list_elem_of_lookup; eauto).
      pose proof (lookup_lt_Some _ _ _ Hy).
      destruct (Z.eq_dec (Otp.createdAt y) now); [right|left]; lia.
  - destruct (Hsame Hu) as [-> Hne].
    destruct (Hshape j r' Hj) as [[-> ->]|(y & Hy & Hcy & Hcly & _)].
    + simpl in Hq. congruence.
    + destruct (findLatest_sound _ _ _ _ (H i x Hx Hu)) as (_ & _ & Hmax).
      unfold newerThan. rewrite Hcy. apply Hmax; [done|].
      apply anyOf_true. congruence.
Qed.

Lemma save_onlyNewestActive l j x x' :
  onlyNewestActive l ->
  l !! j = Some x -> Otp.isUsed x = false ->
  Otp.client x' = Otp.client x -> Otp.createdAt x' = Otp.createdAt x ->
  onlyNewestActive (Otp.save j x' l).
Proof.
  intros H Hj Hx Hc Ht i e Hi Hu. unfold Otp.save in *.
  pose proof (lookup_lt_Some _ _ _ Hj) as Hlt.
  destruct (decide (i = j)) as [->|Hne].
  - rewrite list_lookup_insert_eq in Hi by done. injection Hi as <-.
    destruct (findLatest_sound _ _ _ _ (H j x Hj Hx)) as (_ & _ & Hmax).
    apply findLatest_complete.
    + by rewrite list_lookup_insert_eq.
    + by apply anyOf_true.
    + intros k r' Hk Hq. destruct (decide (k = j)) as [->|Hkj].
      * rewrite list_lookup_insert_eq in Hk by done. injection Hk as <-.
        right. split; [done|lia].
      * rewrite list_lookup_insert_ne in Hk by done.
        unfold newerThan. rewrite Ht. apply (Hmax k r' Hk).
        apply anyOf_true. apply anyOf_true in Hq. congruence.
  - rewrite list_lookup_insert_ne in Hi by done.
    destruct (findLatest_sound _ _ _ _ (H i e Hi Hu)) as (_ & _ & Hmax).
    apply findLatest_complete.
    + by rewrite list_lookup_insert_ne.
    + by apply anyOf_true.
    + intros k r' Hk Hq. destruct (decide (k = j)) as [->|Hkj].
      * rewrite list_lookup_insert_eq in Hk by done. injection Hk as <-.
        unfold newerThan. rewrite Ht. apply Hmax; [done|].
        apply anyOf_true. apply anyOf_true in Hq. congruence.
      * rewrite list_lookup_insert_ne in Hk by done. by apply Hmax.
Qed.

Lemma issued_notAfter c g p now t l :
  notAfter now l -> now <= t -> notAfter t (issued c g p now l).
Proof.
  intros H Hle r Hr. apply list_elem_of_lookup in Hr as [j Hj].
  destruct (l !! j) as [x|] eqn:Hl.
  - rewrite (issued_lookup_old _ _ _ _ _ _ _ Hl) in Hj. injection Hj as <-.
    assert (Otp.createdAt x <= now) by (apply H, list_elem_of_lookup; eauto).
    destruct (unusedOf c x); simpl; lia.
  - apply lookup_ge_None in Hl. pose proof (lookup_lt_Some _ _ _ Hj) as Hlt.
    rewrite issued_length in Hlt. assert (j = length l) as -> by lia.
    rewrite issued_lookup_new in Hj. injection Hj as <-. simpl. lia.
Qed.

Lemma save_notAfter l j x x' t :
  notAfter t l -> l !! j = Some x -> Otp.createdAt x' = Otp.createdAt x ->
  notAfter t (Otp.save j x' l).
Proof.
  intros H Hj Ht r Hr. apply list_elem_of_lookup in Hr as [k Hk].
  unfold Otp.save in Hk. pose proof (lookup_lt_Some _ _ _ Hj) as Hlt.
  destruct (decide (k = j)) as [->|Hkj].
  - rewrite list_lookup_insert_eq in Hk by done. injection Hk as <-.
    rewrite Ht. apply H, list_elem_of_lookup. eauto.
  - rewrite list_lookup_insert_ne in Hk by done.
    apply H, list_elem_of_lookup. eauto.
Qed.

Lemma evolves_onlyNewestActive t l l' :
  evolves t l l' -> onlyNewestActive l -> notAfter t l ->
  onlyNewestActive l' /\ forall t', t <= t' -> notAfter t' l'.
Proof.
  intros [|c g p|j x x' Hj Hx Hc Ht] H Hn.
  - split; [done|]. intros t' Hle r Hr. specialize (Hn r Hr). lia.
  - split; [by apply issued_onlyNewestActive|].
    intros t' Hle. by apply issued_notAfter.
  - split; [by eapply save_onlyNewestActive|].
    intros t' Hle. eapply save_notAfter; [|done..].
    intros r Hr. specialize (Hn r Hr). lia.
Qed.

(** The invariant holds after any sequence of requests made in the order
    of their times, from a database without codes. *)
Lemma run_onlyNewestActive ops t db :
  onlyNewestActive (otps db) -> notAfter t (otps db) ->
  chronological t ops ->
  onlyNewestActive (otps (run ops db)).
Proof.
  revert t db. induction ops as [|op ops IH]; intros t db H Hn Hc; [done|].
  simpl in *. destruct Hc as [Hle Hc].
  destruct (evolves_onlyNewestActive (timeOf op) _ _ (step_evolves op db) H)
    as [H' Hn'].
  { intros r Hr. specialize (Hn r Hr). lia. }
  eapply (IH (timeOf op)); [done| |done]. apply Hn'. lia.
Qed.

Lemma empty_onlyNewestActive : onlyNewestActive [].
Proof. intros i e Hi. by rewrite lookup_nil in Hi. Qed.

(** Both invariants hold in every database reached from one without
    codes by requests made in the order of their times. *)
Lemma reachable_invariants ops t cls ns :
  chronological t ops ->
  singleActive (run ops (mkDB cls [] ns))
  /\ onlyNewestActive (otps (run ops (mkDB cls [] ns))).
Proof.
  intros Hc. split.
  - apply run_singleActive, empty_singleActive.
  - apply (run_onlyNewestActive ops t); [apply empty_onlyNewestActive| |done].
    intros r Hr. simpl in Hr. inversion Hr.
Qed.

(** ** Resending *)

Lemma Math_ceil_div_spec a b :
  0 < b ->
  b * (Math_ceil_div a b - 1) < a <= b * Math_ceil_div a b.
Proof.
  intros Hb. unfold Math_ceil_div.
  pose proof (Z.div_mod (- a) b ltac:(lia)).
  pose proof (Z.mod_pos_bound (- a) b Hb). nia.
Qed.








Lemma clientWithPhone_Some req db cl p :
  clientWithPhone req db = Some (cl, p) ->
  clients db !! body_clientId req = Some cl
  /\ Client.phone cl = Some p /\ Notification.nonempty p = true.
Proof.
  unfold clientWithPhone.
  destruct (clients db !! body_clientId req) as [cl'|]; [|discriminate].
  destruct (Client.phone cl') as [[|a s]|] eqn:E; try discriminate.
  intros [= -> <-]. by rewrite E.
Qed.





(** ** The status query *)

(** C8.  getOTPStatus writes nothing.  For a client without any document
    the answer is the success [hasActiveOTP: false]; otherwise it reports,
    of the client's most recent document, whether it is valid, its used
    flag, its attempts and [max(0, floor((expiresAt - now) / 1s))]. *)
Theorem status_is_read_only (req : Request) (now : Date) (db : DB) :
  (getOTPStatus req now db).1 = db
  /\ ((forall r, r ∈ otps db -> Otp.client r <> params_clientId req) ->
      (getOTPStatus req now db).2 = mkResponse 200 NoOtpFound
      /\ hasActiveOTP (body (getOTPStatus req now db).2) = Some false
      /\ success (body (getOTPStatus req now db).2) = true)
  /\ (forall r0,
        r0 ∈ otps db -> Otp.client r0 = params_clientId req ->
        exists i r t,
          otps db !! i = Some r
          /\ Otp.client r = params_clientId req
          /\ Otp.createdAt r0 <= Otp.createdAt r
          /\ 1000 * t <= Otp.expiresAt r - now < 1000 * (t + 1)
          /\ (getOTPStatus req now db).2
             = mkResponse 200
                 (OtpStatus (Otp.isValid r now) (Otp.isUsed r)
                    (Otp.attempts r) (Z.max 0 t) (Otp.expiresAt r))).
Proof.
  rewrite getOTPStatus_eq. simpl. split; [done|]. split.
  - intros H.
    assert (Otp.findLatest (anyOf (params_clientId req)) (otps db) = None)
      as ->; [|done].
    apply findLatest_None. intros r Hr.
    destruct (anyOf _ r) eqn:E; [|done].
    apply anyOf_true in E. by destruct (H r Hr).
  - intros r0 Hr0 Hc0.
    destruct (Otp.findLatest (anyOf (params_clientId req)) (otps db))
      as [[i r]|] eqn:Hf.
    + destruct (findLatest_sound _ _ _ _ Hf) as (Hi & Hq & Hmax).
      apply anyOf_true in Hq. apply list_elem_of_lookup in Hr0 as [j Hj].
      exists i, r, ((Otp.expiresAt r - now) / 1000).
      split; [done|]. split; [done|]. split.
      { destruct (Hmax j r0 Hj) as [?|[? _]]; [by apply anyOf_true|lia..]. }
      split; [|done].
      pose proof (Z.div_mod (Otp.expiresAt r - now) 1000 ltac:(lia)).
      pose proof (Z.mod_pos_bound (Otp.expiresAt r - now) 1000 ltac:(lia)).
      lia.
    + assert (anyOf (params_clientId req) r0 = false)
        by (by eapply findLatest_None).
      assert (anyOf (params_clientId req) r0 = true) by (by apply anyOf_true).
      congruence.
Qed.

(** Client 2 never had a code; client 1 has one, read 10.5 seconds after
    it was issued. *)
Lemma status_is_read_only_witness :
  (getOTPStatus (Ex.request 2%nat "" None) 11500 Ex.db1).2
  = mkResponse 200 NoOtpFound
  /\ exists i r t,
       otps Ex.db1 !! i = Some r
       /\ Otp.client r = 1%nat
       /\ Otp.createdAt Ex.fresh <= Otp.createdAt r
       /\ 1000 * t <= Otp.expiresAt r - 11500 < 1000 * (t + 1)
       /\ (getOTPStatus (Ex.request 1%nat "" None) 11500 Ex.db1).2
          = mkResponse 200
              (OtpStatus (Otp.isValid r 11500) (Otp.isUsed r)
                 (Otp.attempts r) (Z.max 0 t) (Otp.expiresAt r)).
Proof.
  split.
  - apply (status_is_read_only (Ex.request 2%nat "" None) 11500 Ex.db1).
    intros r Hr. apply list_elem_of_In in Hr as [<-|[]]. discriminate.
  - apply (proj2 (proj2 (status_is_read_only (Ex.request 1%nat "" None) 11500
                           Ex.db1)) Ex.fresh).
    + apply list_elem_of_In. left. reflexivity.
    + reflexivity.
Defined.

(** ** The audit trail *)

Lemma issueOutcome_audit ty verb msg req now g cl p db u :
  user req = Some u ->
  status (issueOutcome ty verb msg req now g cl p db).2 = 200 ->
  notifications (issueOutcome ty verb msg req now g cl p db).1
  = (notifications db
     ++ [audit ty verb u (body_clientId req) cl p (length (otps db))
           now])%list.
Proof.
  unfold issueOutcome. intros -> H.
  destruct (Notification.validate _); [done|discriminate].
Qed.

Lemma issueOutcome_silent ty verb msg req now g cl p db :
  user req = None ->
  notifications (issueOutcome ty verb msg req now g cl p db).1
  = notifications db.
Proof. unfold issueOutcome. by intros ->. Qed.

(** C9, as stated, fails for a request without [req.user]: the code is
    issued, by sendOTP and by resendOTP, and no audit document is
    written. *)
Lemma issue_without_user_is_not_audited :
  let req := Ex.request 1%nat "" None in
  status (sendOTP req 1000 "123456" Ex.db0).2 = 200
  /\ otps (sendOTP req 1000 "123456" Ex.db0).1 = [Ex.fresh]
  /\ notifications (sendOTP req 1000 "123456" Ex.db0).1 = []
  /\ status (resendOTP req 1000 "123456" Ex.db0).2 = 200
  /\ otps (resendOTP req 1000 "123456" Ex.db0).1 = [Ex.fresh]
  /\ notifications (resendOTP req 1000 "123456" Ex.db0).1 = [].
Proof. vm_compute. repeat split. Qed.

(** C9, amended.  A sendOTP or resendOTP that succeeds for a request
    carrying [req.user] appends one audit document: its type is the
    action, its salesman the user, its client the client of the request,
    and it is linked to the new OTP document.  Without [req.user] nothing
    is appended. *)
Theorem issue_is_audited (req : Request) (now : Date) (g : string) (db : DB) :
  (forall u,
     user req = Some u ->
     (status (sendOTP req now g db).2 = 200 ->
      exists n r,
        notifications (sendOTP req now g db).1
        = (notifications db ++ [n])%list
        /\ records Notification.otp_sent u (body_clientId req)
             (length (otps db)) n
        /\ otps (sendOTP req now g db).1 !! length (otps db) = Some r
        /\ Otp.client r = body_clientId req /\ Otp.otp r = g)
     /\ (status (resendOTP req now g db).2 = 200 ->
         exists n r,
           notifications (resendOTP req now g db).1
           = (notifications db ++ [n])%list
           /\ records Notification.otp_resent u (body_clientId req)
                (length (otps db)) n
           /\ otps (resendOTP req now g db).1 !! length (otps db) = Some r
           /\ Otp.client r = body_clientId req /\ Otp.otp r = g))
  /\ (user req = None ->
      notifications (sendOTP req now g db).1 = notifications db
      /\ notifications (resendOTP req now g db).1 = notifications db).
Proof.
  split.
  - intros u Hu. split; intros H.
    + destruct (sendOTP_200 _ _ _ _ H) as (cl & p & He & Hc).
      rewrite (sendOTP_proceeds _ _ _ _ _ _ He Hc) in *.
      eexists _, (Otp.new (body_clientId req) g p now).
      split; [by apply issueOutcome_audit|]. split; [done|].
      by rewrite issueOutcome_otps, issued_lookup_new.
    + destruct (resendOTP_200 _ _ _ _ H) as (cl & p & He & Hc & Hw).
      rewrite (resendOTP_proceeds _ _ _ _ _ _ He Hc Hw) in *.
      eexists _, (Otp.new (body_clientId req) g p now).
      split; [by apply issueOutcome_audit|]. split; [done|].
      by rewrite issueOutcome_otps, issued_lookup_new.
  - intros Hu. split.
    + destruct (errors req) as [|e es] eqn:He.
      * destruct (clientWithPhone req db) as [[cl p]|] eqn:Hc.
        -- rewrite (sendOTP_proceeds _ _ _ _ _ _ He Hc).
           by apply issueOutcome_silent.
        -- by destruct (sendOTP_rejects req now g db) as (resp & -> & _);
             [auto|].
      * by destruct (sendOTP_rejects req now g db) as (resp & -> & _);
          [left; by rewrite He|].
    + destruct (errors req) as [|e es] eqn:He.
      * destruct (clientWithPhone req db) as [[cl p]|] eqn:Hc.
        -- destruct (cooldown (body_clientId req) now (otps db)) as [w|] eqn:Hw.
           ++ by rewrite (resendOTP_throttled _ _ _ _ _ _ _ He Hc Hw).
           ++ rewrite (resendOTP_proceeds _ _ _ _ _ _ He Hc Hw).
              by apply issueOutcome_silent.
        -- by destruct (resendOTP_rejects req now g db) as (resp & -> & _);
             [auto|].
      * by destruct (resendOTP_rejects req now g db) as (resp & -> & _);
          [left; by rewrite He|].
Qed.

(** Ravi issues a code to client 1, and resends one 39 seconds later;
    an anonymous request leaves the trail as it is. *)
Lemma issue_is_audited_witness :
  (exists n r,
     notifications
       (sendOTP (Ex.request 1%nat "" (Some Ex.ravi)) 1000 "123456" Ex.db0).1
     = (notifications Ex.db0 ++ [n])%list
     /\ records Notification.otp_sent Ex.ravi 1%nat 0%nat n
     /\ otps (sendOTP (Ex.request 1%nat "" (Some Ex.ravi)) 1000 "123456"
                Ex.db0).1 !! 0%nat = Some r
     /\ Otp.client r = 1%nat /\ Otp.otp r = "123456")
  /\ (exists n r,
        notifications
          (resendOTP (Ex.request 1%nat "" (Some Ex.ravi)) 40000 "654321"
             Ex.db1).1
        = (notifications Ex.db1 ++ [n])%list
        /\ records Notification.otp_resent Ex.ravi 1%nat 1%nat n
        /\ otps (resendOTP (Ex.request 1%nat "" (Some Ex.ravi)) 40000
                   "654321" Ex.db1).1 !! 1%nat = Some r
        /\ Otp.client r = 1%nat /\ Otp.otp r = "654321")
  /\ notifications (sendOTP (Ex.request 1%nat "" None) 1000 "123456" Ex.db0).1
     = notifications Ex.db0.
Proof.
  split; [|split].
  - apply (proj1 (proj1 (issue_is_audited
                           (Ex.request 1%nat "" (Some Ex.ravi)) 1000 "123456"
                           Ex.db0) Ex.ravi eq_refl)).
    vm_compute. reflexivity.
  - apply (proj2 (proj1 (issue_is_audited
                           (Ex.request 1%nat "" (Some Ex.ravi)) 40000 "654321"
                           Ex.db1) Ex.ravi eq_refl)).
    vm_compute. reflexivity.
  - apply (proj2 (issue_is_audited (Ex.request 1%nat "" None) 1000 "123456"
                    Ex.db0) eq_refl).
Defined.

(** ** Phone numbers *)

Section FormatPhoneNumber.

Import WhatsAppService.

Lemma isDigit_spec (c : ascii) :
  isDigit c = true <-> In c (list_ascii_of_string "0123456789").
Proof.
  split.
  - destruct c as [[] [] [] [] [] [] [] []]; vm_compute; intros H;
      try discriminate; tauto.
  - intros H. simpl in H.
    repeat (destruct H as [<-|H]; [reflexivity|]). destruct H.
Qed.

(** The cleaned string is the digits of the input, in their order. *)
Lemma replaceNonDigits_filter (s : string) :
  list_ascii_of_string (replaceNonDigits s)
  = List.filter isDigit (list_ascii_of_string s).
Proof.
  induction s as [|c s IH]; [done|]. simpl.
  destruct (isDigit c); simpl; by rewrite IH.
Qed.

Lemma replaceNonDigits_digits (s : string) :
  replaceNonDigits s = s
  <-> Forall (fun c => isDigit c = true) (list_ascii_of_string s).
Proof.
  induction s as [|c s IH]; simpl.
  - split; [constructor|done].
  - destruct (isDigit c) eqn:E.
    + split.
      * intros [= H]. constructor; [done|]. by apply IH.
      * intros H. inversion H; subst. f_equal. by apply IH.
    + split.
      * intros H. exfalso.
        assert (Hlen : (String.length (replaceNonDigits s)
                        <= String.length s)%nat).
        { clear. induction s as [|a s IH]; simpl; [lia|].
          destruct (isDigit a); simpl; lia. }
        rewrite H in Hlen. simpl in Hlen. lia.
      * intros H. inversion H; subst. congruence.
Qed.

End FormatPhoneNumber.

(** C10.  formatPhoneNumber keeps the digits of its input, in their
    order, and drops every other character; a cleaned string of exactly
    10 digits gets the prefix 91, any other is returned as it is; and
    9876543210 becomes 919876543210. *)
Theorem formatPhoneNumber_spec (phone : string) :
  let clean := WhatsAppService.replaceNonDigits phone in
  list_ascii_of_string clean
  = List.filter WhatsAppService.isDigit (list_ascii_of_string phone)
  /\ Forall (fun c => In c (list_ascii_of_string "0123456789"))
       (list_ascii_of_string clean)
  /\ (String.length clean = 10%nat ->
      WhatsAppService.formatPhoneNumber phone = "91" +:+ clean)
  /\ (String.length clean <> 10%nat ->
      WhatsAppService.formatPhoneNumber phone = clean)
  /\ WhatsAppService.formatPhoneNumber "9876543210" = "919876543210".
Proof.
  intros clean. split; [apply replaceNonDigits_filter|]. split.
  - unfold clean. rewrite replaceNonDigits_filter.
    apply List.Forall_forall. intros c Hc.
    apply List.filter_In in Hc as [_ Hc]. by apply isDigit_spec.
  - unfold WhatsAppService.formatPhoneNumber. fold clean.
    split; [|split; [|reflexivity]].
    + intros ->. reflexivity.
    + intros H. by destruct (Nat.eqb_spec (String.length clean) 10).
Qed.

(** A number written with spaces and a dash, and one that already has
    its country code. *)
Lemma formatPhoneNumber_spec_witness :
  WhatsAppService.formatPhoneNumber "98765 43-210" = "919876543210"
  /\ WhatsAppService.formatPhoneNumber "+91 98765 43210" = "919876543210".
Proof.
  split.
  - destruct (formatPhoneNumber_spec "98765 43-210") as (_ & _ & H & _).
    apply H. reflexivity.
  - destruct (formatPhoneNumber_spec "+91 98765 43210") as (_ & _ & _ & H & _).
    apply H. vm_compute. discriminate.
Defined.

(** * Further properties of the OTP controller *)

(** ** Documents through the requests *)

Lemma step_transition op db :
  transition (negb (stringCoded op)) (clientOf op) (timeOf op) (otps db)
    (otps (step op db).1).
Proof.
  destruct op as [req now g|req now|req now g|req now]; simpl.
  - destruct (errors req) as [|e es] eqn:He.
    + destruct (clientWithPhone req db) as [[cl p]|] eqn:Hc.
      * rewrite (sendOTP_proceeds _ _ _ _ _ _ He Hc), issueOutcome_otps.
        constructor.
      * destruct (sendOTP_rejects req now g db) as (resp & -> & _); [auto|].
        constructor.
    + destruct (sendOTP_rejects req now g db) as (resp & -> & _).
      * left. by rewrite He.
      * constructor.
  - rewrite verifyOTP_otps. destruct (errors req); [|constructor].
    destruct (Otp.findLatest _ _) as [[i r]|] eqn:Hf; [|constructor].
    destruct (findLatest_sound _ _ _ _ Hf) as (Hi & Hq & _).
    apply unusedWithCode_true in Hq as (Hc & _ & Hu).
    unfold writtenBack. destruct (Otp.isValid r now) eqn:Hv.
    + destruct (isStr (body_otp req)); [by apply tr_consume|by apply tr_count].
    + by apply tr_expire.
  - destruct (errors req) as [|e es] eqn:He.
    + destruct (clientWithPhone req db) as [[cl p]|] eqn:Hc.
      * destruct (cooldown (body_clientId req) now (otps db)) as [w|] eqn:Hw.
        -- rewrite (resendOTP_throttled _ _ _ _ _ _ _ He Hc Hw). constructor.
        -- rewrite (resendOTP_proceeds _ _ _ _ _ _ He Hc Hw),
             issueOutcome_otps. constructor.
      * destruct (resendOTP_rejects req now g db) as (resp & -> & _); [auto|].
        constructor.
    + destruct (resendOTP_rejects req now g db) as (resp & -> & _).
      * left. by rewrite He.
      * constructor.
  - rewrite getOTPStatus_eq. constructor.
Qed.

Lemma laterOf_refl r : laterOf r r.
Proof. unfold laterOf. repeat split; try done; lia. Qed.

Lemma laterOf_trans r1 r2 r3 : laterOf r1 r2 -> laterOf r2 r3 -> laterOf r1 r3.
Proof.
  unfold laterOf. intros (A1 & A2 & A3 & A4 & A5 & A6 & A7)
    (B1 & B2 & B3 & B4 & B5 & B6 & B7).
  repeat split; try congruence; [lia|auto].
Qed.

Lemma laterOf_set_isUsed r : laterOf r (Otp.set_isUsed true r).
Proof. unfold laterOf. simpl. repeat split; try done; lia. Qed.

Lemma laterOf_consumed r : laterOf r (consumed r).
Proof. unfold laterOf, consumed. simpl. repeat split; try done; lia. Qed.

Lemma laterOf_counted r : laterOf r (counted r).
Proof. unfold laterOf, counted. simpl. repeat split; try done; lia. Qed.

(** What a request makes of a document: nothing; or, of an unused
    document, a used one with at most one more attempt, or (a request that
    counts) an unused one with one more attempt. *)
Lemma transition_lookup counts c t l l' i r :
  transition counts c t l l' -> l !! i = Some r ->
  exists r', l' !! i = Some r' /\ laterOf r r'
    /\ (Otp.client r <> c -> r' = r)
    /\ (r' = r
        \/ (Otp.isUsed r = false /\ Otp.isUsed r' = true
            /\ (Otp.attempts r' = Otp.attempts r
                \/ Otp.attempts r' = Otp.attempts r + 1))
        \/ (counts = true /\ Otp.isUsed r = false /\ Otp.isUsed r' = false
            /\ Otp.attempts r' = Otp.attempts r + 1)).
Proof.
  intros [|g p|j x Hj Hc Hu Hv|j x Hj Hc Hu Hv|j x Hn Hj Hc Hu Hv] Hi.
  - exists r. split; [done|]. split; [apply laterOf_refl|]. split; [done|].
    by left.
  - rewrite (issued_lookup_old _ _ _ _ _ _ _ Hi).
    eexists; split; [done|]. destruct (unusedOf c r) eqn:E.
    + split; [apply laterOf_set_isUsed|]. split.
      * apply unusedOf_true in E as [E _]. congruence.
      * right; left. apply unusedOf_true in E as [_ E]. simpl. auto.
    + split; [apply laterOf_refl|]. split; [done|by left].
  - unfold Otp.save. pose proof (lookup_lt_Some _ _ _ Hj) as Hlt.
    destruct (decide (j = i)) as [->|Hne].
    + rewrite list_lookup_insert_eq by done. assert (x = r) as -> by congruence.
      eexists; split; [done|]. split; [apply laterOf_set_isUsed|].
      split; [congruence|]. right; left. simpl. auto.
    + rewrite list_lookup_insert_ne by done.
      exists r. split; [done|]. split; [apply laterOf_refl|].
      split; [done|by left].
  - unfold Otp.save. pose proof (lookup_lt_Some _ _ _ Hj) as Hlt.
    destruct (decide (j = i)) as [->|Hne].
    + rewrite list_lookup_insert_eq by done. assert (x = r) as -> by congruence.
      eexists; split; [done|]. split; [apply laterOf_consumed|].
      split; [congruence|]. right; left. simpl. auto.
    + rewrite list_lookup_insert_ne by done.
      exists r. split; [done|]. split; [apply laterOf_refl|].
      split; [done|by left].
  - unfold Otp.save. pose proof (lookup_lt_Some _ _ _ Hj) as Hlt.
    destruct (decide (j = i)) as [->|Hne].
    + rewrite list_lookup_insert_eq by done. assert (x = r) as -> by congruence.
      eexists; split; [done|]. split; [apply laterOf_counted|].
      split; [congruence|]. right; right. simpl. auto.
    + rewrite list_lookup_insert_ne by done.
      exists r. split; [done|]. split; [apply laterOf_refl|].
      split; [done|by left].
Qed.

Lemma transition_new counts c t l l' i r' :
  transition counts c t l l' -> l' !! i = Some r' -> l !! i = None ->
  i = length l /\ Otp.client r' = c /\ Otp.attempts r' = 0
  /\ Otp.isUsed r' = false /\ Otp.createdAt r' = t.
Proof.
  intros [|g p|j x Hj Hc Hu Hv|j x Hj Hc Hu Hv|j x _ Hj Hc Hu Hv] Hi Hn.
  - congruence.
  - apply lookup_ge_None in Hn. pose proof (lookup_lt_Some _ _ _ Hi) as Hlt.
    rewrite issued_length in Hlt. assert (i = length l) as -> by lia.
    rewrite issued_lookup_new in Hi. by injection Hi as <-.
  - apply lookup_ge_None in Hn. pose proof (lookup_lt_Some _ _ _ Hi) as Hlt.
    unfold Otp.save in Hlt. rewrite length_insert in Hlt. lia.
  - apply lookup_ge_None in Hn. pose proof (lookup_lt_Some _ _ _ Hi) as Hlt.
    unfold Otp.save in Hlt. rewrite length_insert in Hlt. lia.
  - apply lookup_ge_None in Hn. pose proof (lookup_lt_Some _ _ _ Hi) as Hlt.
    unfold Otp.save in Hlt. rewrite length_insert in Hlt. lia.
Qed.

Lemma run_lookup ops db i r :
  otps db !! i = Some r ->
  exists r', otps (run ops db) !! i = Some r' /\ laterOf r r'.
Proof.
  revert db r. induction ops as [|op ops IH]; intros db r Hi.
  - exists r. split; [done|apply laterOf_refl].
  - simpl.
    destruct (transition_lookup _ _ _ _ _ _ _ (step_transition op db) Hi)
      as (r1 & Hi1 & Hl1 & _).
    destruct (IH _ _ Hi1) as (r2 & Hi2 & Hl2).
    exists r2. split; [done|]. by eapply laterOf_trans.
Qed.

(** X1.  Through any sequence of requests a document stays where it is
    and keeps its client, code, phone, creation and expiry dates; its
    attempts never decrease and it stays used once it is; so the
    collection never shrinks. *)
Theorem documents_are_stable (ops : list Op) (db : DB) :
  (forall i r,
     otps db !! i = Some r ->
     exists r', otps (run ops db) !! i = Some r' /\ laterOf r r')
  /\ (length (otps db) <= length (otps (run ops db)))%nat.
Proof.
  split; [intros i r; apply run_lookup|].
  destruct (length (otps db)) as [|n] eqn:E; [lia|].
  destruct (lookup_lt_is_Some_2 (otps db) n) as [r Hr]; [lia|].
  destruct (run_lookup ops db n r Hr) as (r' & Hr' & _).
  apply lookup_lt_Some in Hr'. lia.
Qed.

(** The code of client 1 through an issue to client 1 and a verification. *)
Lemma documents_are_stable_witness :
  exists r',
    otps (run [Send (Ex.request 1%nat "" None) 2000 "654321";
               Verify (Ex.request 1%nat "654321" None) 3000] Ex.db1)
      !! 0%nat = Some r'
    /\ laterOf Ex.fresh r'.
Proof.
  apply (proj1 (documents_are_stable
                  [Send (Ex.request 1%nat "" None) 2000 "654321";
                   Verify (Ex.request 1%nat "654321" None) 3000] Ex.db1)
           0%nat Ex.fresh).
  reflexivity.
Defined.

Lemma step_countedOnce op db :
  stringCoded op = true ->
  (forall i r, otps db !! i = Some r -> countedOnce r) ->
  forall i r, otps (step op db).1 !! i = Some r -> countedOnce r.
Proof.
  intros Hs H i r' Hi. pose proof (step_transition op db) as Ht.
  rewrite Hs in Ht. simpl in Ht.
  destruct (otps db !! i) as [r|] eqn:E.
  - destruct (transition_lookup _ _ _ _ _ _ _ Ht E) as (r1 & Hi1 & _ & _ & Hc).
    assert (r1 = r') as -> by congruence.
    specialize (H i r E). unfold countedOnce in *.
    destruct Hc as [->|[(Hu & Hu' & Ha)|(? & _)]]; [done| |done].
    destruct H as [H0|[_ H1]]; [|congruence]. rewrite H0 in Ha.
    destruct Ha as [Ha|Ha]; [by left|by right].
  - destruct (transition_new _ _ _ _ _ _ _ Ht Hi E) as (_ & _ & H0 & _).
    by left.
Qed.

Lemma run_countedOnce ops db :
  forallb stringCoded ops = true ->
  (forall i r, otps db !! i = Some r -> countedOnce r) ->
  forall i r, otps (run ops db) !! i = Some r -> countedOnce r.
Proof.
  revert db. induction ops as [|op ops IH]; intros db Hs H; [done|].
  simpl in *. apply andb_true_iff in Hs as [Hop Hs].
  apply IH; [done|]. by apply step_countedOnce.
Qed.

Lemma step_attemptsWithin op db k :
  0 <= k ->
  attemptsWithin k (otps db) ->
  attemptsWithin (k + (if stringCoded op then 0 else 1)) (otps (step op db).1).
Proof.
  intros Hk H i r' Hi. pose proof (step_transition op db) as Ht.
  destruct (otps db !! i) as [r|] eqn:E.
  - destruct (transition_lookup _ _ _ _ _ _ _ Ht E) as (r1 & Hi1 & _ & _ & Hc).
    assert (r1 = r') as -> by congruence. specialize (H i r E).
    destruct Hc as [->|[(Hu & Hu' & Ha)|(Hn & Hu & Hu' & Ha)]].
    + destruct (stringCoded op), (Otp.isUsed r); lia.
    + rewrite Hu in H. rewrite Hu'. destruct (stringCoded op); lia.
    + rewrite Hu in H. rewrite Hu'. apply negb_true_iff in Hn. rewrite Hn. lia.
  - destruct (transition_new _ _ _ _ _ _ _ Ht Hi E) as (_ & _ & H0 & Hu & _).
    rewrite H0, Hu. destruct (stringCoded op); lia.
Qed.

Lemma notStrings_cons op ops :
  Z.of_nat (notStrings (op :: ops))
  = (if stringCoded op then 0 else 1) + Z.of_nat (notStrings ops).
Proof. unfold notStrings. simpl. destruct (stringCoded op); simpl; lia. Qed.

Lemma run_attemptsWithin ops db k :
  0 <= k ->
  attemptsWithin k (otps db) ->
  attemptsWithin (k + Z.of_nat (notStrings ops)) (otps (run ops db)).
Proof.
  revert db k. induction ops as [|op ops IH]; intros db k Hk H.
  - simpl. unfold notStrings. simpl. by rewrite Z.add_0_r.
  - simpl. rewrite notStrings_cons, Z.add_assoc. apply IH.
    + destruct (stringCoded op); lia.
    + by apply step_attemptsWithin.
Qed.

Lemma notStrings_zero ops :
  forallb stringCoded ops = true -> notStrings ops = 0%nat.
Proof.
  induction ops as [|op ops IH]; [done|]. simpl. intros H.
  apply andb_true_iff in H as [Hop H]. unfold notStrings in *. simpl.
  rewrite Hop. simpl. by apply IH.
Qed.

(** X2.  In a database reached from one without codes, the attempts of a
    document are at most the number of requests that submitted a code
    that is not a string, and one more once the document is used: the
    writes to the counter are the one of the successful verification and
    those of the wrong-code branch, which only such a request reaches.  So
    where every code was submitted as a string a document has 0 attempts,
    or 1 and is used, and the cap on attempts never decides: a document is
    valid exactly when it is unused and not expired. *)
Theorem attempts_count_submissions (ops : list Op)
  (cls : gmap ObjectId Client.t) (ns : list Notification.t) (i : nat)
  (r : Otp.t) :
  otps (run ops (mkDB cls [] ns)) !! i = Some r ->
  0 <= Otp.attempts r
    <= Z.of_nat (notStrings ops) + (if Otp.isUsed r then 1 else 0)
  /\ (forallb stringCoded ops = true ->
      countedOnce r
      /\ forall now,
           Otp.isValid r now
           = negb (Otp.isUsed r) && (now <? Otp.expiresAt r)).
Proof.
  intros Hi. split.
  - apply (run_attemptsWithin ops (mkDB cls [] ns) 0 ltac:(lia)) in Hi; [done|].
    intros j x Hj. simpl in Hj. by rewrite lookup_nil in Hj.
  - intros Hs.
    assert (countedOnce r) as Hc.
    { eapply (run_countedOnce ops (mkDB cls [] ns)); [done| |exact Hi].
      intros j x Hj. simpl in Hj. by rewrite lookup_nil in Hj. }
    split; [done|]. intros now. unfold Otp.isValid, Otp.maxAttempts.
    destruct Hc as [->|[-> ->]]; simpl; [|done].
    by rewrite andb_true_r.
Qed.

(** The code of client 1 is issued, submitted twice as a number and then
    as the string. *)
Lemma attempts_count_submissions_witness :
  (0 <= Otp.attempts (consumed (counted (counted Ex.fresh))) <= 2 + 1)
  /\ countedOnce (consumed Ex.fresh).
Proof.
  split.
  - refine (proj1 (attempts_count_submissions
              [Send (Ex.request 1%nat "" None) 1000 "123456";
               Verify (Ex.requestNumber 1%nat "123456" None) 2000;
               Verify (Ex.requestNumber 1%nat "123456" None) 3000;
               Verify (Ex.request 1%nat "123456" None) 4000]
              {[ 1%nat := Ex.asha ]} [] 0%nat
              (consumed (counted (counted Ex.fresh))) _)).
    vm_compute. reflexivity.
  - refine (proj1 (proj2 (attempts_count_submissions
              [Send (Ex.request 1%nat "" None) 1000 "123456";
               Verify (Ex.request 1%nat "123456" None) 2000]
              {[ 1%nat := Ex.asha ]} [] 0%nat (consumed Ex.fresh) _) _)).
    + vm_compute. reflexivity.
    + reflexivity.
Defined.

Lemma step_clients op db : clients (step op db).1 = clients db.
Proof.
  destruct op as [req now g|req now|req now g|req now]; simpl.
  - destruct (errors req) as [|e es] eqn:He.
    + destruct (clientWithPhone req db) as [[cl p]|] eqn:Hc.
      * by rewrite (sendOTP_proceeds _ _ _ _ _ _ He Hc), issueOutcome_clients.
      * by destruct (sendOTP_rejects req now g db) as (resp & -> & _); [auto|].
    + by destruct (sendOTP_rejects req now g db) as (resp & -> & _);
        [left; by rewrite He|].
  - apply verifyOTP_frame.
  - destruct (errors req) as [|e es] eqn:He.
    + destruct (clientWithPhone req db) as [[cl p]|] eqn:Hc.
      * destruct (cooldown (body_clientId req) now (otps db)) as [w|] eqn:Hw.
        -- by rewrite (resendOTP_throttled _ _ _ _ _ _ _ He Hc Hw).
        -- by rewrite (resendOTP_proceeds _ _ _ _ _ _ He Hc Hw),
             issueOutcome_clients.
      * by destruct (resendOTP_rejects req now g db) as (resp & -> & _);
          [auto|].
    + by destruct (resendOTP_rejects req now g db) as (resp & -> & _);
        [left; by rewrite He|].
  - by rewrite getOTPStatus_eq.
Qed.

Lemma transition_activeCount_other counts c c' t l l' :
  transition counts c t l l' -> c' <> c ->
  activeCount c' l' = activeCount c' l.
Proof.
  assert (forall j x x', l !! j = Some x -> Otp.client x = c ->
            Otp.client x' = c -> c' <> c ->
            activeCount c' (Otp.save j x' l) = activeCount c' l) as Hsave.
  { intros j x x' Hj Hc Hc' Hne.
    pose proof (activeCount_save c' _ _ _ x' Hj) as E.
    assert (unusedOf c' x = false) as E1.
    { destruct (unusedOf c' x) eqn:F; [|done].
      apply unusedOf_true in F as [F _]. congruence. }
    assert (unusedOf c' x' = false) as E2.
    { destruct (unusedOf c' x') eqn:F; [|done].
      apply unusedOf_true in F as [F _]. congruence. }
    rewrite E1, E2 in E. lia. }
  intros [|g p|j x Hj Hc Hu Hv|j x Hj Hc Hu Hv|j x _ Hj Hc Hu Hv] Hne.
  - done.
  - by apply issued_activeCount_other.
  - by eapply Hsave.
  - by eapply Hsave.
  - by eapply Hsave.
Qed.

(** X3.  A request about one client leaves the documents of every other
    client as they are, their number of unused documents too, and never
    writes to the clients. *)
Theorem other_clients_untouched (op : Op) (db : DB) :
  clients (step op db).1 = clients db
  /\ (forall i r,
        otps db !! i = Some r -> Otp.client r <> clientOf op ->
        otps (step op db).1 !! i = Some r)
  /\ (forall c,
        c <> clientOf op ->
        activeCount c (otps (step op db).1) = activeCount c (otps db)).
Proof.
  split; [apply step_clients|]. split.
  - intros i r Hi Hne.
    destruct (transition_lookup _ _ _ _ _ _ _ (step_transition op db) Hi)
      as (r' & Hi' & _ & Hsame & _).
    by rewrite Hi', (Hsame Hne).
  - intros c Hne.
    by apply (transition_activeCount_other _ _ _ _ _ _
                (step_transition op db)).
Qed.

(** An issue to client 2 next to the code of client 1. *)
Lemma other_clients_untouched_witness :
  otps (step (Send (Ex.request 2%nat "" None) 2000 "654321")
          (mkDB {[ 1%nat := Ex.asha; 2%nat := Ex.asha ]} [Ex.fresh] [])).1
    !! 0%nat = Some Ex.fresh
  /\ activeCount 1%nat
       (otps (step (Send (Ex.request 2%nat "" None) 2000 "654321")
                (mkDB {[ 1%nat := Ex.asha; 2%nat := Ex.asha ]}
                   [Ex.fresh] [])).1)
     = activeCount 1%nat [Ex.fresh].
Proof.
  destruct (other_clients_untouched
              (Send (Ex.request 2%nat "" None) 2000 "654321")
              (mkDB {[ 1%nat := Ex.asha; 2%nat := Ex.asha ]} [Ex.fresh] []))
    as (_ & H1 & H2).
  split.
  - apply H1; [reflexivity|]. vm_compute. discriminate.
  - apply H2. vm_compute. discriminate.
Defined.

(** ** The audit trail through the requests *)

Lemma issueOutcome_notifications ty verb msg req now g cl p db :
  notifications (issueOutcome ty verb msg req now g cl p db).1
  = notifications db
  \/ exists u,
       user req = Some u
       /\ notifications (issueOutcome ty verb msg req now g cl p db).1
          = (notifications db
             ++ [audit ty verb u (body_clientId req) cl p
                   (length (otps db)) now])%list.
Proof.
  unfold issueOutcome. destruct (user req) as [u|]; [|by left].
  destruct (Notification.validate _); [right; eauto|by left].
Qed.

(** What one request does to the audit trail: nothing, or one document
    appended, by an issue, for the OTP document the issue created. *)
Lemma step_notifications op db :
  notifications (step op db).1 = notifications db
  \/ exists n r,
       notifications (step op db).1 = (notifications db ++ [n])%list
       /\ issues op = true
       /\ Notification.type_ n = auditType op
       /\ freshAudit n
       /\ Notification.client n = clientOf op
       /\ Notification.otpId n = Some (length (otps db))
       /\ otps (step op db).1 !! length (otps db) = Some r
       /\ Otp.client r = Notification.client n
       /\ Otp.phone r = Notification.clientPhone n.
Proof.
  destruct op as [req now g|req now|req now g|req now]; simpl.
  - destruct (errors req) as [|e es] eqn:He.
    + destruct (clientWithPhone req db) as [[cl p]|] eqn:Hc.
      * rewrite (sendOTP_proceeds _ _ _ _ _ _ He Hc).
        destruct (issueOutcome_notifications Notification.otp_sent
                    "OTP sent to "
                    "OTP generated successfully (Testing mode - WhatsApp disabled)"
                    req now g cl p db) as [E|(u & Hu & E)]; [by left|].
        right. eexists _, (Otp.new (body_clientId req) g p now).
        split; [exact E|]. rewrite issueOutcome_otps, issued_lookup_new.
        unfold freshAudit. simpl. repeat split; auto.
      * left. by destruct (sendOTP_rejects req now g db) as (resp & -> & _);
          [auto|].
    + left. by destruct (sendOTP_rejects req now g db) as (resp & -> & _);
        [left; by rewrite He|].
  - left. apply verifyOTP_frame.
  - destruct (errors req) as [|e es] eqn:He.
    + destruct (clientWithPhone req db) as [[cl p]|] eqn:Hc.
      * destruct (cooldown (body_clientId req) now (otps db)) as [w|] eqn:Hw.
        { left. by rewrite (resendOTP_throttled _ _ _ _ _ _ _ He Hc Hw). }
        rewrite (resendOTP_proceeds _ _ _ _ _ _ He Hc Hw).
        destruct (issueOutcome_notifications Notification.otp_resent
                    "OTP resent to "
                    "OTP regenerated successfully (Testing mode - WhatsApp disabled)"
                    req now g cl p db) as [E|(u & Hu & E)]; [by left|].
        right. eexists _, (Otp.new (body_clientId req) g p now).
        split; [exact E|]. rewrite issueOutcome_otps, issued_lookup_new.
        unfold freshAudit. simpl. repeat split; auto.
      * left. by destruct (resendOTP_rejects req now g db)
          as (resp & -> & _); [auto|].
    + left. by destruct (resendOTP_rejects req now g db) as (resp & -> & _);
        [left; by rewrite He|].
  - left. by rewrite getOTPStatus_eq.
Qed.

(** X4.  The OTP controller only ever appends to the audit trail: after
    any sequence of requests the earlier documents are there unchanged,
    followed by at most one document per sendOTP or resendOTP, each of
    type otp_sent or otp_resent, a success, unread.  No request writes an
    otp_verified document, and verifications and status queries write
    none at all. *)
Theorem audit_trail_is_append_only (ops : list Op) (db : DB) :
  exists extra,
    notifications (run ops db) = (notifications db ++ extra)%list
    /\ Forall freshAudit extra
    /\ Forall (fun n => Notification.type_ n <> Notification.otp_verified)
         extra
    /\ (length extra <= length (List.filter issues ops))%nat.
Proof.
  revert db. induction ops as [|op ops IH]; intros db.
  - exists []. rewrite app_nil_r. repeat split; try constructor.
  - simpl. destruct (IH (step op db).1) as (extra & E & Hf & Hv & Hl).
    destruct (step_notifications op db)
      as [E1|(n & r & E1 & Hi & Hty & Hfr & _)].
    + exists extra. rewrite E, E1. repeat split; try done.
      destruct (issues op); simpl; lia.
    + exists (n :: extra). rewrite E, E1, <- app_assoc. simpl.
      repeat split; try (by constructor).
      * constructor; [|done]. destruct Hfr as ([E2 | E2] & _); rewrite E2; discriminate.
      * rewrite Hi. simpl. lia.
Qed.

Lemma step_linked op db : linked db -> linked (step op db).1.
Proof.
  intros H n Hn.
  assert (forall n, n ∈ notifications db ->
            exists i r, Notification.otpId n = Some i
              /\ otps (step op db).1 !! i = Some r
              /\ Otp.client r = Notification.client n
              /\ Otp.phone r = Notification.clientPhone n) as Hold.
  { intros m Hm. destruct (H m Hm) as (i & r & Hid & Hi & Hc & Hp).
    destruct (transition_lookup _ _ _ _ _ _ _ (step_transition op db) Hi)
      as (r' & Hi' & (L1 & _ & L3 & _) & _).
    exists i, r'. repeat split; [done..|congruence|congruence]. }
  destruct (step_notifications op db)
    as [E|(m & r & E & _ & _ & _ & _ & Hid & Hr & Hc & Hp)].
  - rewrite E in Hn. by apply Hold.
  - rewrite E in Hn. apply elem_of_app in Hn as [Hn|Hn]; [by apply Hold|].
    apply list_elem_of_singleton in Hn as ->. eauto 7.
Qed.

(** X5.  Every audit document points to an OTP document that exists and
    belongs to the client and the phone number the audit document names:
    the requests keep this true, so it holds in every database reached
    from one without audit documents. *)
Theorem audit_links_are_valid (ops : list Op) (db : DB) :
  linked db -> linked (run ops db).
Proof.
  revert db. induction ops as [|op ops IH]; intros db H; [done|].
  simpl. apply IH. by apply step_linked.
Qed.

(** Ravi issues a code to client 1, the code is verified, and he issues
    another. *)
Lemma audit_links_are_valid_witness :
  linked (run [Send (Ex.request 1%nat "" (Some Ex.ravi)) 1000 "123456";
               Verify (Ex.request 1%nat "123456" None) 2000;
               Send (Ex.request 1%nat "" (Some Ex.ravi)) 3000 "654321"]
            Ex.db0).
Proof.
  apply audit_links_are_valid. intros n Hn. simpl in Hn. inversion Hn.
Defined.

(** ** Refusals and failures *)



(** X6.  A sendOTP or resendOTP that answers 400, 404 or 429 has written
    nothing: the database is the one of before. *)
Theorem refused_issue_writes_nothing (req : Request) (now : Date)
  (g : string) (db : DB) :
  (status (sendOTP req now g db).2 <> 200 ->
   status (sendOTP req now g db).2 <> 500 ->
   (sendOTP req now g db).1 = db
   /\ success (body (sendOTP req now g db).2) = false)
  /\ (status (resendOTP req now g db).2 <> 200 ->
      status (resendOTP req now g db).2 <> 500 ->
      (resendOTP req now g db).1 = db
      /\ success (body (resendOTP req now g db).2) = false).
Proof.
  split; intros H2 H5.
  - destruct (errors req) as [|e es] eqn:He.
    + destruct (clientWithPhone req db) as [[cl p]|] eqn:Hc.
      * rewrite (sendOTP_proceeds _ _ _ _ _ _ He Hc) in *.
        by destruct (issueOutcome_status Notification.otp_sent "OTP sent to "
          "OTP generated successfully (Testing mode - WhatsApp disabled)"
          req now g cl p db).
      * by destruct (sendOTP_rejects req now g db) as (resp & -> & _ & ?);
          [auto|].
    + by destruct (sendOTP_rejects req now g db) as (resp & -> & _ & ?);
        [left; by rewrite He|].
  - destruct (errors req) as [|e es] eqn:He.
    + destruct (clientWithPhone req db) as [[cl p]|] eqn:Hc.
      * destruct (cooldown (body_clientId req) now (otps db)) as [w|] eqn:Hw.
        { by rewrite (resendOTP_throttled _ _ _ _ _ _ _ He Hc Hw). }
        rewrite (resendOTP_proceeds _ _ _ _ _ _ He Hc Hw) in *.
        by destruct (issueOutcome_status Notification.otp_resent
          "OTP resent to "
          "OTP regenerated successfully (Testing mode - WhatsApp disabled)"
          req now g cl p db).
      * by destruct (resendOTP_rejects req now g db) as (resp & -> & _ & ?);
          [auto|].
    + by destruct (resendOTP_rejects req now g db) as (resp & -> & _ & ?);
        [left; by rewrite He|].
Qed.

(** An issue for a client that does not exist, a resend inside the
    cooldown. *)
Lemma refused_issue_writes_nothing_witness :
  (sendOTP (Ex.request 5%nat "" None) 2000 "654321" Ex.db1).1 = Ex.db1
  /\ (resendOTP (Ex.request 1%nat "" None) 2000 "654321" Ex.db1).1 = Ex.db1.
Proof.
  split.
  - apply (proj1 (refused_issue_writes_nothing (Ex.request 5%nat "" None)
                    2000 "654321" Ex.db1)); vm_compute; discriminate.
  - apply (proj2 (refused_issue_writes_nothing (Ex.request 1%nat "" None)
                    2000 "654321" Ex.db1)); vm_compute; discriminate.
Defined.







(** ** One request after another *)

(** After an issue to [c], a query that asks for unused documents of [c]
    and accepts the new one finds the new one. *)
Lemma findLatest_issued (q : Otp.Query) c g p now l :
  (forall x, q x = true -> unusedOf c x = true) ->
  q (Otp.new c g p now) = true ->
  Otp.findLatest q (issued c g p now l)
  = Some (length l, Otp.new c g p now).
Proof.
  intros Hsub Hq. apply findLatest_complete; [apply issued_lookup_new|done|].
  intros j r' Hj Hr'. destruct (l !! j) as [x|] eqn:E.
  - rewrite (issued_lookup_old _ _ _ _ _ _ _ E) in Hj. injection Hj as <-.
    apply Hsub in Hr'. destruct (unusedOf c x) eqn:Ex.
    + by rewrite unusedOf_set_isUsed in Hr'.
    + congruence.
  - apply lookup_ge_None in E. pose proof (lookup_lt_Some _ _ _ Hj) as Hlt.
    rewrite issued_length in Hlt. assert (j = length l) as -> by lia.
    rewrite issued_lookup_new in Hj. injection Hj as <-.
    right. split; [done|lia].
Qed.

(** What an issue that answered 200 has done. *)
Lemma step_issued op db :
  issues op = true -> status (step op db).2 = 200 ->
  exists cl p,
    errors (reqOf op) = []
    /\ clientWithPhone (reqOf op) db = Some (cl, p)
    /\ otps (step op db).1
       = issued (clientOf op) (codeOf op) p (timeOf op) (otps db).
Proof.
  destruct op as [req now g|req now|req now g|req now]; try discriminate;
    intros _ H; simpl in *.
  - destruct (sendOTP_200 _ _ _ _ H) as (cl & p & He & Hc).
    exists cl, p. split; [done|]. split; [done|].
    by rewrite (sendOTP_proceeds _ _ _ _ _ _ He Hc), issueOutcome_otps.
  - destruct (resendOTP_200 _ _ _ _ H) as (cl & p & He & Hc & Hw).
    exists cl, p. split; [done|]. split; [done|].
    by rewrite (resendOTP_proceeds _ _ _ _ _ _ He Hc Hw), issueOutcome_otps.
Qed.

Lemma clientWithPhone_clients req req' db db' :
  clients db' = clients db -> body_clientId req' = body_clientId req ->
  clientWithPhone req' db' = clientWithPhone req db.
Proof. unfold clientWithPhone. by intros -> ->. Qed.

(** X9.  The code of an issue verifies.  After a sendOTP or resendOTP that
    answered 200, a verifyOTP for the same client with the generated code
    succeeds if made before the expiry date the issue answered, and is
    answered "expired" from that date on; either way the document is used
    afterwards.  Submitted as a number before that date, the same code is
    answered "Invalid OTP" with [attemptsLeft: 2], and the document stays
    unused with one attempt. *)
Theorem issue_then_verify (op : Op) (db : DB) (vreq : Request) (now' : Date) :
  issues op = true ->
  status (step op db).2 = 200 ->
  errors vreq = [] ->
  body_clientId vreq = clientOf op ->
  (body_otp vreq = Str (codeOf op) ->
   (now' < timeOf op + Otp.ttl ->
    status (verifyOTP vreq now' (step op db).1).2 = 200
    /\ success (body (verifyOTP vreq now' (step op db).1).2) = true)
   /\ (timeOf op + Otp.ttl <= now' ->
       (verifyOTP vreq now' (step op db).1).2 = expired)
   /\ exists r,
        otps (verifyOTP vreq now' (step op db).1).1 !! length (otps db)
        = Some r
        /\ Otp.isUsed r = true /\ Otp.otp r = codeOf op)
  /\ (body_otp vreq = number (codeOf op) ->
      now' < timeOf op + Otp.ttl ->
      (verifyOTP vreq now' (step op db).1).2
      = mkResponse 400 (Failure "Invalid OTP" (Some 2))
      /\ exists r,
           otps (verifyOTP vreq now' (step op db).1).1 !! length (otps db)
           = Some r
           /\ Otp.isUsed r = false /\ Otp.attempts r = 1
           /\ Otp.otp r = codeOf op).
Proof.
  intros Hi H He Hc.
  destruct (step_issued op db Hi H) as (cl & p & _ & Hcl & Hl).
  assert (matchesCode (body_otp vreq) (codeOf op) = true ->
          Otp.findLatest (unusedWithCode (body_clientId vreq) (body_otp vreq))
            (otps (step op db).1)
          = Some (length (otps db),
                  Otp.new (clientOf op) (codeOf op) p (timeOf op))) as Hf.
  { intros Hm. rewrite Hl, Hc. apply findLatest_issued.
    - intros x Hx. apply unusedWithCode_true in Hx as (? & _ & ?).
      by apply unusedOf_true.
    - by apply unusedWithCode_true. }
  assert (clients (step op db).1 !! body_clientId vreq = Some cl) as Hcl'.
  { rewrite step_clients, Hc.
    destruct (clientWithPhone_Some _ _ _ _ Hcl) as (Hcl' & _).
    by destruct op. }
  assert (now' < timeOf op + Otp.ttl ->
          Otp.isValid (Otp.new (clientOf op) (codeOf op) p (timeOf op)) now'
          = true) as Hlive.
  { intros Hlt. unfold Otp.isValid. simpl. apply andb_true_iff.
    split; [|done]. by apply Z.ltb_lt. }
  split.
  - intros Ho. rewrite Ho in Hf. specialize (Hf (String.eqb_refl _)).
    rewrite <- Ho in Hf.
    assert (isStr (body_otp vreq) = true) as Hs by (by rewrite Ho).
    destruct (Z.ltb_spec now' (timeOf op + Otp.ttl)) as [Hlt|Hdead].
    + rewrite (verifyOTP_valid _ _ _ _ _ He Hs Hf (Hlive Hlt)), Hcl'. simpl.
      split; [done|]. split; [lia|].
      eexists.
      split; [eapply save_lookup_eq; by rewrite Hl, issued_lookup_new|done].
    + assert (Otp.isValid (Otp.new (clientOf op) (codeOf op) p (timeOf op))
                now' = false) as Hv.
      { unfold Otp.isValid. simpl. apply andb_false_iff. left.
        by apply Z.ltb_ge. }
      rewrite (verifyOTP_expired _ _ _ _ _ He Hf Hv). simpl.
      split; [lia|]. split; [done|].
      eexists.
      split; [eapply save_lookup_eq; by rewrite Hl, issued_lookup_new|done].
  - intros Ho Hlt. rewrite Ho in Hf. specialize (Hf (String.eqb_refl _)).
    rewrite <- Ho in Hf.
    assert (isStr (body_otp vreq) = false) as Hs by (by rewrite Ho).
    rewrite (verifyOTP_counted _ _ _ _ _ He Hs Hf (Hlive Hlt)). simpl.
    split; [done|].
    eexists.
    split; [eapply save_lookup_eq; by rewrite Hl, issued_lookup_new|done].
Qed.

(** Ravi issues 123456 to client 1; it is verified a second later, as the
    string or as the number. *)
Lemma issue_then_verify_witness :
  status (verifyOTP (Ex.request 1%nat "123456" None) 2000
            (step (Send (Ex.request 1%nat "" (Some Ex.ravi)) 1000 "123456")
               Ex.db0).1).2 = 200
  /\ (verifyOTP (Ex.requestNumber 1%nat "123456" None) 2000
        (step (Send (Ex.request 1%nat "" (Some Ex.ravi)) 1000 "123456")
           Ex.db0).1).2
     = mkResponse 400 (Failure "Invalid OTP" (Some 2)).
Proof.
  split.
  - apply (proj1 (issue_then_verify
             (Send (Ex.request 1%nat "" (Some Ex.ravi)) 1000 "123456") Ex.db0
             (Ex.request 1%nat "123456" None) 2000
             eq_refl eq_refl eq_refl eq_refl) eq_refl).
    reflexivity.
  - apply (proj2 (issue_then_verify
             (Send (Ex.request 1%nat "" (Some Ex.ravi)) 1000 "123456") Ex.db0
             (Ex.requestNumber 1%nat "123456" None) 2000
             eq_refl eq_refl eq_refl eq_refl) eq_refl).
    reflexivity.
Defined.

(** X10.  After a sendOTP or resendOTP that answered 200, a resendOTP for
    the same client within the next 30 seconds is answered 429, whatever
    else the collection holds, with the seconds left of the 30 rounded
    up, and writes nothing. *)
Theorem issue_then_resend (op : Op) (db : DB) (req : Request) (now' : Date)
  (g : string) :
  issues op = true ->
  status (step op db).2 = 200 ->
  errors req = [] ->
  body_clientId req = clientOf op ->
  timeOf op <= now' < timeOf op + 30 * 1000 ->
  exists w,
    resendOTP req now' g (step op db).1
    = ((step op db).1,
       mkResponse 429
         (Failure ("Please wait " +:+ pretty w
                   +:+ " seconds before requesting another OTP") None))
    /\ 1000 * (w - 1) < 30 * 1000 - (now' - timeOf op) <= 1000 * w
    /\ 1 <= w <= 30.
Proof.
  intros Hi H He Hc Ht.
  destruct (step_issued op db Hi H) as (cl & p & _ & Hcl & Hl).
  assert (clientWithPhone req (step op db).1 = Some (cl, p)) as Hcl'.
  { rewrite (clientWithPhone_clients (reqOf op) req db); [done| |].
    - apply step_clients.
    - rewrite Hc. by destruct op. }
  exists (Math_ceil_div (30 * 1000 - (now' - timeOf op)) 1000).
  pose proof (Math_ceil_div_spec (30 * 1000 - (now' - timeOf op)) 1000
                ltac:(lia)) as Hw.
  split; [|split; [exact Hw|lia]].
  apply (resendOTP_throttled _ _ _ _ cl p); [done..|].
  unfold cooldown. rewrite Hl, Hc.
  rewrite (findLatest_issued (unusedOf (clientOf op))); [|done|].
  - unfold Otp.isValid. simpl.
    assert ((now' <? timeOf op + Otp.ttl) = true) as ->
      by (apply Z.ltb_lt; unfold Otp.ttl; lia).
    assert ((now' - timeOf op <? 30 * 1000) = true) as ->
      by (apply Z.ltb_lt; lia).
    done.
  - by apply unusedOf_true.
Qed.

(** Client 1 gets a code and asks for another 12.3 seconds later. *)
Lemma issue_then_resend_witness :
  exists w,
    resendOTP (Ex.request 1%nat "" None) 13300 "654321"
      (step (Send (Ex.request 1%nat "" None) 1000 "123456") Ex.db0).1
    = ((step (Send (Ex.request 1%nat "" None) 1000 "123456") Ex.db0).1,
       mkResponse 429
         (Failure ("Please wait " +:+ pretty w
                   +:+ " seconds before requesting another OTP") None))
    /\ 1000 * (w - 1) < 30 * 1000 - (13300 - 1000) <= 1000 * w
    /\ 1 <= w <= 30.
Proof.
  apply (issue_then_resend (Send (Ex.request 1%nat "" None) 1000 "123456")
           Ex.db0 (Ex.request 1%nat "" None) 13300 "654321");
    try reflexivity.
  vm_compute. split; [discriminate|reflexivity].
Defined.

Lemma issueOutcome_answer ty verb msg req now g cl p db l :
  (issueOutcome ty verb msg req now g cl p (set_otps l db)).2
  = (issueOutcome ty verb msg req now g cl p db).2.
Proof.
  unfold issueOutcome. destruct (user req) as [u|]; [|done].
  unfold Notification.validate, audit. simpl.
  by destruct (_ && _).
Qed.

(** X11.  sendOTP is not throttled: its answer does not depend on the OTP
    documents.  Right after an issue, or a thousand issues, it answers as
    it would have on an empty collection. *)
Theorem issue_ignores_the_collection (req : Request) (now : Date)
  (g : string) (db : DB) (l : list Otp.t) :
  (sendOTP req now g (set_otps l db)).2 = (sendOTP req now g db).2.
Proof.
  destruct (errors req) as [|e es] eqn:He.
  - destruct (clientWithPhone req db) as [[cl p]|] eqn:Hc.
    + rewrite (sendOTP_proceeds _ _ _ _ _ _ He Hc).
      rewrite (sendOTP_proceeds req now g (set_otps l db) cl p He Hc).
      apply issueOutcome_answer.
    + handler_unfold. rewrite He. simpl.
      destruct (clients db !! body_clientId req) as [cl|]; simpl; [|done].
      by destruct (Client.phone cl) as [[|a s]|].
  - handler_unfold. by rewrite He.
Qed.

(** X12.  The status of a fresh code.  After a sendOTP or resendOTP that
    answered 200 (no document of the client being dated later), the status
    of that client reports the new document: unused, no attempts, the
    expiry date the issue answered, active until then, and the whole
    seconds left. *)
Theorem issue_then_status (op : Op) (db : DB) (req : Request) (now' : Date) :
  issues op = true ->
  status (step op db).2 = 200 ->
  params_clientId req = clientOf op ->
  (forall r, r ∈ otps db -> Otp.client r = clientOf op ->
     Otp.createdAt r <= timeOf op) ->
  getOTPStatus req now' (step op db).1
  = ((step op db).1,
     mkResponse 200
       (OtpStatus (now' <? timeOf op + Otp.ttl) false 0
          (Z.max 0 ((timeOf op + Otp.ttl - now') / 1000))
          (timeOf op + Otp.ttl)))
  /\ exists m c n p e d o,
       body (step op db).2 = OtpIssued m c n p e (timeOf op + Otp.ttl) d o.
Proof.
  intros Hi H Hc Hold.
  destruct (step_issued op db Hi H) as (cl & p & He & Hcl & Hl). split.
  - rewrite getOTPStatus_eq, Hl, Hc.
    assert (Otp.findLatest (anyOf (clientOf op))
              (issued (clientOf op) (codeOf op) p (timeOf op) (otps db))
            = Some (length (otps db),
                    Otp.new (clientOf op) (codeOf op) p (timeOf op))) as ->.
    { apply findLatest_complete;
        [apply issued_lookup_new|by apply anyOf_true|].
      intros j r' Hj Hr'. apply anyOf_true in Hr'.
      destruct (otps db !! j) as [x|] eqn:E.
      - rewrite (issued_lookup_old _ _ _ _ _ _ _ E) in Hj. injection Hj as <-.
        pose proof (lookup_lt_Some _ _ _ E) as Hlt.
        assert (Otp.createdAt x <= timeOf op) as Hx.
        { apply Hold; [apply list_elem_of_lookup; eauto|].
          by destruct (unusedOf (clientOf op) x). }
        unfold newerThan. simpl.
        replace (Otp.createdAt
                   (if unusedOf (clientOf op) x
                    then Otp.set_isUsed true x else x))
          with (Otp.createdAt x) by (by destruct (unusedOf _ x)).
        destruct (Z.eq_dec (Otp.createdAt x) (timeOf op)); [right|left]; lia.
      - apply lookup_ge_None in E. pose proof (lookup_lt_Some _ _ _ Hj) as Hlt.
        rewrite issued_length in Hlt.
        assert (j = length (otps db)) as -> by lia.
        rewrite issued_lookup_new in Hj. injection Hj as <-.
        right. split; [done|lia]. }
    unfold Otp.isValid. simpl. by rewrite andb_true_r.
  - destruct op as [r now g|r now|r now g|r now]; try discriminate;
      simpl in *.
    + rewrite (sendOTP_proceeds _ _ _ _ _ _ He Hcl) in *.
      unfold issueOutcome in *. destruct (user r) as [u|]; [|simpl; eauto 10].
      destruct (Notification.validate _); [simpl; eauto 10|discriminate].
    + destruct (resendOTP_200 _ _ _ _ H) as (cl' & p' & _ & Hcl' & Hw).
      rewrite (resendOTP_proceeds _ _ _ _ _ _ He Hcl' Hw) in *.
      unfold issueOutcome in *. destruct (user r) as [u|]; [|simpl; eauto 10].
      destruct (Notification.validate _); [simpl; eauto 10|discriminate].
Qed.

(** The status of client 1, 10.5 seconds after the issue. *)
Lemma issue_then_status_witness :
  (getOTPStatus (Ex.request 1%nat "" None) 11500
     (step (Send (Ex.request 1%nat "" None) 1000 "123456") Ex.db0).1).2
  = mkResponse 200 (OtpStatus true false 0 289 301000).
Proof.
  assert (forall r : Otp.t, r ∈ otps Ex.db0 -> Otp.client r = 1%nat ->
            Otp.createdAt r <= 1000) as Hold
    by (intros r Hr; inversion Hr).
  pose proof (issue_then_status
                (Send (Ex.request 1%nat "" None) 1000 "123456") Ex.db0
                (Ex.request 1%nat "" None) 11500 eq_refl eq_refl eq_refl
                Hold) as [H _].
  rewrite H. reflexivity.
Defined.

Lemma findLatest_save (q : Otp.Query) l i r r' :
  Otp.findLatest q l = Some (i, r) ->
  q r' = true -> Otp.createdAt r' = Otp.createdAt r ->
  Otp.findLatest q (Otp.save i r' l) = Some (i, r').
Proof.
  intros Hf Hq Ht. destruct (findLatest_sound _ _ _ _ Hf) as (Hi & _ & Hmax).
  pose proof (lookup_lt_Some _ _ _ Hi) as Hlt. unfold Otp.save.
  apply findLatest_complete; [by apply list_lookup_insert_eq|done|].
  intros j x Hj Hx. unfold newerThan. rewrite Ht.
  destruct (decide (i = j)) as [<-|Hne].
  - rewrite list_lookup_insert_eq in Hj by done. injection Hj as <-.
    right. split; [done|lia].
  - rewrite list_lookup_insert_ne in Hj by done. by apply Hmax.
Qed.

(** X13.  The status after a verification.  When verifyOTP found a
    document (the newest document of a client being the only one that can
    be unused), the status of that client reports that document.  After a
    code submitted as a string it is used and not active, with one more
    attempt if the verification succeeded and the same attempts if the
    code had expired.  After a value that is not a string and a document
    that was valid, it is still unused, has one more attempt, and is
    active as long as it has not expired and has fewer than 3 attempts. *)
Theorem verify_then_status (req sreq : Request) (now now' : Date) (db : DB)
  (i : nat) (r : Otp.t) :
  errors req = [] ->
  Otp.findLatest (unusedWithCode (body_clientId req) (body_otp req)) (otps db)
  = Some (i, r) ->
  onlyNewestActive (otps db) ->
  params_clientId sreq = body_clientId req ->
  let counts := Otp.isValid r now && negb (isStr (body_otp req)) in
  (getOTPStatus sreq now' (verifyOTP req now db).1).2
  = mkResponse 200
      (OtpStatus
         (counts && (now' <? Otp.expiresAt r) && (Otp.attempts r + 1 <? 3))
         (negb counts)
         (if Otp.isValid r now then Otp.attempts r + 1 else Otp.attempts r)
         (Z.max 0 ((Otp.expiresAt r - now') / 1000)) (Otp.expiresAt r)).
Proof.
  intros He Hf Hnew Hc counts.
  destruct (findLatest_sound _ _ _ _ Hf) as (Hi & Hq & _).
  apply unusedWithCode_true in Hq as (Hcl & _ & Hu).
  pose proof (Hnew i r Hi Hu) as Hl. rewrite Hcl in Hl.
  rewrite getOTPStatus_eq, verifyOTP_otps, He, Hf, Hc. simpl.
  rewrite (findLatest_save _ _ _ _ (writtenBack (body_otp req) now r) Hl).
  - unfold counts, writtenBack.
    destruct (Otp.isValid r now), (isStr (body_otp req)); simpl; try done.
    unfold Otp.isValid, Otp.maxAttempts. simpl. by rewrite Hu.
  - apply anyOf_true. by rewrite writtenBack_client.
  - apply writtenBack_createdAt.
Qed.

(** The code of client 1 is verified, as the string or as the number, then
    its status is read. *)
Lemma verify_then_status_witness :
  (getOTPStatus (Ex.request 1%nat "" None) 3000
     (verifyOTP (Ex.request 1%nat "123456" None) 2000 Ex.db1).1).2
  = mkResponse 200 (OtpStatus false true 1 298 301000)
  /\ (getOTPStatus (Ex.request 1%nat "" None) 3000
        (verifyOTP (Ex.requestNumber 1%nat "123456" None) 2000 Ex.db1).1).2
     = mkResponse 200 (OtpStatus true false 1 298 301000).
Proof.
  assert (onlyNewestActive (otps Ex.db1)) as Hnew.
  { intros [|i] e Hi Hu; [|by destruct i].
    injection Hi as <-. vm_compute. reflexivity. }
  pose proof (verify_then_status (Ex.request 1%nat "123456" None)
                (Ex.request 1%nat "" None) 2000 3000 Ex.db1 0%nat Ex.fresh
                eq_refl eq_refl Hnew eq_refl) as H.
  pose proof (verify_then_status (Ex.requestNumber 1%nat "123456" None)
                (Ex.request 1%nat "" None) 2000 3000 Ex.db1 0%nat Ex.fresh
                eq_refl eq_refl Hnew eq_refl) as H'.
  split; [rewrite H|rewrite H']; reflexivity.
Defined.

(** ** Phone numbers, again *)

Lemma replaceNonDigits_length (s : string) :
  (String.length (WhatsAppService.replaceNonDigits s) <= String.length s)%nat.
Proof.
  induction s as [|a s IH]; simpl; [lia|].
  destruct (WhatsAppService.isDigit a); simpl; lia.
Qed.

Lemma replaceNonDigits_idem (s : string) :
  WhatsAppService.replaceNonDigits (WhatsAppService.replaceNonDigits s)
  = WhatsAppService.replaceNonDigits s.
Proof.
  induction s as [|a s IH]; [done|]. simpl.
  destruct (WhatsAppService.isDigit a) eqn:E; simpl; [|done].
  by rewrite E, IH.
Qed.

Lemma replaceNonDigits_app (s t : string) :
  WhatsAppService.replaceNonDigits (s +:+ t)
  = WhatsAppService.replaceNonDigits s +:+ WhatsAppService.replaceNonDigits t.
Proof.
  induction s as [|a s IH]; [done|]. simpl.
  destruct (WhatsAppService.isDigit a); simpl; by rewrite IH.
Qed.

Lemma length_append (s t : string) :
  String.length (s +:+ t) = (String.length s + String.length t)%nat.
Proof. induction s as [|a s IH]; simpl; [done|]. by rewrite IH. Qed.

(** X14.  formatPhoneNumber is idempotent, and its result never has
    exactly 10 characters: a number is given the country code at most
    once.  The result is made of digits, so cleaning it again changes
    nothing. *)
Theorem formatPhoneNumber_idempotent (phone : string) :
  WhatsAppService.formatPhoneNumber (WhatsAppService.formatPhoneNumber phone)
  = WhatsAppService.formatPhoneNumber phone
  /\ String.length (WhatsAppService.formatPhoneNumber phone) <> 10%nat
  /\ WhatsAppService.replaceNonDigits (WhatsAppService.formatPhoneNumber phone)
     = WhatsAppService.formatPhoneNumber phone.
Proof.
  assert (WhatsAppService.replaceNonDigits
            (WhatsAppService.formatPhoneNumber phone)
          = WhatsAppService.formatPhoneNumber phone) as Hclean.
  { unfold WhatsAppService.formatPhoneNumber.
    destruct (Nat.eqb_spec
                (String.length (WhatsAppService.replaceNonDigits phone)) 10).
    - rewrite replaceNonDigits_app, replaceNonDigits_idem. reflexivity.
    - apply replaceNonDigits_idem. }
  assert (String.length (WhatsAppService.formatPhoneNumber phone) <> 10%nat)
    as Hlen.
  { unfold WhatsAppService.formatPhoneNumber.
    destruct (Nat.eqb_spec
                (String.length (WhatsAppService.replaceNonDigits phone)) 10)
      as [E|E]; [|done].
    rewrite length_append, E. simpl. lia. }
  split; [|by split].
  unfold WhatsAppService.formatPhoneNumber at 1. rewrite Hclean.
  by destruct (Nat.eqb_spec
                 (String.length (WhatsAppService.formatPhoneNumber phone)) 10).
Qed.

(** * Properties of the notification controller *)

Section Indexed.

Context {A : Type}.
Implicit Types (l : list A) (i k : nat).

Lemma indexed_lookup i l k :
  indexed i l !! k = (fun x => ((i + k)%nat, x)) <$> l !! k.
Proof.
  revert i k. induction l as [|a l IH]; intros i [|k]; simpl; try done.
  - by rewrite Nat.add_0_r.
  - rewrite IH. by rewrite Nat.add_succ_r.
Qed.

Lemma indexed_length i l : length (indexed i l) = length l.
Proof. revert i. induction l as [|a l IH]; intros i; simpl; [done|]. by rewrite IH. Qed.

Lemma indexed_elem i l k x :
  (k, x) ∈ indexed i l <-> (i <= k)%nat /\ l !! (k - i)%nat = Some x.
Proof.
  revert i. induction l as [|a l IH]; intros i; simpl.
  - split; [intros H; inversion H|by intros [_ ?]].
  - rewrite elem_of_cons, IH. split.
    + intros [[= -> ->]|[Hle Hl]].
      * split; [lia|]. by rewrite Nat.sub_diag.
      * split; [lia|]. by replace (k - i)%nat with (S (k - S i)) by lia.
    + intros [Hle Hl]. destruct (decide (k = i)) as [->|Hne].
      * left. rewrite Nat.sub_diag in Hl. simpl in Hl. congruence.
      * right. split; [lia|].
        by replace (k - i)%nat with (S (k - S i)) in Hl by lia.
Qed.

Lemma indexed_map_snd i l : map snd (indexed i l) = l.
Proof. revert i. induction l as [|a l IH]; intros i; simpl; [done|]. by rewrite IH. Qed.

End Indexed.

Lemma selected_elem f l (i : nat) n :
  (i, n) ∈ selected f l <-> l !! i = Some n /\ matches f i n = true.
Proof.
  unfold selected. rewrite list_elem_of_In, List.filter_In.
  rewrite <- list_elem_of_In, indexed_elem, Nat.sub_0_r. simpl.
  split; [intros [[_ ?] ?]|intros [? ?]; split; [split; [lia|]|]]; done.
Qed.

Lemma selected_nil f l :
  selected f l = []
  <-> forall (i : nat) n, l !! i = Some n -> matches f i n = false.
Proof.
  split.
  - intros E i n Hi. destruct (matches f i n) eqn:Hm; [|done].
    assert ((i, n) ∈ selected f l) as H by (by apply selected_elem).
    rewrite E in H. inversion H.
  - intros H. destruct (selected f l) as [|[i n] t] eqn:E; [done|].
    assert ((i, n) ∈ selected f l) as Hin by (rewrite E; left).
    apply selected_elem in Hin as [Hi Hm]. rewrite (H i n Hi) in Hm.
    discriminate.
Qed.

(** The documents updateMany leaves. *)
Lemma updateMany_lookup f u (l : list Notification.t) (i : nat) :
  map (fun d : nat * Notification.t =>
         if matches f d.1 d.2 then u d.2 else d.2) (indexed 0 l) !! i
  = (fun n => if matches f i n then u n else n) <$> l !! i.
Proof.
  rewrite list_lookup_fmap, indexed_lookup.
  destruct (l !! i) as [n|]; reflexivity.
Qed.

Lemma matches_markRead_unread f i t n :
  f_isRead f = Some false -> matches f i (markRead t n) = false.
Proof.
  intros H. unfold matches. rewrite H. simpl.
  by rewrite andb_false_r.
Qed.

Lemma matches_unread_true f i n :
  f_isRead f = Some false -> matches f i n = true ->
  Notification.isRead n = false.
Proof.
  intros H. unfold matches. rewrite H. simpl.
  destruct (Notification.isRead n); [|done].
  by rewrite andb_false_r.
Qed.

Lemma getUnreadCount_eq req db a :
  n_user req = Some a ->
  getUnreadCount req db
  = (db, mkNResponse 200
           (Count (length (selected (unreadFilter a) (notifications db))))).
Proof.
  intros H. unfold getUnreadCount, try_catch_n, bind, ret,
    Notification_countDocuments, unreadFilter.
  rewrite H. by destruct (isSalesman a).
Qed.

Lemma markAllAsRead_eq req now db a :
  n_user req = Some a ->
  markAllAsRead req now db
  = (set_notifications
       (map (fun d : nat * Notification.t =>
               if matches (unreadFilter a) d.1 d.2
               then markRead now d.2 else d.2)
          (indexed 0 (notifications db))) db,
     mkNResponse 200 (Message "All notifications marked as read")).
Proof.
  intros H. unfold markAllAsRead, try_catch_n, bind, ret,
    Notification_updateMany, unreadFilter.
  rewrite H. by destruct (isSalesman a).
Qed.

Lemma unreadFilter_isRead a : f_isRead (unreadFilter a) = Some false.
Proof. unfold unreadFilter. by destruct (isSalesman a). Qed.

Lemma matches_unreadFilter a i n :
  matches (unreadFilter a) i n
  = negb (Notification.isRead n)
    && (if isSalesman a
        then (Account._id a =? Notification.salesman n)%nat else true).
Proof.
  unfold unreadFilter, matches.
  destruct (isSalesman a), (Notification.isRead n); simpl;
    try done; by rewrite ?andb_true_r.
Qed.

Lemma sameAudit_refl n : sameAudit n n.
Proof. by repeat split. Qed.

Lemma sameAudit_trans n1 n2 n3 :
  sameAudit n1 n2 -> sameAudit n2 n3 -> sameAudit n1 n3.
Proof.
  unfold sameAudit.
  intros (A1 & A2 & A3 & A4 & A5 & A6 & A7 & A8 & A9 & A10 & A11)
    (B1 & B2 & B3 & B4 & B5 & B6 & B7 & B8 & B9 & B10 & B11).
  repeat split; congruence.
Qed.

Lemma markRead_markedAt t n : markedAt t n (markRead t n).
Proof. by repeat split. Qed.

(** X15.  After markAllAsRead the unread count of the user who asked is
    0.  Asked by a user who is not a salesman, it leaves nothing unread
    for anyone; asked by a salesman, it leaves the documents of the other
    salesmen as they are.  The unread documents the user may see are
    marked as read at the time of the request, and nothing else of them
    changes; the documents already read are left as they are. *)
Theorem mark_all_then_count (req : NRequest) (now : Date) (a : Account.t)
  (db : DB) :
  n_user req = Some a ->
  (forall req',
     n_user req' = Some a ->
     (getUnreadCount req' (markAllAsRead req now db).1).2
     = mkNResponse 200 (Count 0))
  /\ (isSalesman a = false ->
      forall req' b,
        n_user req' = Some b ->
        (getUnreadCount req' (markAllAsRead req now db).1).2
        = mkNResponse 200 (Count 0))
  /\ (isSalesman a = true ->
      forall (i : nat) n,
        notifications db !! i = Some n ->
        Notification.salesman n <> Account._id a ->
        notifications (markAllAsRead req now db).1 !! i = Some n)
  /\ (forall (i : nat) n,
        notifications db !! i = Some n ->
        (Notification.isRead n = true ->
         notifications (markAllAsRead req now db).1 !! i = Some n)
        /\ (Notification.isRead n = false -> maySee a n ->
            exists n',
              notifications (markAllAsRead req now db).1 !! i = Some n'
              /\ markedAt now n n')).
Proof.
  intros Ha. rewrite (markAllAsRead_eq _ _ _ _ Ha). simpl.
  assert (forall b,
            (isSalesman a = false \/ b = a) ->
            selected (unreadFilter b)
              (map (fun d : nat * Notification.t =>
                      if matches (unreadFilter a) d.1 d.2
                      then markRead now d.2 else d.2)
                 (indexed 0 (notifications db))) = []) as Hnone.
  { intros b Hb. apply selected_nil. intros i n' Hi.
    rewrite updateMany_lookup in Hi.
    destruct (notifications db !! i) as [n|] eqn:E; [|discriminate].
    simpl in Hi. injection Hi as <-.
    destruct (matches (unreadFilter a) i n) eqn:Hm.
    - apply matches_markRead_unread, unreadFilter_isRead.
    - rewrite matches_unreadFilter in *.
      destruct (Notification.isRead n); [done|]. simpl in *.
      destruct Hb as [Hb| ->]; [by rewrite Hb in Hm|done]. }
  split; [|split; [|split]].
  - intros req' Hr. rewrite (getUnreadCount_eq _ _ _ Hr). simpl.
    rewrite Hnone; [done|by right].
  - intros Hs req' b Hr. rewrite (getUnreadCount_eq _ _ _ Hr). simpl.
    rewrite Hnone; [done|by left].
  - intros Hs i n Hi Hne. rewrite updateMany_lookup, Hi. simpl.
    rewrite matches_unreadFilter, Hs.
    destruct (Nat.eqb_spec (Account._id a) (Notification.salesman n));
      [congruence|]. by rewrite andb_false_r.
  - intros i n Hi. rewrite updateMany_lookup, Hi. simpl.
    rewrite matches_unreadFilter. split.
    + by intros ->.
    + intros -> Hsee. simpl. unfold maySee in Hsee.
      destruct (isSalesman a).
      * rewrite Hsee by done. rewrite Nat.eqb_refl.
        eexists. split; [done|apply markRead_markedAt].
      * eexists. split; [done|apply markRead_markedAt].
Qed.

(** Ravi marks all as read at 5000: his count is 0, his document at 0 is
    marked, and Mira's document is as it was. *)
Lemma mark_all_then_count_witness :
  (getUnreadCount (ExN.request ExN.ravi 0%nat)
     (markAllAsRead (ExN.request ExN.ravi 0%nat) 5000 ExN.db).1).2
  = mkNResponse 200 (Count 0)
  /\ notifications (markAllAsRead (ExN.request ExN.ravi 0%nat) 5000 ExN.db).1
       !! 1%nat = Some (ExN.note 8%nat false)
  /\ exists n',
       notifications (markAllAsRead (ExN.request ExN.ravi 0%nat) 5000
                        ExN.db).1 !! 0%nat = Some n'
       /\ markedAt 5000 (ExN.note 7%nat false) n'.
Proof.
  destruct (mark_all_then_count (ExN.request ExN.ravi 0%nat) 5000 ExN.ravi
              ExN.db eq_refl) as (H1 & _ & H3 & H4).
  split; [|split].
  - apply H1. reflexivity.
  - apply H3; [reflexivity|reflexivity|]. vm_compute. discriminate.
  - apply (proj2 (H4 0%nat (ExN.note 7%nat false) eq_refl));
      [reflexivity|intros _; reflexivity].
Defined.

(** A query with [_id] set selects the document at that position, if it
    matches, and nothing else. *)
Lemma filter_indexed_id f (id k : nat) (l : list Notification.t) :
  f_id f = Some id ->
  List.filter (fun d : nat * Notification.t => matches f d.1 d.2)
    (indexed k l)
  = match l !! (id - k)%nat with
    | Some n => if (k <=? id)%nat && matches f id n then [(id, n)] else []
    | None => []
    end.
Proof.
  intros Hid. revert k. induction l as [|a l IH]; intros k; [done|].
  simpl. rewrite IH.
  assert (forall n, k <> id -> matches f k n = false) as Hother.
  { intros n Hne. unfold matches. rewrite Hid. simpl.
    by destruct (Nat.eqb_spec id k); [congruence|]. }
  destruct (decide (k = id)) as [->|Hne].
  - assert ((S id <=? id)%nat = false) as -> by (apply Nat.leb_gt; lia).
    rewrite Nat.sub_diag, Nat.leb_refl.
    replace (id - S id)%nat with 0%nat by lia.
    cbn [lookup list_lookup andb].
    destruct (matches f id a); by destruct (l !! 0%nat).
  - rewrite (Hother a Hne).
    destruct (Nat.leb_spec k id) as [Hle|Hgt].
    + assert ((S k <=? id)%nat = true) as -> by (apply Nat.leb_le; lia).
      by replace (id - k)%nat with (S (id - S k)) by lia.
    + assert ((S k <=? id)%nat = false) as -> by (apply Nat.leb_gt; lia).
      replace (id - S k)%nat with 0%nat by lia.
      replace (id - k)%nat with 0%nat by lia.
      cbn [lookup list_lookup andb].
      by destruct (l !! 0%nat).
Qed.

Lemma selected_id f (id : nat) (l : list Notification.t) :
  f_id f = Some id ->
  selected f l
  = match l !! id with
    | Some n => if matches f id n then [(id, n)] else []
    | None => []
    end.
Proof.
  intros H. pose proof (filter_indexed_id f id 0 l H) as E.
  rewrite Nat.sub_0_r in E. exact E.
Qed.

Lemma markAsRead_eq req now db a (id : nat) :
  n_user req = Some a -> n_id req = Id id ->
  markAsRead req now db
  = match notifications db !! id with
    | Some n =>
        if negb (isSalesman a)
           || (Account._id a =? Notification.salesman n)%nat
        then (set_notifications
                (<[id := markRead now n]> (notifications db)) db,
              mkNResponse 200
                (Marked "Notification marked as read" id (markRead now n)))
        else (db, mkNResponse 404 (Message "Notification not found"))
    | None => (db, mkNResponse 404 (Message "Notification not found"))
    end.
Proof.
  intros H Hid. unfold markAsRead, try_catch_n, bind, ret, castObjectId,
    Notification_findOneAndUpdate. rewrite H, Hid.
  destruct (isSalesman a); simpl.
  - rewrite (selected_id _ id) by done.
    destruct (notifications db !! id) as [n|]; [|done].
    unfold matches. simpl. rewrite Nat.eqb_refl. simpl.
    rewrite !andb_true_r. by destruct (_ =? _)%nat.
  - rewrite (selected_id _ id) by done.
    destruct (notifications db !! id) as [n|]; [|done].
    unfold matches. simpl. by rewrite Nat.eqb_refl.
Qed.

Lemma markAsRead_malformed req now db a text :
  n_user req = Some a -> n_id req = NotAnId text ->
  markAsRead req now db = (db, mkNResponse 500 (Message "Server error")).
Proof.
  intros H Hid. unfold markAsRead, try_catch_n, bind, castObjectId, throw.
  by rewrite H, Hid.
Qed.

(** X16.  markAsRead marks the document with the given id, and only it,
    and answers with it: the document is read, its [updatedAt] is the time
    of the request, and nothing else of it changes.  A salesman can mark
    their own documents only.  For an id that holds no document, or the
    document of another salesman, the answer is 404 and nothing is
    written: the two cases cannot be told apart.  For an [:id] that
    writes no id the query throws, and the answer is 500. *)
Theorem mark_as_read_scope (req : NRequest) (now : Date) (a : Account.t)
  (db : DB) :
  n_user req = Some a ->
  (forall (id : nat) n,
     n_id req = Id id ->
     notifications db !! id = Some n ->
     maySee a n ->
     exists n',
       markAsRead req now db
       = (set_notifications (<[id := n']> (notifications db)) db,
          mkNResponse 200 (Marked "Notification marked as read" id n'))
       /\ markedAt now n n'
       /\ notifications (markAsRead req now db).1 !! id = Some n'
       /\ forall j : nat,
            j <> id ->
            notifications (markAsRead req now db).1 !! j
            = notifications db !! j)
  /\ (forall id : nat,
        n_id req = Id id ->
        notifications db !! id = None
        \/ (exists n,
              notifications db !! id = Some n
              /\ isSalesman a = true
              /\ Notification.salesman n <> Account._id a) ->
        markAsRead req now db
        = (db, mkNResponse 404 (Message "Notification not found")))
  /\ (forall text,
        n_id req = NotAnId text ->
        markAsRead req now db
        = (db, mkNResponse 500 (Message "Server error"))).
Proof.
  intros Ha. split; [|split].
  - intros id n Hid Hn Hsee. rewrite (markAsRead_eq _ _ _ _ _ Ha Hid), Hn.
    assert (negb (isSalesman a)
            || (Account._id a =? Notification.salesman n)%nat = true) as ->.
    { unfold maySee in Hsee. destruct (isSalesman a); [|done]. simpl.
      apply Nat.eqb_eq. symmetry. by apply Hsee. }
    exists (markRead now n). split; [done|].
    split; [apply markRead_markedAt|]. simpl. split.
    + apply list_lookup_insert_eq. by eapply lookup_lt_Some.
    + intros j Hj. by apply list_lookup_insert_ne.
  - intros id Hid H. rewrite (markAsRead_eq _ _ _ _ _ Ha Hid).
    destruct H as [->|(n & -> & Hs & Hne)]; [done|]. rewrite Hs. simpl.
    by destruct (Nat.eqb_spec (Account._id a) (Notification.salesman n));
      [congruence|].
  - intros text Hid. by eapply markAsRead_malformed.
Qed.

(** Ravi marks his document at 2; Mira's at 1 is not his to mark; and
    [abc] is no id. *)
Lemma mark_as_read_scope_witness :
  (exists n',
     notifications (markAsRead (ExN.request ExN.ravi 2%nat) 5000 ExN.db).1
       !! 2%nat = Some n'
     /\ markedAt 5000 (ExN.note 7%nat false) n')
  /\ markAsRead (ExN.request ExN.ravi 1%nat) 5000 ExN.db
     = (ExN.db, mkNResponse 404 (Message "Notification not found"))
  /\ markAsRead (mkNRequest (Some ExN.ravi) (NotAnId "abc")) 5000 ExN.db
     = (ExN.db, mkNResponse 500 (Message "Server error")).
Proof.
  split; [|split].
  - destruct (proj1 (mark_as_read_scope (ExN.request ExN.ravi 2%nat) 5000
                       ExN.ravi ExN.db eq_refl) 2%nat (ExN.note 7%nat false))
      as (n' & _ & H1 & H2 & _);
      [reflexivity|reflexivity|intros _; reflexivity|].
    exists n'. split; [exact H2|exact H1].
  - apply (proj1 (proj2 (mark_as_read_scope (ExN.request ExN.ravi 1%nat) 5000
                           ExN.ravi ExN.db eq_refl)) 1%nat eq_refl).
    right. exists (ExN.note 8%nat false).
    split; [reflexivity|]. split; [reflexivity|]. vm_compute. discriminate.
  - apply (proj2 (proj2 (mark_as_read_scope
                           (mkNRequest (Some ExN.ravi) (NotAnId "abc")) 5000
                           ExN.ravi ExN.db eq_refl)) "abc" eq_refl).
Defined.

Lemma no_user_no_service op db :
  match op with
  | GetUnreadCount req | MarkAsRead req _ | MarkAllAsRead req _ => n_user req
  end = None ->
  nstep op db = (db, mkNResponse 500 (Message "Server error")).
Proof.
  destruct op as [req|req now|req now]; simpl; intros H;
    unfold getUnreadCount, markAsRead, markAllAsRead,
      try_catch_n, throw; by rewrite H.
Qed.

(** What one request to the notification controller leaves of the
    database: a document is as it was, or marked as read at the time of
    the request. *)
Lemma nstep_frame op db :
  clients (nstep op db).1 = clients db
  /\ otps (nstep op db).1 = otps db
  /\ length (notifications (nstep op db).1) = length (notifications db)
  /\ forall (i : nat) n,
       notifications db !! i = Some n ->
       exists n',
         notifications (nstep op db).1 !! i = Some n'
         /\ (n' = n
             \/ exists t, markTime (ToNotifications op) = Some t
                          /\ n' = markRead t n).
Proof.
  assert (forall d : DB,
            clients d = clients d /\ otps d = otps d
            /\ length (notifications d) = length (notifications d)
            /\ forall (i : nat) n,
                 notifications d !! i = Some n ->
                 exists n',
                   notifications d !! i = Some n'
                   /\ (n' = n
                       \/ exists t, markTime (ToNotifications op) = Some t
                                    /\ n' = markRead t n))
    as Hsame.
  { intros d. repeat split; try done. intros i n Hi. exists n.
    split; [done|by left]. }
  destruct op as [req|req now|req now]; simpl.
  - destruct (n_user req) as [a|] eqn:Ha.
    + rewrite (getUnreadCount_eq _ _ _ Ha). apply Hsame.
    + pose proof (no_user_no_service (GetUnreadCount req) db Ha) as E.
      simpl in E. rewrite E. apply Hsame.
  - destruct (n_user req) as [a|] eqn:Ha.
    + destruct (n_id req) as [id|text] eqn:Hid.
      * rewrite (markAsRead_eq _ _ _ _ _ Ha Hid).
        destruct (notifications db !! (id : nat)) as [n|] eqn:E;
          [|apply Hsame].
        destruct (_ || _); [|apply Hsame]. simpl.
        split; [done|]. split; [done|]. split; [apply length_insert|].
        intros i m Hi. destruct (decide (i = id)) as [->|Hne].
        -- rewrite list_lookup_insert_eq by (by eapply lookup_lt_Some).
           exists (markRead now n). split; [done|]. right. exists now.
           split; [done|congruence].
        -- rewrite list_lookup_insert_ne by done. exists m.
           split; [done|by left].
      * rewrite (markAsRead_malformed _ _ _ _ _ Ha Hid). apply Hsame.
    + pose proof (no_user_no_service (MarkAsRead req now) db Ha) as E.
      simpl in E. rewrite E. apply Hsame.
  - destruct (n_user req) as [a|] eqn:Ha.
    + rewrite (markAllAsRead_eq _ _ _ _ Ha). simpl.
      split; [done|]. split; [done|].
      split; [by rewrite length_map, indexed_length|].
      intros i n Hi. rewrite updateMany_lookup, Hi. simpl.
      eexists; split; [done|].
      destruct (matches _ _ _); [right; by exists now|by left].
    + pose proof (no_user_no_service (MarkAllAsRead req now) db Ha) as E.
      simpl in E. rewrite E. apply Hsame.
Qed.

Lemma anystep_notification op db (i : nat) n :
  notifications db !! i = Some n ->
  exists n',
    notifications (anystep op db) !! i = Some n'
    /\ (n' = n \/ exists t, markTime op = Some t /\ n' = markRead t n).
Proof.
  intros Hi. destruct op as [o|o]; simpl.
  - exists n. split; [|by left].
    destruct (step_notifications o db) as [->|(m & r & -> & _)]; [done|].
    rewrite lookup_app_l; [done|]. by eapply lookup_lt_Some.
  - by apply nstep_frame.
Qed.

Lemma run_notification ops db (i : nat) n :
  notifications db !! i = Some n ->
  exists n', notifications (runAll ops db) !! i = Some n' /\ readLater ops n n'.
Proof.
  revert db n. induction ops as [|op ops IH]; intros db n Hi.
  - exists n. split; [done|]. split; [apply sameAudit_refl|]. split; [done|].
    by left.
  - simpl. destruct (anystep_notification op db i n Hi) as (n1 & H1 & L1).
    destruct (IH _ _ H1) as (n2 & H2 & S2 & R2 & P2).
    exists n2. split; [done|].
    destruct L1 as [->|(t & Ht & ->)].
    + split; [done|]. split; [done|].
      destruct P2 as [->|[Hr Hin]]; [by left|right].
      split; [done|]. simpl. by right.
    + split; [|split].
      * eapply sameAudit_trans; [|exact S2]. apply markRead_markedAt.
      * intros _. by apply R2.
      * right. destruct P2 as [->|[Hr Hin]].
        -- split; [done|]. simpl. rewrite Ht. by left.
        -- split; [done|]. simpl. by right.
Qed.

(** X17.  An audit document is never rewritten, only read.  Through any
    sequence of requests to the OTP controller and to getUnreadCount,
    markAsRead and markAllAsRead, a document stays at its position with
    every path as it was written but [isRead], which can only become
    true, and [updatedAt]; and where the document has changed at all it is
    read and its [updatedAt] is the time of one of the requests that mark.
    These three handlers write neither OTP documents nor clients. *)
Theorem audit_documents_only_get_read (ops : list AnyOp) (db : DB) :
  (forall (i : nat) n,
     notifications db !! i = Some n ->
     exists n',
       notifications (runAll ops db) !! i = Some n'
       /\ readLater ops n n')
  /\ forall op,
       clients (nstep op db).1 = clients db
       /\ otps (nstep op db).1 = otps db.
Proof.
  split.
  - intros i n. apply run_notification.
  - intros op. destruct (nstep_frame op db) as (? & ? & _). by split.
Qed.

(** Mira's document through a markAllAsRead of Ravi, an issue, and a
    markAsRead of the administrator. *)
Lemma audit_documents_only_get_read_witness :
  exists n',
    notifications
      (runAll [ToNotifications
                 (MarkAllAsRead (ExN.request ExN.ravi 0%nat) 5000);
               ToOtp (Send (Ex.request 1%nat "" (Some Ex.ravi)) 6000 "123456");
               ToNotifications
                 (MarkAsRead (ExN.request ExN.admin 1%nat) 7000)]
         ExN.db) !! 1%nat = Some n'
    /\ readLater
         [ToNotifications (MarkAllAsRead (ExN.request ExN.ravi 0%nat) 5000);
          ToOtp (Send (Ex.request 1%nat "" (Some Ex.ravi)) 6000 "123456");
          ToNotifications (MarkAsRead (ExN.request ExN.admin 1%nat) 7000)]
         (ExN.note 8%nat false) n'.
Proof.
  apply (proj1 (audit_documents_only_get_read
                  [ToNotifications
                     (MarkAllAsRead (ExN.request ExN.ravi 0%nat) 5000);
                   ToOtp (Send (Ex.request 1%nat "" (Some Ex.ravi)) 6000
                            "123456");
                   ToNotifications
                     (MarkAsRead (ExN.request ExN.admin 1%nat) 7000)]
                  ExN.db) 1%nat (ExN.note 8%nat false)).
  reflexivity.
Defined.

Lemma indexed_app {A} (i : nat) (l1 l2 : list A) :
  indexed i (l1 ++ l2)%list
  = (indexed i l1 ++ indexed (i + length l1) l2)%list.
Proof.
  revert i. induction l1 as [|a l1 IH]; intros i; simpl.
  - by rewrite Nat.add_0_r.
  - rewrite IH. by rewrite Nat.add_succ_r.
Qed.

Lemma selected_snoc f l n :
  selected f (l ++ [n])%list
  = (selected f l
     ++ if matches f (length l) n then [(length l, n)] else [])%list.
Proof.
  unfold selected. rewrite indexed_app, List.filter_app. simpl.
  by destruct (matches f (length l) n).
Qed.

Lemma step_audit op db u :
  issues op = true -> status (step op db).2 = 200 ->
  user (reqOf op) = Some u ->
  exists n,
    notifications (step op db).1 = (notifications db ++ [n])%list
    /\ Notification.salesman n = User._id u
    /\ Notification.isRead n = false.
Proof.
  destruct op as [req now g|req now|req now g|req now]; try discriminate;
    intros _ H Hu; simpl in *.
  - destruct (sendOTP_200 _ _ _ _ H) as (cl & p & He & Hc).
    rewrite (sendOTP_proceeds _ _ _ _ _ _ He Hc) in *.
    eexists. split; [by apply issueOutcome_audit|done].
  - destruct (resendOTP_200 _ _ _ _ H) as (cl & p & He & Hc & Hw).
    rewrite (resendOTP_proceeds _ _ _ _ _ _ He Hc Hw) in *.
    eexists. split; [by apply issueOutcome_audit|done].
Qed.

(** X18.  An issue shows in the unread counts.  After a sendOTP or
    resendOTP that answered 200 for a request carrying a user, the unread
    count is one more than before for that salesman and for every user
    who is not a salesman, and is unchanged for the other salesmen. *)
Theorem issue_raises_unread_count (op : Op) (db : DB) (u : User.t)
  (nreq : NRequest) (a : Account.t) :
  issues op = true ->
  status (step op db).2 = 200 ->
  user (reqOf op) = Some u ->
  n_user nreq = Some a ->
  exists k,
    (getUnreadCount nreq db).2 = mkNResponse 200 (Count k)
    /\ (getUnreadCount nreq (step op db).1).2
       = mkNResponse 200
           (Count (if isSalesman a
                      && negb (Account._id a =? User._id u)%nat
                   then k else S k)).
Proof.
  intros Hi H Hu Ha.
  destruct (step_audit op db u Hi H Hu) as (n & E & Hs & Hr).
  rewrite !(getUnreadCount_eq _ _ _ Ha). simpl.
  eexists. split; [done|]. f_equal. f_equal.
  rewrite E, selected_snoc, length_app, matches_unreadFilter, Hr, Hs. simpl.
  destruct (isSalesman a); simpl.
  - destruct (_ =? _)%nat; simpl; lia.
  - lia.
Qed.

(** Ravi issues a code: his count goes from 2 to 3, Mira's stays 1. *)
Lemma issue_raises_unread_count_witness :
  (getUnreadCount (ExN.request ExN.ravi 0%nat)
     (step (Send (Ex.request 1%nat "" (Some Ex.ravi)) 1000 "123456")
        ExN.db).1).2
  = mkNResponse 200 (Count 3)
  /\ (getUnreadCount (ExN.request ExN.mira 0%nat)
        (step (Send (Ex.request 1%nat "" (Some Ex.ravi)) 1000 "123456")
           ExN.db).1).2
     = mkNResponse 200 (Count 1).
Proof.
  split.
  - destruct (issue_raises_unread_count
                (Send (Ex.request 1%nat "" (Some Ex.ravi)) 1000 "123456")
                ExN.db Ex.ravi (ExN.request ExN.ravi 0%nat) ExN.ravi
                eq_refl eq_refl eq_refl eq_refl) as (k & H0 & H1).
    vm_compute in H0. injection H0 as <-. exact H1.
  - destruct (issue_raises_unread_count
                (Send (Ex.request 1%nat "" (Some Ex.ravi)) 1000 "123456")
                ExN.db Ex.ravi (ExN.request ExN.mira 0%nat) ExN.mira
                eq_refl eq_refl eq_refl eq_refl) as (k & H0 & H1).
    vm_compute in H0. injection H0 as <-. exact H1.
Defined.

(** ** getNotifications *)

Lemma insertByDate_Permutation d l : insertByDate d l ≡ₚ d :: l.
Proof.
  induction l as [|x l IH]; simpl; [done|].
  destruct (_ <? _); [done|]. rewrite IH. apply Permutation_swap.
Qed.

Lemma sortByDate_Permutation l : sortByDate l ≡ₚ l.
Proof.
  induction l as [|x l IH]; simpl; [done|].
  by rewrite insertByDate_Permutation, IH.
Qed.

Lemma insertByDate_byDate d l : byDate l -> byDate (insertByDate d l).
Proof.
  induction l as [|x l IH]; simpl; [by intros _; split|].
  intros [Hx Hl].
  destruct (Z.ltb_spec (Notification.createdAt x.2)
              (Notification.createdAt d.2)) as [Hlt|Hge]; simpl.
  - split; [|by split]. constructor; [lia|].
    eapply Forall_impl; [exact Hx|]. intros y Hy. simpl in Hy. lia.
  - split; [|by apply IH].
    rewrite insertByDate_Permutation. by constructor.
Qed.

Lemma sortByDate_byDate l : byDate (sortByDate l).
Proof.
  induction l as [|x l IH]; simpl; [done|]. by apply insertByDate_byDate.
Qed.

Lemma byDate_drop k l : byDate l -> byDate (drop k l).
Proof.
  revert k. induction l as [|x l IH]; intros [|k]; simpl; try done.
  intros [_ Hl]. by apply IH.
Qed.

Lemma byDate_take k l : byDate l -> byDate (take k l).
Proof.
  revert k. induction l as [|x l IH]; intros [|k]; simpl; try done.
  intros [Hx Hl]. split; [by apply Forall_take|by apply IH].
Qed.

Lemma getNotifications_eq req db a page limit :
  q_user req = Some a ->
  paging (q_page req) (q_limit req) = Some (page, limit) ->
  getNotifications req db
  = Some
      (db,
       if refused a req then mkNResponse 500 (Message "Server error")
       else
         let found := selected (pageFilter a req) (notifications db) in
         mkNResponse 200
           (Page (take (N.to_nat limit)
                    (drop ((N.to_nat page - 1) * N.to_nat limit)
                       (sortByDate found)))
              (Math_ceil_div (Z.of_nat (length found)) (Z.of_N limit))
              (Z.of_N page) (Z.of_nat (length found)))).
Proof.
  intros Hu Hp. unfold getNotifications. rewrite Hu, Hp.
  unfold try_catch_n, bind, ret, throw, castObjectId, refused, malformed,
    pageFilter, idOf, Notification_find_page, Notification_countDocuments.
  destruct (isSalesman a), (q_salesmanId req) as [[s|[|c1 t1]]|],
    (q_type req) as [[|c2 t2]|], (q_clientId req) as [[c|[|c3 t3]]|];
    reflexivity.
Qed.

Lemma matches_pageFilter a req (i : nat) n :
  matches (pageFilter a req) i n = true ->
  maySee a n /\ asked req n
  /\ (isSalesman a = false ->
      forall s, q_salesmanId req = Some (Id s) -> Notification.salesman n = s).
Proof.
  unfold matches, pageFilter, maySee, asked. simpl.
  rewrite !andb_true_iff. intros ((Hs & Ht) & Hc).
  split; [|split; [split|]].
  - intros E. rewrite E in Hs. simpl in Hs. symmetry. by apply Nat.eqb_eq.
  - intros t E Hne. rewrite E in Ht. destruct t as [|c t]; [done|].
    simpl in Ht. symmetry. by apply String.eqb_eq.
  - intros c E. rewrite E in Hc. simpl in Hc. symmetry. by apply Nat.eqb_eq.
  - intros E s Es. rewrite E, Es in Hs. simpl in Hs. symmetry.
    by apply Nat.eqb_eq.
Qed.

Lemma paging_bounds page limit p l :
  paging page limit = Some (p, l) -> (1 <= p)%N /\ (1 <= l)%N.
Proof.
  unfold paging.
  destruct (match page with Some s => decimal s | None => Some 1%N end)
    as [p'|]; [|done].
  destruct (match limit with Some s => decimal s | None => Some 50%N end)
    as [l'|]; [|done].
  destruct (N.leb_spec 1 p'), (N.leb_spec 1 l'); simpl; try done.
  destruct (_ <? _)%N; [|done]. by intros [= <- <-].
Qed.

(** X19.  getNotifications, for a [page] and a [limit] written in decimal
    digits, at least 1 and of a product below 2^53 (by default 1 and 50).
    It writes nothing.  Without [req.user] it answers 500.  Where the
    query names a client, or for a user who is not a salesman a salesman,
    by a string that is not empty and writes no id, it answers 500.
    Otherwise it answers one page: every document on it exists, is one
    the user may see (a salesman gets their own documents only, whatever
    [salesmanId] the query names) and is of the type and client the query
    asked for; later documents come first; [total] counts the documents
    that match, the page holds [limit] of them or what is left after the
    earlier pages, and [totalPages] is [total / limit] rounded up. *)
Theorem notifications_page (req : QRequest) (db : DB) :
  (q_user req = None ->
   getNotifications req db
   = Some (db, mkNResponse 500 (Message "Server error")))
  /\ (forall out, getNotifications req db = Some out -> out.1 = db)
  /\ forall a page limit,
       q_user req = Some a ->
       paging (q_page req) (q_limit req) = Some (page, limit) ->
       (refused a req = true ->
        getNotifications req db
        = Some (db, mkNResponse 500 (Message "Server error")))
       /\ (refused a req = false ->
           exists items totalPages total,
             getNotifications req db
             = Some (db, mkNResponse 200
                           (Page items totalPages (Z.of_N page)
                              (Z.of_nat total)))
             /\ total
                = length (selected (pageFilter a req) (notifications db))
             /\ (forall (i : nat) n,
                   (i, n) ∈ items ->
                   notifications db !! i = Some n
                   /\ maySee a n /\ asked req n
                   /\ (isSalesman a = false ->
                       forall s, q_salesmanId req = Some (Id s) ->
                                 Notification.salesman n = s))
             /\ byDate items
             /\ length items
                = Nat.min (N.to_nat limit)
                    (total - (N.to_nat page - 1) * N.to_nat limit)
             /\ Z.of_N limit * (totalPages - 1) < Z.of_nat total
                <= Z.of_N limit * totalPages).
Proof.
  split; [|split].
  - intros Hu. unfold getNotifications. by rewrite Hu.
  - intros out. destruct (q_user req) as [a|] eqn:Hu.
    + destruct (paging (q_page req) (q_limit req)) as [[page limit]|] eqn:Hp.
      * rewrite (getNotifications_eq _ _ _ _ _ Hu Hp). by intros [= <-].
      * unfold getNotifications. by rewrite Hu, Hp.
    + unfold getNotifications. rewrite Hu. by intros [= <-].
  - intros a page limit Hu Hp. rewrite (getNotifications_eq _ _ _ _ _ Hu Hp).
    split; [by intros ->|]. intros ->.
    eexists _, _, _. split; [reflexivity|]. split; [done|].
    split; [|split; [|split]].
    + intros i n Hin. apply elem_of_take in Hin as (k & Hk & _).
      rewrite lookup_drop in Hk.
      assert ((i, n) ∈ selected (pageFilter a req) (notifications db))
        as Hsel.
      { rewrite <- (sortByDate_Permutation (selected _ _)).
        apply list_elem_of_lookup. eauto. }
      apply selected_elem in Hsel as [Hi Hm].
      split; [done|]. by apply matches_pageFilter in Hm.
    + apply byDate_take, byDate_drop, sortByDate_byDate.
    + rewrite length_take, length_drop.
      by rewrite (Permutation_length (sortByDate_Permutation _)).
    + apply Math_ceil_div_spec. destruct (paging_bounds _ _ _ _ Hp). lia.
Qed.

(** Ravi asks for the first page of one document, naming Mira. *)
Lemma notifications_page_witness :
  exists items totalPages total,
    getNotifications
      (mkQRequest (Some ExN.ravi) None (Some (Id 8%nat)) None (Some "1")
         (Some "1")) ExN.db
    = Some (ExN.db,
            mkNResponse 200 (Page items totalPages 1 (Z.of_nat total)))
    /\ total = 2%nat
    /\ length items = 1%nat
    /\ forall (i : nat) n, (i, n) ∈ items -> maySee ExN.ravi n.
Proof.
  destruct (proj2 (proj2 (notifications_page
              (mkQRequest (Some ExN.ravi) None (Some (Id 8%nat)) None
                 (Some "1") (Some "1")) ExN.db)) ExN.ravi 1%N 1%N eq_refl
              eq_refl) as (_ & H).
  destruct (H eq_refl) as (items & tp & total & E & Ht & Hitems & _ & Hlen & _).
  exists items, tp, total. split; [exact E|].
  assert (total = 2%nat) as Ht' by (rewrite Ht; vm_compute; reflexivity).
  split; [exact Ht'|]. split.
  - rewrite Hlen, Ht'. reflexivity.
  - intros i n Hin. by destruct (Hitems i n Hin) as (_ & ? & _).
Defined.

(** * Properties of the authentication middleware *)

(** X20.  The two role gates are [auth] followed by the check of the
    role: they pass on the user [auth] passes on if the role is theirs,
    answer 403 if it is not, and answer as [auth] does when it denies.
    No request passes both. *)
Theorem role_gates_refine_auth (env : AuthEnv) (h : option string) :
  adminAuth env h
  = match auth env h with
    | Next a =>
        if String.eqb (Account.role a) "admin" then Next a
        else Denied 403 "Access denied. Admin role required."
    | d => d
    end
  /\ salesmanAuth env h
     = match auth env h with
       | Next a =>
           if String.eqb (Account.role a) "salesman" then Next a
           else Denied 403 "Access denied. Salesman role required."
       | d => d
       end
  /\ forall a b, adminAuth env h = Next a -> salesmanAuth env h <> Next b.
Proof.
  assert (adminAuth env h
          = match auth env h with
            | Next a =>
                if String.eqb (Account.role a) "admin" then Next a
                else Denied 403 "Access denied. Admin role required."
            | d => d
            end) as HA.
  { unfold adminAuth, auth. destruct (_ <$> h) as [[|c t]|]; try done.
    destruct (jwt_verify env _) as [uid|]; [|done].
    destruct (uid ≫= _) as [a|]; [|done].
    destruct (Account.isActive a); simpl; [|done].
    by destruct (String.eqb _ _). }
  assert (salesmanAuth env h
          = match auth env h with
            | Next a =>
                if String.eqb (Account.role a) "salesman" then Next a
                else Denied 403 "Access denied. Salesman role required."
            | d => d
            end) as HS.
  { unfold salesmanAuth, auth. destruct (_ <$> h) as [[|c t]|]; try done.
    destruct (jwt_verify env _) as [uid|]; [|done].
    destruct (uid ≫= _) as [a|]; [|done].
    destruct (Account.isActive a); simpl; [|done].
    by destruct (String.eqb _ _). }
  split; [done|]. split; [done|].
  intros a b. rewrite HA, HS. destruct (auth env h) as [x|st m]; [|done].
  destruct (String.eqb_spec (Account.role x) "admin") as [E|E]; [|done].
  rewrite E. simpl. discriminate.
Qed.

(** The administrator passes the gate of the administrators, so not the
    one of the salesmen. *)
Lemma role_gates_refine_auth_witness :
  salesmanAuth ExA.env (Some "Bearer ada.tok") <> Next ExN.admin.
Proof.
  apply (proj2 (proj2 (role_gates_refine_auth ExA.env
                         (Some "Bearer ada.tok"))) ExN.admin ExN.admin).
  vm_compute. reflexivity.
Defined.

Lemma auth_denies_401 (env : AuthEnv) (h : option string) st m :
  auth env h = Denied st m -> st = 401.
Proof.
  unfold auth. destruct (_ <$> h) as [[|c t]|]; try (by intros [= <- _]).
  destruct (jwt_verify env _) as [uid|]; [|by intros [= <- _]].
  destruct (uid ≫= _) as [a|]; [|by intros [= <- _]].
  destruct (Account.isActive a); simpl; [done|by intros [= <- _]].
Qed.

(** X21.  [auth] passes a request on exactly when its token, the header
    without its first "Bearer ", is not empty, verifies, and names a user
    that exists and is active; the user passed on is that one.  Every
    other request is answered 401. *)
Theorem auth_passes_active_users (env : AuthEnv) (h : option string) :
  (forall a,
     auth env h = Next a
     <-> exists header id,
           h = Some header
           /\ replaceFirst "Bearer " "" header <> ""
           /\ jwt_verify env (replaceFirst "Bearer " "" header)
              = Some (Some id)
           /\ users env !! id = Some a
           /\ Account.isActive a = true)
  /\ forall st m, auth env h = Denied st m -> st = 401.
Proof.
  split.
  - intros a. unfold auth. split.
    + destruct h as [header|]; simpl; [|done].
      destruct (replaceFirst "Bearer " "" header) as [|c t] eqn:Et; [done|].
      destruct (jwt_verify env _) as [[id|]|] eqn:Ev; simpl; try done.
      destruct (users env !! id) as [u|] eqn:Eu; simpl; [|done].
      destruct (Account.isActive u) eqn:Ea; simpl; [|done].
      intros [= <-]. exists header, id. rewrite Et. by repeat split.
    + intros (header & id & -> & Hne & Hv & Hu & Ha). simpl.
      destruct (replaceFirst "Bearer " "" header) as [|c t]; [done|].
      rewrite Hv. simpl. rewrite Hu. simpl. by rewrite Ha.
  - intros st m. apply auth_denies_401.
Qed.

Lemma prefix_skipn p s :
  String.prefix p s = true -> s = p +:+ skipn_string (String.length p) s.
Proof.
  revert s. induction p as [|a p IH]; intros s; [by destruct s|].
  destruct s as [|b s]; simpl; [discriminate|].
  destruct (ascii_dec a b) as [->|]; [|discriminate].
  intros H. change (String b s = String b (p +:+ skipn_string (String.length p) s)).
  f_equal. by apply IH.
Qed.

Lemma spaceless_no_bearer s :
  spaceless s -> replaceFirst "Bearer " "" s = s.
Proof.
  induction s as [|c s IH]; intros Hs; [done|].
  unfold replaceFirst; fold replaceFirst.
  destruct (String.prefix "Bearer " (String c s)) eqn:E.
  - apply prefix_skipn in E. rewrite E in Hs. unfold spaceless in Hs.
    simpl in Hs. do 6 (apply Forall_cons in Hs as [_ Hs]).
    apply Forall_cons in Hs as [Hs _]. done.
  - f_equal. apply IH. unfold spaceless in *. simpl in Hs.
    by apply Forall_cons in Hs as [_ Hs].
Qed.

(** X22.  The "Bearer " prefix is optional: a token without a space is
    treated alike whether the header is the token or "Bearer " and the
    token, by each of the three middlewares. *)
Theorem bearer_prefix_is_optional (env : AuthEnv) (token : string) :
  spaceless token ->
  replaceFirst "Bearer " "" ("Bearer " +:+ token) = token
  /\ auth env (Some ("Bearer " +:+ token)) = auth env (Some token)
  /\ adminAuth env (Some ("Bearer " +:+ token)) = adminAuth env (Some token)
  /\ salesmanAuth env (Some ("Bearer " +:+ token))
     = salesmanAuth env (Some token).
Proof.
  intros Hs.
  assert (replaceFirst "Bearer " "" ("Bearer " +:+ token) = token) as E1
    by (by destruct token).
  pose proof (spaceless_no_bearer token Hs) as E2.
  split; [done|].
  unfold auth, adminAuth, salesmanAuth. simpl option_fmap.
  cbn [fmap option_fmap option_map]. by rewrite E1, E2.
Qed.

(** Ravi's token, with the prefix. *)
Lemma auth_passes_active_users_witness :
  auth ExA.env (Some "Bearer ravi.tok") = Next ExN.ravi.
Proof.
  apply (proj1 (auth_passes_active_users ExA.env (Some "Bearer ravi.tok"))).
  exists "Bearer ravi.tok", 7%nat.
  split; [reflexivity|]. split; [vm_compute; discriminate|].
  split; [reflexivity|]. split; [vm_compute; reflexivity|reflexivity].
Defined.

Lemma bearer_prefix_is_optional_witness :
  auth ExA.env (Some "Bearer ravi.tok") = auth ExA.env (Some "ravi.tok").
Proof.
  apply (bearer_prefix_is_optional ExA.env "ravi.tok").
  unfold spaceless. simpl. repeat constructor; discriminate.
Defined.

(** * Properties of the routes *)

Lemma handler_with_user (now : Date)
  (handler : NRequest -> DB -> DB * NResponse)
  (a : Account.t) (id : IdString) (db : DB) :
  handler ∈ notificationRoutes now ->
  n_status (handler (mkNRequest (Some a) id) db).2 = 200
  \/ n_status (handler (mkNRequest (Some a) id) db).2 = 404
  \/ (n_status (handler (mkNRequest (Some a) id) db).2 = 500
      /\ (exists text, id = NotAnId text)
      /\ (handler (mkNRequest (Some a) id) db).1 = db).
Proof.
  unfold notificationRoutes. rewrite !elem_of_cons.
  intros [->|[->|[->|H]]]; [..|inversion H].
  - left. by rewrite (getUnreadCount_eq _ _ a).
  - cbv beta. destruct id as [id|text].
    + rewrite (markAsRead_eq _ _ _ a id) by done. simpl.
      destruct (notifications db !! (id : nat)) as [n|]; [|right; by left].
      destruct (_ || _); [by left|right; by left].
    + right; right. rewrite (markAsRead_malformed _ _ _ a text) by done.
      simpl. eauto.
  - cbv beta. left. by rewrite (markAllAsRead_eq _ _ _ a).
Qed.

(** X23.  Behind [auth], the handlers of getUnreadCount, markAsRead and
    markAllAsRead always find [req.user].  A request [auth] denies is
    answered 401 and nothing is written.  A request it passes on is
    answered 200 or 404, or 500 with nothing written when the [:id] of
    the path writes no id: no validator stands before markAsRead.  The
    two routes without [:id] never answer 500.  Without [auth] in front,
    each handler answers 500 to a request without user. *)
Theorem routes_need_a_user (env : AuthEnv) (h : option string) (now : Date)
  (handler : NRequest -> DB -> DB * NResponse) (id : IdString) (db : DB) :
  handler ∈ notificationRoutes now ->
  (forall a,
     auth env h = Next a ->
     route env h handler id db = handler (mkNRequest (Some a) id) db
     /\ (n_status (route env h handler id db).2 = 200
         \/ n_status (route env h handler id db).2 = 404
         \/ (n_status (route env h handler id db).2 = 500
             /\ (exists text, id = NotAnId text)
             /\ (route env h handler id db).1 = db)))
  /\ (forall st m,
        auth env h = Denied st m ->
        route env h handler id db = (db, mkNResponse 401 (Message m)))
  /\ (forall i, id = Id i -> n_status (route env h handler id db).2 <> 500)
  /\ n_status (route env h getUnreadCount id db).2 <> 500
  /\ n_status (route env h (fun req => markAllAsRead req now) id db).2 <> 500
  /\ handler (mkNRequest None id) db
     = (db, mkNResponse 500 (Message "Server error")).
Proof.
  intros Hin.
  assert (forall (hd : NRequest -> DB -> DB * NResponse) a,
            hd ∈ notificationRoutes now ->
            auth env h = Next a ->
            route env h hd id db = hd (mkNRequest (Some a) id) db
            /\ (n_status (route env h hd id db).2 = 200
                \/ n_status (route env h hd id db).2 = 404
                \/ (n_status (route env h hd id db).2 = 500
                    /\ (exists text, id = NotAnId text)
                    /\ (route env h hd id db).1 = db))) as Hpass.
  { intros hd a Hhd Ha. unfold route. rewrite Ha. split; [done|].
    by apply (handler_with_user now). }
  assert (forall (hd : NRequest -> DB -> DB * NResponse) st m,
            auth env h = Denied st m ->
            route env h hd id db = (db, mkNResponse 401 (Message m)))
    as Hdeny.
  { intros hd st m Hd. unfold route. rewrite Hd.
    by rewrite (auth_denies_401 env h st m Hd). }
  assert (forall hd : NRequest -> DB -> DB * NResponse,
            hd ∈ notificationRoutes now ->
            (forall text, id <> NotAnId text) ->
            n_status (route env h hd id db).2 <> 500) as Hno.
  { intros hd Hhd Hid. destruct (auth env h) as [a|st m] eqn:E.
    - destruct (Hpass hd a Hhd eq_refl)
        as (_ & [-> | [-> | (_ & (text & Ht) & _)]]);
        [discriminate..|]. by destruct (Hid text).
    - by rewrite (Hdeny hd st m eq_refl). }
  split; [by intros a; apply Hpass|]. split; [by apply Hdeny|].
  split; [|split; [|split]].
  - intros i ->. by apply Hno.
  - unfold route. destruct (auth env h) as [a|st m] eqn:E.
    + by rewrite (getUnreadCount_eq _ _ a).
    + rewrite (auth_denies_401 env h st m E). discriminate.
  - unfold route. destruct (auth env h) as [a|st m] eqn:E.
    + by rewrite (markAllAsRead_eq _ _ _ a).
    + rewrite (auth_denies_401 env h st m E). discriminate.
  - revert Hin. unfold notificationRoutes. rewrite !elem_of_cons.
    intros [->|[->|[->|H]]]; [..|inversion H]; reflexivity.
Qed.

(** Mira, who is not active, asks to mark everything as read. *)
Lemma routes_need_a_user_witness :
  route ExA.env (Some "Bearer mira.tok")
    (fun req => markAllAsRead req 5000) (Id 0%nat) ExN.db
  = (ExN.db, mkNResponse 401 (Message "Invalid token or user inactive.")).
Proof.
  apply (proj1 (proj2 (routes_need_a_user ExA.env (Some "Bearer mira.tok")
                         5000 (fun req => markAllAsRead req 5000)
                         (Id 0%nat) ExN.db
                         ltac:(unfold notificationRoutes;
                               rewrite !elem_of_cons; tauto)))
           401).
  vm_compute. reflexivity.
Defined.

(** * Properties of the WhatsApp service *)

Lemma formatPhoneNumber_clean (phone : string) :
  WhatsAppService.replaceNonDigits (WhatsAppService.formatPhoneNumber phone)
  = WhatsAppService.formatPhoneNumber phone.
Proof.
  unfold WhatsAppService.formatPhoneNumber.
  destruct (Nat.eqb_spec
              (String.length (WhatsAppService.replaceNonDigits phone)) 10).
  - rewrite replaceNonDigits_app, replaceNonDigits_idem. reflexivity.
  - apply replaceNonDigits_idem.
Qed.

Lemma formatPhoneNumber_not_10 (phone : string) :
  String.length (WhatsAppService.formatPhoneNumber phone) <> 10%nat.
Proof.
  unfold WhatsAppService.formatPhoneNumber.
  destruct (Nat.eqb_spec
              (String.length (WhatsAppService.replaceNonDigits phone)) 10)
    as [E|E]; [|done].
  rewrite length_append, E. simpl. lia.
Qed.

Lemma present_Some s : present s = true -> exists a t, s = Some (String a t).
Proof. destruct s as [[|a t]|]; try discriminate. eauto. Qed.

Lemma configured_Some e :
  configured e = true ->
  exists tok id,
    e !! "WHATSAPP_TOKEN" = Some tok
    /\ e !! "WHATSAPP_PHONE_NUMBER_ID" = Some id
    /\ present (Some tok) = true /\ present (Some id) = true.
Proof.
  unfold configured. intros H. apply andb_true_iff in H as [Ht Hi].
  destruct (present_Some _ Ht) as (a & t & Et).
  destruct (present_Some _ Hi) as (b & i & Ei).
  exists (String a t), (String b i). by rewrite Et, Ei.
Qed.

(** X24.  Without both credentials in the environment, sendOTP of the
    service makes no request and answers the configuration error; it has
    dropped the credentials the service held, so a sendCustomMessage after
    it makes no request either, whatever the service was built with. *)
Theorem service_refuses_without_credentials (axios : Axios)
  (to otp clientName : string) (w : World) :
  configured (env w) = false ->
  outbox (WhatsApp.sendOTP axios to otp clientName w).1 = outbox w
  /\ (WhatsApp.sendOTP axios to otp clientName w).2
     = Failed
         (VStr "WhatsApp credentials not configured. Please set WHATSAPP_TOKEN and WHATSAPP_PHONE_NUMBER_ID")
         (Some VUndefined)
  /\ forall to' text,
       outbox (WhatsApp.sendCustomMessage axios to' text
                 (WhatsApp.sendOTP axios to otp clientName w).1).1
       = outbox w
       /\ (WhatsApp.sendCustomMessage axios to' text
             (WhatsApp.sendOTP axios to otp clientName w).1).2
          = Failed (VStr "WhatsApp credentials not configured") None.
Proof.
  intros H. unfold configured in H.
  assert (negb (present (env w !! "WHATSAPP_TOKEN"))
          || negb (present (env w !! "WHATSAPP_PHONE_NUMBER_ID")) = true)
    as Hno.
  { destruct (present (env w !! "WHATSAPP_TOKEN")); [|done].
    simpl in *. by rewrite H. }
  unfold WhatsApp.sendOTP. cbn [token phoneNumberId]. rewrite Hno.
  split; [done|]. split; [done|]. intros to' text.
  unfold WhatsApp.sendCustomMessage. cbn [fst this token phoneNumberId].
  by rewrite Hno.
Qed.

(** The service was built with credentials that the environment has
    lost. *)
Lemma service_refuses_without_credentials_witness :
  let w := mkWorld ∅ (WhatsApp.new ExW.env) [] in
  (WhatsApp.sendCustomMessage ExW.axios "9876543210" "hello"
     (WhatsApp.sendOTP ExW.axios "9876543210" "123456" "Asha" w).1).2
  = Failed (VStr "WhatsApp credentials not configured") None.
Proof.
  intros w.
  apply (service_refuses_without_credentials ExW.axios "9876543210" "123456"
           "Asha" w eq_refl).
Defined.

(** X25.  With both credentials in the environment, sendOTP of the
    service makes exactly one request: a POST to the messages of the phone
    number id of the environment, authorized with the token of the
    environment, carrying the code as the text of the body and of the
    button, and addressed to the normalized number, which is made of
    digits and never has exactly 10 of them. *)
Theorem service_posts_to_normalized_number (axios : Axios)
  (to otp clientName : string) (w : World) :
  configured (env w) = true ->
  exists r tok id templateName,
    outbox (WhatsApp.sendOTP axios to otp clientName w).1
    = (outbox w ++ [r])%list
    /\ env w !! "WHATSAPP_TOKEN" = Some tok
    /\ env w !! "WHATSAPP_PHONE_NUMBER_ID" = Some id
    /\ method r = POST
    /\ url r = apiUrl (this w) +:+ "/" +:+ id +:+ "/messages"
    /\ headerOf "Authorization" r = Some ("Bearer " +:+ tok)
    /\ data r
       = Some (Template (WhatsAppService.formatPhoneNumber to) templateName
                 "en_US" otp otp)
    /\ WhatsAppService.replaceNonDigits (WhatsAppService.formatPhoneNumber to)
       = WhatsAppService.formatPhoneNumber to
    /\ String.length (WhatsAppService.formatPhoneNumber to) <> 10%nat.
Proof.
  intros H. destruct (configured_Some _ H) as (tok & id & Et & Ei & Pt & Pi).
  unfold WhatsApp.sendOTP, request. cbn [token phoneNumberId apiUrl env this outbox].
  rewrite Et, Ei, Pt, Pi. cbn [negb orb shown default].
  eexists _, tok, id, _.
  split.
  { destruct (axios _ _) as [d|e]; [destruct (firstMessageId d)|];
      reflexivity. }
  split; [done|]. split; [done|]. split; [done|]. split; [done|].
  split; [done|]. split; [done|].
  split; [apply formatPhoneNumber_clean|apply formatPhoneNumber_not_10].
Qed.

Lemma service_posts_to_normalized_number_witness :
  exists r,
    outbox (WhatsApp.sendOTP ExW.axios "98765 43210" "123456" "Asha"
              ExW.world).1 = [r]
    /\ url r = "https://graph.facebook.com/v22.0/555/messages"
    /\ headerOf "Authorization" r = Some "Bearer t0k"
    /\ addressee r = Some "919876543210".
Proof.
  destruct (service_posts_to_normalized_number ExW.axios "98765 43210"
              "123456" "Asha" ExW.world eq_refl)
    as (r & tok & id & tn & E & Et & Ei & _ & Eu & Eh & Ed & _).
  exists r. split; [exact E|].
  vm_compute in Et. injection Et as <-. vm_compute in Ei. injection Ei as <-.
  split; [exact Eu|]. split; [exact Eh|].
  unfold addressee. rewrite Ed. reflexivity.
Defined.

Lemma sendOTP_this (axios : Axios) (to otp clientName : string) (w : World) :
  this (WhatsApp.sendOTP axios to otp clientName w).1
  = mkService (apiUrl (this w)) (env w !! "WHATSAPP_TOKEN")
      (env w !! "WHATSAPP_PHONE_NUMBER_ID")
  /\ env (WhatsApp.sendOTP axios to otp clientName w).1 = env w.
Proof.
  unfold WhatsApp.sendOTP, request.
  destruct (_ || _); [done|].
  destruct (axios _ _) as [d|e]; [destruct (firstMessageId d)|]; done.
Qed.

Lemma sendCustomMessage_request (axios : Axios) (to text : string)
  (w : World) tok id :
  token (this w) = Some tok -> phoneNumberId (this w) = Some id ->
  present (Some tok) = true -> present (Some id) = true ->
  outbox (WhatsApp.sendCustomMessage axios to text w).1
  = (outbox w
     ++ [mkHttpRequest POST
           (apiUrl (this w) +:+ "/" +:+ id +:+ "/messages")
           (Some (Text (WhatsAppService.formatPhoneNumber to) text))
           [("Authorization", "Bearer " +:+ tok);
            ("Content-Type", "application/json")]])%list.
Proof.
  intros Et Ei Pt Pi. unfold WhatsApp.sendCustomMessage, request.
  rewrite Et, Ei, Pt, Pi. cbn [negb orb shown default].
  destruct (axios _ _) as [d|e]; [destruct (firstMessageId d)|]; done.
Qed.

(** X26.  sendCustomMessage sends with the credentials the service
    holds, not those of the environment: the ones it was built with, until
    a sendOTP replaces them.  After a sendOTP in a configured environment
    its request is authorized with the token of the environment, whatever
    the service held before; and a service that holds no token makes no
    request, though the environment is configured. *)
Theorem custom_message_credentials (axios : Axios)
  (to otp clientName to' text : string) (w : World) :
  configured (env w) = true ->
  (exists r tok id,
     env w !! "WHATSAPP_TOKEN" = Some tok
     /\ env w !! "WHATSAPP_PHONE_NUMBER_ID" = Some id
     /\ outbox (WhatsApp.sendCustomMessage axios to' text
                  (WhatsApp.sendOTP axios to otp clientName w).1).1
        = (outbox (WhatsApp.sendOTP axios to otp clientName w).1 ++ [r])%list
     /\ headerOf "Authorization" r = Some ("Bearer " +:+ tok)
     /\ url r = apiUrl (this w) +:+ "/" +:+ id +:+ "/messages"
     /\ data r = Some (Text (WhatsAppService.formatPhoneNumber to') text))
  /\ (present (token (this w)) = false ->
      WhatsApp.sendCustomMessage axios to' text w
      = (w, Failed (VStr "WhatsApp credentials not configured") None)).
Proof.
  intros H. destruct (configured_Some _ H) as (tok & id & Et & Ei & Pt & Pi).
  split.
  - destruct (sendOTP_this axios to otp clientName w) as [Hthis _].
    eexists _, tok, id. split; [done|]. split; [done|]. split.
    + apply (sendCustomMessage_request _ _ _ _ tok id); try done.
      * by rewrite Hthis, <- Et.
      * by rewrite Hthis, <- Ei.
    + rewrite Hthis. done.
  - intros Hp. unfold WhatsApp.sendCustomMessage. by rewrite Hp.
Qed.

(** The service was built without credentials; the environment has them
    now. *)
Lemma custom_message_credentials_witness :
  let w := mkWorld ExW.env (WhatsApp.new ∅) [] in
  WhatsApp.sendCustomMessage ExW.axios "9876543210" "hello" w
  = (w, Failed (VStr "WhatsApp credentials not configured") None).
Proof.
  intros w.
  apply (proj2 (custom_message_credentials ExW.axios "" "" "" "9876543210"
                  "hello" w eq_refl)).
  reflexivity.
Defined.

(** X27.  What sendOTP of the service makes of the answer of the API, the
    environment being configured.  The id of the first message is
    reported with the normalized number; an answer with an empty list of
    messages is a success without id; an answer without [messages] is
    reported as a failure with the TypeError as its error, though the
    request was made; a refusal of the API is reported with its data and
    status, an error without answer with its message. *)
Theorem service_reads_the_answer (axios : Axios) (to otp clientName : string)
  (w : World) :
  configured (env w) = true ->
  (forall fields mfields rest,
     (forall r, axios (length (outbox w)) r = Resolved (VObj fields)) ->
     field "messages" fields = VArr (VObj mfields :: rest) ->
     (WhatsApp.sendOTP axios to otp clientName w).2
     = SendOk (field "id" mfields)
         (Some (WhatsAppService.formatPhoneNumber to)))
  /\ (forall fields,
        (forall r, axios (length (outbox w)) r = Resolved (VObj fields)) ->
        field "messages" fields = VArr [] ->
        (WhatsApp.sendOTP axios to otp clientName w).2
        = SendOk VUndefined (Some (WhatsAppService.formatPhoneNumber to)))
  /\ (forall fields,
        (forall r, axios (length (outbox w)) r = Resolved (VObj fields)) ->
        field "messages" fields = VUndefined ->
        (exists text,
           (WhatsApp.sendOTP axios to otp clientName w).2
           = Failed (VStr text) (Some VUndefined))
        /\ length (outbox (WhatsApp.sendOTP axios to otp clientName w).1)
           = S (length (outbox w)))
  /\ (forall msg d st,
        (forall r,
           axios (length (outbox w)) r
           = Rejected (mkJsError msg (Some (d, st)))) ->
        truthy d = true ->
        (WhatsApp.sendOTP axios to otp clientName w).2
        = Failed d (Some (VNum st)))
  /\ (forall msg,
        (forall r, axios (length (outbox w)) r = Rejected (mkJsError msg None)) ->
        (WhatsApp.sendOTP axios to otp clientName w).2
        = Failed (VStr msg) (Some VUndefined)).
Proof.
  intros H. destruct (configured_Some _ H) as (tok & id & Et & Ei & Pt & Pi).
  unfold WhatsApp.sendOTP, request.
  cbn [token phoneNumberId apiUrl env this outbox].
  rewrite Et, Ei, Pt, Pi. cbn [negb orb shown default].
  split; [|split; [|split; [|split]]].
  - intros fields mfields rest Ha Hm. rewrite Ha.
    unfold firstMessageId. cbn [getProp]. by rewrite Hm.
  - intros fields Ha Hm. rewrite Ha.
    unfold firstMessageId. cbn [getProp]. by rewrite Hm.
  - intros fields Ha Hm. rewrite Ha.
    unfold firstMessageId. cbn [getProp]. rewrite Hm.
    split; [by eexists|]. cbn. rewrite length_app. simpl. lia.
  - intros msg d st Ha Hd. rewrite Ha. unfold errorOf, statusOf. simpl.
    by rewrite Hd.
  - intros msg Ha. by rewrite Ha.
Qed.

Lemma service_reads_the_answer_witness :
  (WhatsApp.sendOTP ExW.axios "9876543210" "123456" "Asha" ExW.world).2
  = SendOk (VStr "wamid.0") (Some "919876543210").
Proof.
  apply (proj1 (service_reads_the_answer ExW.axios "9876543210" "123456"
                  "Asha" ExW.world eq_refl)
           [("messages", VArr [VObj [("id", VStr "wamid.0")]])]
           [("id", VStr "wamid.0")] []);
    [intros r|]; reflexivity.
Defined.

(** X28.  getMessageStatus does not look at the credentials: it always
    makes one request, a GET of the message under the API's address,
    authorized with the token the service holds, and with
    "Bearer undefined" when it holds none.  It reports the [status] of
    the answer with the answer, and fails on an answer that is [null]. *)
Theorem status_query_is_not_guarded (axios : Axios) (messageId : string)
  (w : World) :
  outbox (WhatsApp.getMessageStatus axios messageId w).1
  = (outbox w
     ++ [mkHttpRequest GET (apiUrl (this w) +:+ "/" +:+ messageId) None
           [("Authorization",
             "Bearer " +:+ default "undefined" (token (this w)))]])%list
  /\ (forall fields,
        (forall r, axios (length (outbox w)) r = Resolved (VObj fields)) ->
        (WhatsApp.getMessageStatus axios messageId w).2
        = StatusOk (field "status" fields) (VObj fields))
  /\ ((forall r, axios (length (outbox w)) r = Resolved VNull) ->
      exists text,
        (WhatsApp.getMessageStatus axios messageId w).2
        = Failed (VStr text) None).
Proof.
  unfold WhatsApp.getMessageStatus, request. split; [|split].
  - destruct (axios _ _) as [d|e]; [destruct (getProp d "status")|]; done.
  - intros fields Ha. by rewrite Ha.
  - intros Ha. rewrite Ha. by eexists.
Qed.

(** A service without token asks for the status of a message. *)
Lemma status_query_is_not_guarded_witness :
  (WhatsApp.getMessageStatus
     (fun _ _ => Resolved (VObj [("status", VStr "delivered")])) "wamid.7"
     (mkWorld ∅ (WhatsApp.new ∅) [])).2
  = StatusOk (VStr "delivered") (VObj [("status", VStr "delivered")]).
Proof.
  apply (proj1 (proj2 (status_query_is_not_guarded
                         (fun _ _ =>
                            Resolved (VObj [("status", VStr "delivered")]))
                         "wamid.7" (mkWorld ∅ (WhatsApp.new ∅) [])))
           [("status", VStr "delivered")]).
  intros r. reflexivity.
Defined.
